(** * Job scrapers: field extraction, summary, detail fetch and table writer

  A shallow embedding of the text heuristics of [scrape_jobs_github.py] and
  [scrape_microsoft_jobs.py] ([extract_experience_and_skills],
  [get_job_detail]) and of the [save_to_excel] writer shared by the three
  scraper scripts, then of the functions around them: the listing
  functions, [scrape_all_jobs], the sample generator and the two scrapers
  of [scrape_tech_jobs.py], and the three [main] functions.

  Text is a [string] whose characters are the code points U+0000..U+00FF;
  on that range Python's [str.lower], the classes [\d] and [\s] of [re]
  and case-insensitive literal matching are the functions given below. *)

From Stdlib Require Import List String Ascii Bool Arith Lia ZArith DecimalString.
Import ListNotations.
Local Open Scope string_scope.
Local Open Scope nat_scope.

(** ** Python string and list primitives *)

Module Py.

(** [str.lower] on one code point below 256: A-Z and the Latin-1 capitals
    U+00C0..U+00DE (the multiplication sign U+00D7 apart) move up by 32. *)
Definition lower_char (c : ascii) : ascii :=
  let n := nat_of_ascii c in
  if ((65 <=? n) && (n <=? 90))
     || ((192 <=? n) && (n <=? 222) && negb (n =? 215))
  then ascii_of_nat (n + 32)
  else c.

Fixpoint lower (s : string) : string :=
  match s with
  | EmptyString => EmptyString
  | String c s' => String (lower_char c) (lower s')
  end.

Fixpoint startswith (p s : string) : bool :=
  match p, s with
  | EmptyString, _ => true
  | String _ _, EmptyString => false
  | String a p', String b s' => Ascii.eqb a b && startswith p' s'
  end.

(** [sub in s] on two strings. *)
Fixpoint contains (sub s : string) : bool :=
  startswith sub s
  || match s with
     | EmptyString => false
     | String _ s' => contains sub s'
     end.

(** [sep.join(l)] *)
Fixpoint join (sep : string) (l : list string) : string :=
  match l with
  | [] => ""
  | [x] => x
  | x :: l' => x ++ sep ++ join sep l'
  end.

(** [s[:n]] on a string, for [n >= 0]. *)
Fixpoint take (n : nat) (s : string) : string :=
  match n, s with
  | S n', String c s' => String c (take n' s')
  | _, _ => ""
  end.

(** [s[i:]] on a string, for [i >= 0]. *)
Fixpoint drop (n : nat) (s : string) : string :=
  match n, s with
  | S n', String _ s' => drop n' s'
  | _, _ => s
  end.

(** Number of occurrences of one character. *)
Fixpoint count_char (c : ascii) (s : string) : nat :=
  match s with
  | EmptyString => 0
  | String a s' => (if Ascii.eqb a c then 1 else 0) + count_char c s'
  end.

End Py.

(** ** The fragment of [re] the scrapers use

    A backtracking matcher in the priority order of Python's engine: greedy
    repetition and option, alternatives left to right.  [run r s] lists every
    way [r] matches a prefix of [s], as the pair of the matched text and the
    rest, the engine's preferred way first. *)

Module Re.

Inductive atom : Type :=
| Lit (c : ascii)      (* a literal character, compared under IGNORECASE *)
| Digit                (* \d *)
| Space.               (* \s *)

Inductive regex : Type :=
| Eps
| Atom (a : atom)
| Cat (r1 r2 : regex)
| Alt (r1 r2 : regex)
| Opt (r : regex)      (* r? *)
| Star (a : atom)      (* a* *)
| Plus (a : atom).     (* a+ *)

Definition is_digit (c : ascii) : bool :=
  let n := nat_of_ascii c in (48 <=? n) && (n <=? 57).

Definition is_space (c : ascii) : bool :=
  let n := nat_of_ascii c in
  ((9 <=? n) && (n <=? 13)) || ((28 <=? n) && (n <=? 32))
  || (n =? 133) || (n =? 160).

Definition atom_matches (a : atom) (c : ascii) : bool :=
  match a with
  | Lit x => Ascii.eqb (Py.lower_char c) (Py.lower_char x)
  | Digit => is_digit c
  | Space => is_space c
  end.

Definition consume (c : ascii) (p : string * string) : string * string :=
  (String c (fst p), snd p).

Fixpoint star (a : atom) (s : string) : list (string * string) :=
  match s with
  | EmptyString => [("", "")]
  | String c s' =>
      if atom_matches a c
      then (map (consume c) (star a s') ++ [("", s)])%list
      else [("", s)]
  end.

Definition extend (m1 : string) (p : string * string) : string * string :=
  (m1 ++ fst p, snd p).

Fixpoint run (r : regex) (s : string) : list (string * string) :=
  match r with
  | Eps => [("", s)]
  | Atom a =>
      match s with
      | String c s' => if atom_matches a c then [(String c "", s')] else []
      | EmptyString => []
      end
  | Cat r1 r2 =>
      flat_map (fun p => map (extend (fst p)) (run r2 (snd p))) (run r1 s)
  | Alt r1 r2 => (run r1 s ++ run r2 s)%list
  | Opt r1 => (run r1 s ++ [("", s)])%list
  | Star a => star a s
  | Plus a =>
      match s with
      | String c s' =>
          if atom_matches a c then map (consume c) (star a s') else []
      | EmptyString => []
      end
  end.

(** Where the leftmost match starts and what it is: the first element of
    [re.findall] for a pattern whose one group spans the whole pattern. *)
Fixpoint search (r : regex) (s : string) : option string :=
  match run r s with
  | (m, _) :: _ => Some m
  | [] =>
      match s with
      | EmptyString => None
      | String _ s' => search r s'
      end
  end.

(** [re.findall(r, s)]: the non-overlapping matches from left to right.
    The scan resumes after a match, one character further after an empty
    one; [fuel] bounds the number of scan steps. *)
Fixpoint findall_from (fuel : nat) (r : regex) (s : string) : list string :=
  match fuel with
  | 0 => []
  | S fuel' =>
      let advance :=
        match s with
        | EmptyString => []
        | String _ s' => findall_from fuel' r s'
        end in
      match run r s with
      | (EmptyString, _) :: _ => "" :: advance
      | (m, rest) :: _ => m :: findall_from fuel' r rest
      | [] => advance
      end
  end.

Definition findall (r : regex) (s : string) : list string :=
  findall_from (S (String.length s)) r s.

(** Pattern builders. *)
Fixpoint word (w : string) : regex :=
  match w with
  | EmptyString => Eps
  | String c w' => Cat (Atom (Lit c)) (word w')
  end.

Fixpoint seq (rs : list regex) : regex :=
  match rs with
  | [] => Eps
  | r :: rs' => Cat r (seq rs')
  end.

Fixpoint alts (r : regex) (rs : list regex) : regex :=
  match rs with
  | [] => r
  | r' :: rs' => Alt r (alts r' rs')
  end.

End Re.

(** ** [extract_experience_and_skills] *)

(** What the function can be handed: a text, [None], or some other object
    (an integer stands for those). *)
Inductive pyobj : Type :=
| PyNone
| PyStr (s : string)
| PyInt (n : nat).

(** Exceptions derived from [Exception], with their message. *)
Inductive exn_class : Type :=
| AttributeError
| KeyError
| RequestException
| HTTPError
| OSError.

Inductive exn : Type :=
| Exn (cls : exn_class) (msg : string).

Inductive result (A : Type) : Type :=
| Returns (a : A)
| Raises (e : exn).
Arguments Returns {A} a.
Arguments Raises {A} e.

(** [not obj] *)
Definition falsy (o : pyobj) : bool :=
  match o with
  | PyNone => true
  | PyStr s => match s with EmptyString => true | _ => false end
  | PyInt n => n =? 0
  end.

Section Extractor.

Variable experience_patterns : list Re.regex.
Variable skill_keywords : list string.

(** The loop over [experience_patterns], leaving at the first pattern
    with a match. *)
Fixpoint experience_loop (pats : list Re.regex) (desc_lower : string) : string :=
  match pats with
  | [] => ""
  | pattern :: pats' =>
      match Re.findall pattern desc_lower with
      | m :: _ => m
      | [] => experience_loop pats' desc_lower
      end
  end.

(** The loop over [skill_keywords], appending to [found_skills]. *)
Definition skills_step (desc_lower : string) (found : list string) (skill : string)
  : list string :=
  if Py.contains (Py.lower skill) desc_lower then (found ++ [skill])%list else found.

Definition found_skills (desc_lower : string) : list string :=
  fold_left (skills_step desc_lower) skill_keywords [].

Definition top_skills (desc_lower : string) : list string :=
  firstn 10 (found_skills desc_lower).

(** The function on a text. *)
Definition extract (job_description : string) : string * string :=
  match job_description with
  | EmptyString => ("", "")
  | _ =>
      let desc_lower := Py.lower job_description in
      (experience_loop experience_patterns desc_lower,
       Py.join ", " (top_skills desc_lower))
  end.

(** The function on any object: [.lower()] exists on texts only. *)
Definition extract_experience_and_skills (job_description : pyobj)
  : result (string * string) :=
  if falsy job_description then Returns ("", "")
  else match job_description with
       | PyStr s => Returns (extract s)
       | _ => Raises (Exn AttributeError "object has no attribute 'lower'")
       end.

End Extractor.

(** ** Output, files and the network

    What the scripts print is kept as a list of events, newest first; the
    files they write as an association list from file name to table. *)

(** A Python dict with text keys and values, in insertion order. *)
Definition dict : Type := list (string * string).

(** [d.get(key)] *)
Fixpoint dict_get (d : dict) (key : string) : option string :=
  match d with
  | [] => None
  | (k, v) :: d' => if String.eqb k key then Some v else dict_get d' key
  end.

Definition dict_keys (d : dict) : list string := map fst d.

(** A cell of a table: a text, or [None] for NaN. *)
Definition cell : Type := option string.

(** A pandas DataFrame, column by column. *)
Record dataframe : Type := {
  nrows : nat;
  columns : list (string * list cell)
}.

Inductive printed : Type :=
| ErrorFetching (job_url : string) (e : exn)
| NoJobsToSave
| SavedJobs (n : nat) (filename : string)
| SummaryStats (total with_experience with_skills with_descriptions : nat)
| ErrorSaving (e : exn).

Record world : Type := {
  stdout : list printed;
  files : list (string * dataframe)
}.

Definition M (A : Type) : Type := world -> result A * world.

Definition ret {A : Type} (a : A) : M A := fun w => (Returns a, w).

Definition raise {A : Type} (e : exn) : M A := fun w => (Raises e, w).

Definition bind {A B : Type} (c : M A) (k : A -> M B) : M B :=
  fun w =>
    match c w with
    | (Returns a, w') => k a w'
    | (Raises e, w') => (Raises e, w')
    end.

Notation "x <- c ;; k" := (bind c (fun x => k))
  (at level 61, c at next level, right associativity).
Notation "c ;;; k" := (bind c (fun _ => k))
  (at level 61, right associativity).

Definition lift {A : Type} (r : result A) : M A := fun w => (r, w).

Definition print (p : printed) : M unit :=
  fun w => (Returns tt, {| stdout := p :: stdout w; files := files w |}).

(** [try: body except Exception as e: handler e] *)
Definition try_except {A : Type} (body : M A) (handler : exn -> M A) : M A :=
  fun w =>
    match body w with
    | (Returns a, w') => (Returns a, w')
    | (Raises e, w') => handler e w'
    end.

(** ** [get_job_detail] *)

Record response : Type := {
  status_code : nat;
  content : string
}.

Record job_detail : Type := {
  description : string;
  experience : string;
  skills : string;
  summary : string;
  salary : string
}.

Definition empty_detail : job_detail :=
  {| description := ""; experience := ""; skills := ""; summary := "";
     salary := "" |}.

(** [response.raise_for_status()] *)
Definition raise_for_status (r : response) : M unit :=
  if (400 <=? status_code r) && (status_code r <? 600)
  then raise (Exn HTTPError "error status")
  else ret tt.

(** [description[:200] + "..." if len(description) > 200 else description] *)
Definition summarize (description : string) : string :=
  if 200 <? String.length description
  then Py.take 200 description ++ "..."
  else description.

Section Detail.

(** The network: what [requests.get(job_url, headers=HEADERS, timeout=10)]
    gives for a URL. *)
Variable requests_get : string -> result response.

(** The parsed page: the stripped text of the first element a selector
    finds in a page, [None] when it finds none. *)
Variable select_one_text : string -> string -> option string.

Variable description_selectors : list string.
Variable extract_experience_and_skills : pyobj -> result (string * string).

(** The loop over [description_selectors], leaving at the first hit. *)
Fixpoint first_description (selectors : list string) (page : string) : string :=
  match selectors with
  | [] => ""
  | selector :: selectors' =>
      match select_one_text page selector with
      | Some text => text
      | None => first_description selectors' page
      end
  end.

Definition get_job_detail_body (job_url : string) : M job_detail :=
  resp <- lift (requests_get job_url) ;;
  raise_for_status resp ;;;
  let description := first_description description_selectors (content resp) in
  es <- lift (extract_experience_and_skills (PyStr description)) ;;
  ret {| description := description;
         experience := fst es;
         skills := snd es;
         summary := summarize description;
         salary := "" |}.

Definition get_job_detail (job_url : string) : M job_detail :=
  try_except (get_job_detail_body job_url)
    (fun e => print (ErrorFetching job_url e) ;;; ret empty_detail).

End Detail.

(** ** [save_to_excel] *)

Definition required_columns : list string :=
  ["JobTitle"; "Location"; "ExperienceRequired"; "SkillsRequired"; "Salary";
   "JobURL"; "JobDescriptionSummary"].

Definition mem (x : string) (l : list string) : bool :=
  existsb (String.eqb x) l.

(** The keys of all the records, each once, in the order they first
    appear. *)
Definition add_keys (seen : list string) (d : dict) : list string :=
  fold_left (fun acc k => if mem k acc then acc else (acc ++ [k])%list)
    (dict_keys d) seen.

Definition union_keys (jobs : list dict) : list string :=
  fold_left add_keys jobs [].

(** [pd.DataFrame(jobs)] for a list of dicts. *)
Definition DataFrame (jobs : list dict) : dataframe :=
  {| nrows := List.length jobs;
     columns := map (fun k => (k, map (fun d => dict_get d k) jobs))
                  (union_keys jobs) |}.

Definition column_names (df : dataframe) : list string := map fst (columns df).

(** [df[col]] for one name. *)
Fixpoint find_column (cols : list (string * list cell)) (col : string)
  : option (list cell) :=
  match cols with
  | [] => None
  | (k, v) :: cols' => if String.eqb k col then Some v else find_column cols' col
  end.

(** [df[col] = value] for a name that is not a column yet. *)
Definition add_column (df : dataframe) (col value : string) : dataframe :=
  {| nrows := nrows df;
     columns := (columns df ++ [(col, repeat (Some value) (nrows df))])%list |}.

(** The loop that adds each required column the frame lacks. *)
Definition ensure_columns (df : dataframe) (cols : list string) : dataframe :=
  fold_left
    (fun df col => if mem col (column_names df) then df else add_column df col "")
    cols df.

(** [df[cols]] for a list of names; a name that is no column is a
    [KeyError]. *)
Fixpoint select_columns (cols : list (string * list cell)) (names : list string)
  : result (list (string * list cell)) :=
  match names with
  | [] => Returns []
  | name :: names' =>
      match find_column cols name with
      | None => Raises (Exn KeyError name)
      | Some v =>
          match select_columns cols names' with
          | Returns sel => Returns ((name, v) :: sel)
          | Raises e => Raises e
          end
      end
  end.

Definition getitem (df : dataframe) (names : list string) : result dataframe :=
  match select_columns (columns df) names with
  | Returns sel => Returns {| nrows := nrows df; columns := sel |}
  | Raises e => Raises e
  end.

(** [df.fillna(value)] *)
Definition fillna (df : dataframe) (value : string) : dataframe :=
  {| nrows := nrows df;
     columns :=
       map (fun kv =>
              (fst kv,
               map (fun c : cell =>
                      match c with Some v => Some v | None => Some value end)
                 (snd kv)))
         (columns df) |}.

(** [j.get(key)] is true: the key is there with a non-empty text. *)
Definition truthy_field (key : string) (j : dict) : bool :=
  match dict_get j key with
  | Some (String _ _) => true
  | _ => false
  end.

Section Writer.

(** The file system: the error, if any, that writing a file of a given
    name meets. *)
Variable write_error : string -> option exn.

(** [df.to_excel(filename, index=False, engine='openpyxl')] *)
Definition to_excel (df : dataframe) (filename : string) : M unit :=
  fun w =>
    match write_error filename with
    | Some e => (Raises e, w)
    | None =>
        (Returns tt,
         {| stdout := stdout w;
            files := (filename, df)
                     :: filter (fun f => negb (String.eqb (fst f) filename))
                          (files w) |})
    end.

Definition save_to_excel (jobs : list dict) (filename : string) : M unit :=
  match jobs with
  | [] => print NoJobsToSave
  | _ =>
      try_except
        (let df := DataFrame jobs in
         let df := ensure_columns df required_columns in
         df <- lift (getitem df required_columns) ;;
         let df := fillna df "" in
         to_excel df filename ;;;
         print (SavedJobs (List.length jobs) filename) ;;;
         print (SummaryStats (List.length jobs)
                  (List.length (filter (truthy_field "ExperienceRequired") jobs))
                  (List.length (filter (truthy_field "SkillsRequired") jobs))
                  (List.length (filter (truthy_field "JobDescriptionSummary") jobs))))
        (fun e => print (ErrorSaving e))
  end.

End Writer.

(** The frame [save_to_excel] hands to [to_excel]: [DataFrame(jobs)] after
    the loop over the required columns, the selection and [fillna]. *)
Definition frame_for_excel (jobs : list dict) : result dataframe :=
  match getitem (ensure_columns (DataFrame jobs) required_columns)
          required_columns with
  | Returns df => Returns (fillna df "")
  | Raises e => Raises e
  end.

(** The file of a given name, if one was written. *)
Fixpoint read_file (fs : list (string * dataframe)) (filename : string)
  : option dataframe :=
  match fs with
  | [] => None
  | (k, v) :: fs' => if String.eqb k filename then Some v else read_file fs' filename
  end.

(** The patterns, in the order of the source's list. *)
(** The first pattern: digits, an optional "+", white space, "year", an
    optional "s", white space, an optional "of" with white space after it,
    "experience". *)
Definition pat_years_experience : Re.regex :=
  Re.seq [Re.Plus Re.Digit; Re.Opt (Re.Atom (Re.Lit "+"%char)); Re.Star Re.Space;
          Re.word "year"; Re.Opt (Re.Atom (Re.Lit "s"%char)); Re.Star Re.Space;
          Re.Opt (Re.seq [Re.word "of"; Re.Star Re.Space]);
          Re.word "experience"].

(** The pattern "(minimum\s*\d+\s*years?)". *)
Definition pat_minimum_years : Re.regex :=
  Re.seq [Re.word "minimum"; Re.Star Re.Space; Re.Plus Re.Digit;
          Re.Star Re.Space; Re.word "year"; Re.Opt (Re.Atom (Re.Lit "s"%char))].

(** The pattern "(\d+\s*to\s*\d+\s*years?)". *)
Definition pat_range_years : Re.regex :=
  Re.seq [Re.Plus Re.Digit; Re.Star Re.Space; Re.word "to"; Re.Star Re.Space;
          Re.Plus Re.Digit; Re.Star Re.Space; Re.word "year";
          Re.Opt (Re.Atom (Re.Lit "s"%char))].

(** The alternative "entry\s*level" of the fourth pattern. *)
Definition pat_entry_level : Re.regex :=
  Re.seq [Re.word "entry"; Re.Star Re.Space; Re.word "level"].

(** The pattern "(bachelor|master|phd|degree)". *)
Definition pat_degree : Re.regex :=
  Re.alts (Re.word "bachelor") [Re.word "master"; Re.word "phd"; Re.word "degree"].

Module Github.

Definition pat_seniority : Re.regex :=
  Re.alts pat_entry_level
    [Re.word "junior"; Re.word "senior"; Re.word "principal"; Re.word "lead"].

Definition experience_patterns : list Re.regex :=
  [pat_years_experience; pat_minimum_years; pat_range_years;
   pat_seniority; pat_degree].

Definition skill_keywords : list string :=
  ["python"; "java"; "javascript"; "typescript"; "go"; "rust"; "c#"; "c++";
   "sql"; "html"; "css"; "react"; "vue"; "angular"; "node.js"; "docker";
   "kubernetes"; "aws"; "azure"; "gcp"; "git"; "github"; "linux"; "bash";
   "machine learning"; "ai"; "data science"; "analytics"; "cloud";
   "agile"; "scrum"; "devops"; "ci/cd"; "terraform"; "ansible"].

Definition found_skills := found_skills skill_keywords.
Definition top_skills := top_skills skill_keywords.
Definition extract := extract experience_patterns skill_keywords.
Definition extract_experience_and_skills :=
  extract_experience_and_skills experience_patterns skill_keywords.

(** The selectors of the source; the quotes inside the attribute selector
    are left out. *)
Definition description_selectors : list string :=
  [".markdown-body"; ".job-description"; ".job-details"; ".content"; "main";
   "[data-target=readme-toc.content]"].

Definition get_job_detail requests_get select_one_text :=
  get_job_detail requests_get select_one_text description_selectors
    extract_experience_and_skills.

Definition default_filename : string := "GitHub_Jobs.xlsx".

End Github.

Module Microsoft.

Definition pat_seniority : Re.regex :=
  Re.alts pat_entry_level
    [Re.word "junior"; Re.word "senior"; Re.word "principal"].

Definition experience_patterns : list Re.regex :=
  [pat_years_experience; pat_minimum_years; pat_range_years;
   pat_seniority; pat_degree].

Definition skill_keywords : list string :=
  ["python"; "java"; "javascript"; "c#"; "c++"; "sql"; "azure"; "aws";
   "react"; "angular"; "node.js"; "kubernetes"; "docker"; "git";
   "machine learning"; "ai"; "data science"; "analytics"; "cloud";
   "agile"; "scrum"; "devops"; "ci/cd"; "tensorflow"; "pytorch"].

Definition found_skills := found_skills skill_keywords.
Definition top_skills := top_skills skill_keywords.
Definition extract := extract experience_patterns skill_keywords.
Definition extract_experience_and_skills :=
  extract_experience_and_skills experience_patterns skill_keywords.

(** The selectors of the source; the quotes inside the attribute selector
    are left out. *)
Definition description_selectors : list string :=
  [".job-description"; ".job-details"; "[data-ph-at-id=job-description]";
   ".content"; "main"].

Definition get_job_detail requests_get select_one_text :=
  get_job_detail requests_get select_one_text description_selectors
    extract_experience_and_skills.

Definition default_filename : string := "Microsoft_Jobs.xlsx".

End Microsoft.

Module TechJobs.

Definition default_filename : string := "TechCompany_Jobs.xlsx".

End TechJobs.

(** ** Notions the properties are stated with *)

(** The test of the skills loop for one keyword. *)
Definition skill_matches (desc_lower skill : string) : bool :=
  Py.contains (Py.lower skill) desc_lower.

(** The entries the function reports for a text: those it joins. *)
Definition reported (skill_keywords : list string) (job_description : string)
  : list string :=
  match job_description with
  | EmptyString => []
  | _ => top_skills skill_keywords (Py.lower job_description)
  end.

(** The skills text holds at most ten entries of a vocabulary. *)
Definition at_most_ten_of (vocabulary : list string) (skills : string) : Prop :=
  exists entries,
    skills = Py.join ", " entries
    /\ List.length entries <= 10
    /\ incl entries vocabulary
    /\ Py.count_char "," skills <= 9.

(** The skills text as the specification words it: the vocabulary entries
    that occur in the lower-cased text, in vocabulary order, the first ten
    of them, joined with ", ". *)
Definition skills_spec (vocabulary : list string) (text : string) : string :=
  Py.join ", "
    (firstn 10
       (filter (fun k => Py.contains (Py.lower k) (Py.lower text)) vocabulary)).

(** The pattern matches at no index below [n] of the text. *)
Definition no_match_before (r : Re.regex) (s : string) (n : nat) : Prop :=
  forall i, i < n -> Re.run r (Py.drop i s) = [].

(** A run of decimal digits. *)
Fixpoint all_digits (s : string) : bool :=
  match s with
  | EmptyString => true
  | String c s' => Re.is_digit c && all_digits s'
  end.

(** A run of white space. *)
Fixpoint all_spaces (s : string) : bool :=
  match s with
  | EmptyString => true
  | String c s' => Re.is_space c && all_spaces s'
  end.

(** What follows the digits in the first pattern. *)
Definition years_tail : Re.regex :=
  Re.seq [Re.Opt (Re.Atom (Re.Lit "+")); Re.Star Re.Space;
          Re.word "year"; Re.Opt (Re.Atom (Re.Lit "s")); Re.Star Re.Space;
          Re.Opt (Re.seq [Re.word "of"; Re.Star Re.Space]);
          Re.word "experience"].

(** The texts the fourth pattern of the GitHub scraper stands for. *)
Definition seniority_word (m : string) : Prop :=
  m = "junior" \/ m = "senior" \/ m = "principal" \/ m = "lead"
  \/ exists ws, all_spaces ws = true /\ m = "entry" ++ ws ++ "level".

(** The texts the fourth pattern of the Microsoft scraper stands for. *)
Definition microsoft_seniority_word (m : string) : Prop :=
  m = "junior" \/ m = "senior" \/ m = "principal"
  \/ exists ws, all_spaces ws = true /\ m = "entry" ++ ws ++ "level".

(** The fetch of a page fails: [requests.get] raises, or the status of the
    response makes [raise_for_status] raise. *)
Definition fetch_fails (requests_get : string -> result response)
           (job_url : string) : bool :=
  match requests_get job_url with
  | Raises _ => true
  | Returns resp => (400 <=? status_code resp) && (status_code resp <? 600)
  end.

(** The cell of a record under a column: its text, the empty text when
    the record lacks the field. *)
Definition field_or_empty (col : string) (job : dict) : cell :=
  match dict_get job col with
  | Some v => Some v
  | None => Some ""
  end.

(** The table of the seven columns, as the specification words it. *)
Definition schema_table (jobs : list dict) : dataframe :=
  {| nrows := List.length jobs;
     columns := map (fun col => (col, map (field_or_empty col) jobs))
                  required_columns |}.

(** The column of a required name before [fillna]. *)
Definition raw_column (jobs : list dict) (c : string) : list cell :=
  if mem c (union_keys jobs)
  then map (fun j => dict_get j c) jobs
  else repeat (Some "") (List.length jobs).

(** ** Sample inputs *)

Definition long_text : string :=
  String.concat "" (repeat "job text " 30).

Definition timed_out (job_url : string) : result response :=
  Raises (Exn RequestException "Read timed out.").

Definition not_found (job_url : string) : result response :=
  Returns {| status_code := 404; content := "" |}.

Definition sample_jobs : list dict :=
  [[("JobTitle", "Site Reliability Engineer"); ("JobURL", "https://example.org/1")];
   [("Location", "Remote"); ("Team", "Platform"); ("JobTitle", "Data Analyst")]].

(** ** The writer of [scrape_tech_jobs.py]

    The same steps as [save_to_excel] above, with a result: [True] at the
    end of the [try], [False] from the handler, [None] when there is no
    record.  The line printed after the write starts with a check mark
    (U+2713), and [print] raises (UnicodeEncodeError) on a console whose
    encoding lacks that character: the handler then answers [False] for a
    file that was written. *)

(** [print] of a line that carries a character outside ASCII.
    [console_error] is the error a console that cannot encode the
    character raises, [None] for a console that prints every character. *)
Definition print_mark (console_error : option exn) (p : printed) : M unit :=
  match console_error with
  | Some e => raise e
  | None => print p
  end.

Section TechWriter.

Variable write_error : string -> option exn.
Variable console_error : option exn.

Definition tech_save_to_excel (jobs : list dict) (filename : string)
  : M (option bool) :=
  match jobs with
  | [] => print NoJobsToSave ;;; ret None
  | _ =>
      try_except
        (let df := DataFrame jobs in
         let df := ensure_columns df required_columns in
         df <- lift (getitem df required_columns) ;;
         let df := fillna df "" in
         to_excel write_error df filename ;;;
         print_mark console_error (SavedJobs (List.length jobs) filename) ;;;
         print (SummaryStats (List.length jobs)
                  (List.length (filter (truthy_field "ExperienceRequired") jobs))
                  (List.length (filter (truthy_field "SkillsRequired") jobs))
                  (List.length (filter (truthy_field "JobDescriptionSummary") jobs))) ;;;
         ret (Some true))
        (fun e => print (ErrorSaving e) ;;; ret (Some false))
  end.

End TechWriter.

(** A pattern that can match the empty text. *)
Fixpoint nullable (r : Re.regex) : bool :=
  match r with
  | Re.Eps => true
  | Re.Atom _ => false
  | Re.Cat r1 r2 => nullable r1 && nullable r2
  | Re.Alt r1 r2 => nullable r1 || nullable r2
  | Re.Opt _ => true
  | Re.Star _ => true
  | Re.Plus _ => false
  end.

(** ** The pages, the console and the scripts' runs

    The listing functions and the [main] functions print many lines, call
    [get_job_detail] and [save_to_excel], and one of them writes a text
    file.  Their state has the console, the written tables and the written
    text files; what the network and the HTML parser give is a parameter.
    The state also counts the draws made from the random generator.  The
    pauses ([time.sleep]) are left out.  Some lines start with a mark
    outside ASCII, which not every console can print: the [main] functions
    print those with [say_mark], which can raise. *)

(** [str.strip()] *)
Fixpoint lstrip (s : string) : string :=
  match s with
  | EmptyString => ""
  | String c s' => if Re.is_space c then lstrip s' else s
  end.

Fixpoint rstrip (s : string) : string :=
  match s with
  | EmptyString => ""
  | String c s' =>
      match rstrip s' with
      | EmptyString => if Re.is_space c then "" else String c ""
      | r => String c r
      end
  end.

Definition strip (s : string) : string := rstrip (lstrip s).

(** [str(n)] and the [{n}] of an f-string, for an integer. *)
Definition str_of_int (n : Z) : string := NilEmpty.string_of_int (Z.to_int n).

(** [bool(s)] for a text. *)
Definition nonempty (s : string) : bool :=
  match s with
  | EmptyString => false
  | String _ _ => true
  end.

(** [d[key]] *)
Definition dict_item (d : dict) (key : string) : result string :=
  match dict_get d key with
  | Some v => Returns v
  | None => Raises (Exn KeyError key)
  end.

(** [RequestException] and the classes derived from it. *)
Definition is_request_exception (e : exn) : bool :=
  match e with
  | Exn RequestException _ => true
  | Exn HTTPError _ => true
  | Exn _ _ => false
  end.

(** The network, the HTML parser, the file system and the random
    generator the scripts run against. *)
Record web : Type := {
  element : Type;
  (* requests.get(url, headers=HEADERS, timeout=...) *)
  http_get : string -> result response;
  (* soup.select_one(selector), then get_text(strip=True), on a page *)
  page_text : string -> string -> option string;
  (* soup.select(selector) on a page *)
  page_select : string -> string -> list element;
  (* soup.find_all('a', href=True) on a page *)
  page_links : string -> list element;
  (* soup.find_all(tag, class_=cls) on a page *)
  page_find_all : string -> string -> string -> list element;
  (* soup.prettify() *)
  page_prettify : string -> string;
  (* element.name *)
  tag_name : element -> string;
  (* element.get_text(strip=True) *)
  tag_text : element -> string;
  (* the href attribute of an element, if it has one *)
  tag_href : element -> option string;
  (* element.find(tag) *)
  tag_find : element -> string -> option element;
  (* element.find(tag, class_=cls) *)
  tag_find_class : element -> string -> string -> option element;
  (* element.find('a', href=True) *)
  tag_find_link : element -> option element;
  (* element.find_all(tag, class_=cls) *)
  tag_find_all_class : element -> string -> string -> list element;
  (* element.select_one(selector) *)
  tag_select_one : element -> string -> option element;
  (* urljoin(base, url) *)
  url_join : string -> string -> string;
  (* the error, if any, that opening a file for writing meets *)
  open_error : string -> option exn;
  (* the error, if any, that writing a spreadsheet meets *)
  excel_error : string -> option exn;
  (* the successive draws of the random generator *)
  draw : nat -> nat
}.

(** The lines the listing and main functions print. *)
Inductive line : Type :=
| Inner (p : printed)
| Rule (c : string) (n : nat)
| Heading (title : string)
| TestingConnection
| ConnectionOK
| StartingScraping
| AccessingPage
| AccessedPage
| FoundCards (n : nat) (selector : string)
| LookingForLinks
| FoundLinks (n : nat)
| NoCardsSavingPage
| PageSaved (filename : string)
| ProcessingJob (i n : nat)
| FetchingDetails (job_title : string)
| Processed (job_title : string)
| ErrorProcessingCard (i : nat) (e : exn)
| ErrorInListings (e : exn)
| TryingURL (url : string)
| FailedToAccess (url : string) (e : exn)
| CouldNotAccess
| AccessedURL (url : string)
| ScrapingPage (page : Z)
| NoJobsOnPage (page : Z)
| FoundOnPage (n : nat) (page : Z) (total : nat)
| WaitingNextPage
| SampleHeading
| JobTitleLine (i : nat) (job_title : string)
| LocationLine (location : string)
| URLLine (url : option string)
| SkillsLine (skills : option string)
| ExperienceLine (experience : string)
| BlankLine
| NoJobsScraped
| NetworkError (e : exn)
| CheckConnection
| UnexpectedError (e : exn)
| CheckDetails
| AttemptingSources
| AttemptingRemoteOK
| AttemptingStackOverflow
| RemoteOKFailed (e : exn)
| StackOverflowFailed (e : exn)
| FoundFromRemoteOK (n : nat)
| FoundFromStackOverflow (n : nat)
| ScrapingFailedGenerating
| GeneratedSample (n : nat)
| CreatedFile (n : nat)
| FrameworkNotes
| NoJobsAtAll
| GeneratingOffline
| GeneratingFallback.

Record site : Type := {
  console : list line;
  tables : list (string * dataframe);
  texts : list (string * string);
  drawn : nat
}.

Definition SM (A : Type) : Type := site -> result A * site.

Definition sret {A : Type} (a : A) : SM A := fun s => (Returns a, s).

Definition sraise {A : Type} (e : exn) : SM A := fun s => (Raises e, s).

Definition sbind {A B : Type} (c : SM A) (k : A -> SM B) : SM B :=
  fun s =>
    match c s with
    | (Returns a, s') => k a s'
    | (Raises e, s') => (Raises e, s')
    end.

Notation "x <~ c ;; k" := (sbind c (fun x => k))
  (at level 61, c at next level, right associativity).
Notation "c ~;; k" := (sbind c (fun _ => k))
  (at level 61, right associativity).

Definition slift {A : Type} (r : result A) : SM A := fun s => (r, s).

Definition say (l : line) : SM unit :=
  fun s =>
    (Returns tt,
     {| console := l :: console s; tables := tables s; texts := texts s;
        drawn := drawn s |}).

(** [print] of a line that carries a character outside ASCII: the check
    mark, the cross, the warning sign and the party popper of the lines of
    the [main] functions.  On a console whose encoding lacks these
    characters [print] raises (UnicodeEncodeError, which is no
    RequestException) and nothing of the line is shown.  [console_error]
    stands for the error of such a console, [None] for a console that
    prints every character; the message of the error, which names the
    character at fault, is not modelled. *)
Definition say_mark (console_error : option exn) (l : line) : SM unit :=
  match console_error with
  | Some e => sraise e
  | None => say l
  end.

(** [try: body except Exception as e: handler e] *)
Definition attempt {A : Type} (body : SM A) (handler : exn -> SM A) : SM A :=
  fun s =>
    match body s with
    | (Returns a, s') => (Returns a, s')
    | (Raises e, s') => handler e s'
    end.

(** A call of [get_job_detail] or [save_to_excel]: it runs on the written
    tables, and its lines go to the console. *)
Definition inner {A : Type} (c : M A) : SM A :=
  fun s =>
    let rw := c {| stdout := []; files := tables s |} in
    (fst rw,
     {| console := (map Inner (stdout (snd rw)) ++ console s)%list;
        tables := files (snd rw);
        texts := texts s;
        drawn := drawn s |}).

(** [with open(filename, "w", encoding="utf-8") as f: f.write(text)] *)
Definition write_text (W : web) (filename text : string) : SM unit :=
  fun s =>
    match open_error W filename with
    | Some e => (Raises e, s)
    | None =>
        (Returns tt,
         {| console := console s;
            tables := tables s;
            texts := (filename, text)
                     :: filter (fun f => negb (String.eqb (fst f) filename))
                          (texts s);
            drawn := drawn s |})
    end.

(** [requests.get(url, ...)] followed by [raise_for_status()]. *)
Definition fetch (W : web) (url : string) : SM response :=
  resp <~ slift (http_get W url) ;;
  if (400 <=? status_code resp) && (status_code resp <? 600)
  then sraise (Exn HTTPError "error status")
  else sret resp.

(** [element.get('href', '')] *)
Definition href_or_empty (W : web) (e : element W) : string :=
  match tag_href W e with
  | Some h => h
  | None => ""
  end.

(** The record a scraper builds for one job. *)
Definition job_record (job_title location experience skills salary job_url summary : string)
  : dict :=
  [("JobTitle", job_title); ("Location", location);
   ("ExperienceRequired", experience); ("SkillsRequired", skills);
   ("Salary", salary); ("JobURL", job_url);
   ("JobDescriptionSummary", summary)].

(** The loop over a list of selectors for [soup.select], leaving at the
    first one that finds elements. *)
Fixpoint select_cards (W : web) (selectors : list string) (page : string)
  : SM (list (element W)) :=
  match selectors with
  | [] => sret []
  | selector :: selectors' =>
      match page_select W page selector with
      | [] => select_cards W selectors' page
      | job_cards =>
          say (FoundCards (List.length job_cards) selector) ~;; sret job_cards
      end
  end.

Module GithubSite.

Definition BASE_URL : string := "https://github.com/about/careers".

(** The selectors of the source; the quotes inside the attribute selectors
    are left out. *)
Definition job_selectors : list string :=
  [".job-listing"; ".position"; ".career-position";
   "a[href*=/careers/positions/]"; "a[href*=jobs]"].

Definition link_keywords : list string :=
  ["job"; "career"; "position"; "opening"].

(** The test of the list comprehension over [all_links]. *)
Definition job_like_link (W : web) (link : element W) : bool :=
  existsb (fun keyword => Py.contains keyword (Py.lower (href_or_empty W link)))
    link_keywords.

(** The title and the URL of a card. *)
Definition title_and_url (W : web) (card : element W) : string * string :=
  if String.eqb (tag_name W card) "a"
  then (tag_text W card, url_join W BASE_URL (href_or_empty W card))
  else match tag_find W card "a" with
       | Some title_element =>
           (tag_text W title_element,
            url_join W BASE_URL (href_or_empty W title_element))
       | None => (tag_text W card, "")
       end.

(** The body of the loop over the cards: [None] stands for [continue].
    The [job_details] of a card no page is fetched for has four empty
    fields; it is the record of five empty fields here, whose description
    the loop does not read. *)
Definition process_card (W : web) (n i : nat) (card : element W)
  : SM (option dict) :=
  say (ProcessingJob (i + 1) n) ~;;
  let job_title := fst (title_and_url W card) in
  let job_url := snd (title_and_url W card) in
  if negb (nonempty job_title) || (String.length (strip job_title) <? 3)
  then sret None
  else
    let location := "Remote/Global" in
    job_details <~
      (if nonempty job_url && Py.contains "github.com" job_url
       then say (FetchingDetails job_title) ~;;
            inner (Github.get_job_detail (http_get W) (page_text W) job_url)
       else sret empty_detail) ;;
    let job_data :=
      job_record job_title location (experience job_details)
        (skills job_details) (salary job_details) job_url
        (summary job_details) in
    say (Processed job_title) ~;;
    sret (Some job_data).

(** The loop over the cards, with the [try] inside it. *)
Fixpoint process_cards (W : web) (n i : nat) (cards : list (element W))
         (jobs : list dict) : SM (list dict) :=
  match cards with
  | [] => sret jobs
  | card :: cards' =>
      r <~ attempt (process_card W n i card)
             (fun e => say (ErrorProcessingCard (i + 1) e) ~;; sret None) ;;
      process_cards W n (S i) cards'
        (match r with
         | Some job_data => (jobs ++ [job_data])%list
         | None => jobs
         end)
  end.

Definition get_job_listings (W : web) : SM (list dict) :=
  attempt
    (say AccessingPage ~;;
     resp <~ fetch W BASE_URL ;;
     let page := content resp in
     say AccessedPage ~;;
     job_cards <~ select_cards W job_selectors page ;;
     job_cards <~
       (match job_cards with
        | [] =>
            say LookingForLinks ~;;
            let found := filter (job_like_link W) (page_links W page) in
            say (FoundLinks (List.length found)) ~;; sret found
        | _ => sret job_cards
        end) ;;
     match job_cards with
     | [] =>
         say NoCardsSavingPage ~;;
         write_text W "debug_github_page.html" (page_prettify W page) ~;;
         say (PageSaved "debug_github_page.html") ~;;
         sret []
     | _ => process_cards W (List.length job_cards) 0 job_cards []
     end)
    (fun e => say (ErrorInListings e) ~;; sret []).

(** [job['JobURL'][:60]], with the dots, or the line for no URL. *)
Definition url_line (job : dict) : SM unit :=
  url <~ slift (dict_item job "JobURL") ;;
  if nonempty url
  then url' <~ slift (dict_item job "JobURL") ;;
       say (URLLine (Some (Py.take 60 url')))
  else say (URLLine None).

(** The loop that shows the first jobs. *)
Fixpoint show_jobs (i : nat) (jobs : list dict) : SM unit :=
  match jobs with
  | [] => sret tt
  | job :: jobs' =>
      job_title <~ slift (dict_item job "JobTitle") ;;
      say (JobTitleLine (i + 1) job_title) ~;;
      location <~ slift (dict_item job "Location") ;;
      say (LocationLine location) ~;;
      url_line job ~;;
      say BlankLine ~;;
      show_jobs (S i) jobs'
  end.

(** [main].  The first line with a mark comes right after the connection
    test, so the lines with a mark that [get_job_listings] and
    [save_to_excel] print are reached on a console that prints them only. *)
Definition main (W : web) (console_error : option exn) : SM unit :=
  say (Rule "=" 60) ~;;
  say (Heading "GitHub Careers Job Scraper") ~;;
  say (Rule "=" 60) ~;;
  fun s =>
    match
      (say TestingConnection ~;;
       fetch W "https://github.com" ~;;
       say_mark console_error ConnectionOK ~;;
       say StartingScraping ~;;
       jobs <~ get_job_listings W ;;
       match jobs with
       | [] => say_mark console_error NoJobsScraped
       | _ =>
           inner (save_to_excel (excel_error W) jobs "GitHub_Jobs.xlsx") ~;;
           say SampleHeading ~;;
           say (Rule "-" 40) ~;;
           show_jobs 0 (firstn 3 jobs)
       end) s
    with
    | (Returns a, s') => (Returns a, s')
    | (Raises e, s') =>
        if is_request_exception e
        then (say_mark console_error (NetworkError e) ~;; say CheckConnection) s'
        else (say_mark console_error (UnexpectedError e) ~;; say CheckDetails) s'
    end.

End GithubSite.

Module MicrosoftSite.

(** The selectors of the source; the quotes inside the attribute selectors
    are left out. *)
Definition job_selectors : list string :=
  [".jobs-list-item"; "[data-ph-at-id=job-item]"; ".job-item";
   ".search-result-item"; "article"; ".result-item"].

Definition title_selectors : list string :=
  ["a[data-ph-at-id=job-title]"; ".job-title"; "h2 a"; "h3 a"; "a[href*=job]"].

Definition location_selectors : list string :=
  ["[data-ph-at-id=location]"; ".job-location"; ".location";
   "span[title*=location]"].

Definition urls_to_try (page : Z) : list string :=
  ["https://careers.microsoft.com/us/en/search-results?from="
     ++ str_of_int ((page - 1) * 20);
   "https://careers.microsoft.com/v2/global/en/search-results?from="
     ++ str_of_int ((page - 1) * 20);
   "https://jobs.careers.microsoft.com/global/en/search?from="
     ++ str_of_int ((page - 1) * 20)].

(** The loop over [urls_to_try]: the page and the URL of the first one
    that answers, [None] when none does. *)
Fixpoint try_urls (W : web) (urls : list string) : SM (option (string * string)) :=
  match urls with
  | [] => sret None
  | url :: urls' =>
      r <~ attempt
             (say (TryingURL url) ~;;
              resp <~ fetch W url ;;
              sret (Some (content resp, url)))
             (fun e => say (FailedToAccess url e) ~;; sret None) ;;
      match r with
      | Some found => sret (Some found)
      | None => try_urls W urls'
      end
  end.

(** The loop over [title_selectors]. *)
Fixpoint find_title (W : web) (working_url : string) (card : element W)
         (selectors : list string) : string * string :=
  match selectors with
  | [] => ("", "")
  | selector :: selectors' =>
      match tag_select_one W card selector with
      | Some title_element =>
          (tag_text W title_element,
           match tag_href W title_element with
           | Some (String c h) => url_join W working_url (String c h)
           | _ => ""
           end)
      | None => find_title W working_url card selectors'
      end
  end.

(** The loop over [location_selectors]. *)
Fixpoint find_location (W : web) (card : element W) (selectors : list string)
  : string :=
  match selectors with
  | [] => ""
  | selector :: selectors' =>
      match tag_select_one W card selector with
      | Some location_element => tag_text W location_element
      | None => find_location W card selectors'
      end
  end.

(** The body of the loop over the cards: [None] stands for [continue]. *)
Definition process_card (W : web) (working_url : string) (n i : nat)
           (card : element W) : SM (option dict) :=
  say (ProcessingJob (i + 1) n) ~;;
  let job_title := fst (find_title W working_url card title_selectors) in
  let job_url := snd (find_title W working_url card title_selectors) in
  let location := find_location W card location_selectors in
  if negb (nonempty job_title)
  then sret None
  else
    job_details <~
      (if nonempty job_url
       then say (FetchingDetails job_title) ~;;
            inner (Microsoft.get_job_detail (http_get W) (page_text W) job_url)
       else sret empty_detail) ;;
    let job_data :=
      job_record job_title location (experience job_details)
        (skills job_details) (salary job_details) job_url
        (summary job_details) in
    say (Processed job_title) ~;;
    sret (Some job_data).

Fixpoint process_cards (W : web) (working_url : string) (n i : nat)
         (cards : list (element W)) (jobs : list dict) : SM (list dict) :=
  match cards with
  | [] => sret jobs
  | card :: cards' =>
      r <~ attempt (process_card W working_url n i card)
             (fun e => say (ErrorProcessingCard (i + 1) e) ~;; sret None) ;;
      process_cards W working_url n (S i) cards'
        (match r with
         | Some job_data => (jobs ++ [job_data])%list
         | None => jobs
         end)
  end.

Definition get_job_listings (W : web) (page : Z) : SM (list dict) :=
  attempt
    (found <~ try_urls W (urls_to_try page) ;;
     match found with
     | None => say CouldNotAccess ~;; sret []
     | Some (html, working_url) =>
         say (AccessedURL working_url) ~;;
         job_cards <~ select_cards W job_selectors html ;;
         match job_cards with
         | [] =>
             say NoCardsSavingPage ~;;
             write_text W "debug_page.html" (page_prettify W html) ~;;
             say (PageSaved "debug_page.html") ~;;
             sret []
         | _ =>
             process_cards W working_url (List.length job_cards) 0 job_cards []
         end
     end)
    (fun e => say (ErrorInListings e) ~;; sret []).

(** The loop of [scrape_all_jobs] over the pages that are left. *)
Fixpoint scrape_pages (W : web) (max_pages : Z) (pages : list Z)
         (all_jobs : list dict) : SM (list dict) :=
  match pages with
  | [] => sret all_jobs
  | page :: pages' =>
      say (ScrapingPage page) ~;;
      jobs <~ get_job_listings W page ;;
      match jobs with
      | [] => say (NoJobsOnPage page) ~;; sret all_jobs
      | _ =>
          let all_jobs := (all_jobs ++ jobs)%list in
          say (FoundOnPage (List.length jobs) page (List.length all_jobs)) ~;;
          (if (page <? max_pages)%Z then say WaitingNextPage else sret tt) ~;;
          scrape_pages W max_pages pages' all_jobs
      end
  end.

(** [range(1, max_pages + 1)] *)
Definition page_range (max_pages : Z) : list Z :=
  map Z.of_nat (seq 1 (Z.to_nat max_pages)).

Definition scrape_all_jobs (W : web) (max_pages : Z) : SM (list dict) :=
  scrape_pages W max_pages (page_range max_pages) [].

Fixpoint show_jobs (i : nat) (jobs : list dict) : SM unit :=
  match jobs with
  | [] => sret tt
  | job :: jobs' =>
      job_title <~ slift (dict_item job "JobTitle") ;;
      say (JobTitleLine (i + 1) job_title) ~;;
      location <~ slift (dict_item job "Location") ;;
      say (LocationLine location) ~;;
      url <~ slift (dict_item job "JobURL") ;;
      say (URLLine (Some (Py.take 60 url))) ~;;
      say BlankLine ~;;
      show_jobs (S i) jobs'
  end.

(** [main].  The first line with a mark comes right after the connection
    test, so the lines with a mark that [scrape_all_jobs] and
    [save_to_excel] print are reached on a console that prints them only. *)
Definition main (W : web) (console_error : option exn) : SM unit :=
  say (Rule "=" 60) ~;;
  say (Heading "Microsoft Careers Job Scraper") ~;;
  say (Rule "=" 60) ~;;
  fun s =>
    match
      (say TestingConnection ~;;
       fetch W "https://www.microsoft.com" ~;;
       say_mark console_error ConnectionOK ~;;
       say StartingScraping ~;;
       jobs <~ scrape_all_jobs W 3 ;;
       match jobs with
       | [] => say_mark console_error NoJobsScraped
       | _ =>
           inner (save_to_excel (excel_error W) jobs "Microsoft_Jobs.xlsx") ~;;
           say SampleHeading ~;;
           say (Rule "-" 40) ~;;
           show_jobs 0 (firstn 3 jobs)
       end) s
    with
    | (Returns a, s') => (Returns a, s')
    | (Raises e, s') =>
        if is_request_exception e
        then (say_mark console_error (NetworkError e) ~;; say CheckConnection) s'
        else (say_mark console_error (UnexpectedError e) ~;; say CheckDetails) s'
    end.

End MicrosoftSite.

Module TechSite.

Definition job_titles : list string :=
  ["Senior Software Engineer"; "Data Scientist"; "Product Manager";
   "DevOps Engineer"; "Frontend Developer"; "Backend Developer";
   "Machine Learning Engineer"; "Cloud Architect"; "UI/UX Designer";
   "Technical Program Manager"; "Site Reliability Engineer";
   "Security Engineer"; "Mobile Developer"; "Full Stack Developer";
   "Data Engineer"; "Business Analyst"; "QA Engineer";
   "Principal Software Engineer"; "Research Scientist";
   "Engineering Manager"].

Definition locations : list string :=
  ["Seattle, WA"; "San Francisco, CA"; "New York, NY"; "Austin, TX";
   "Boston, MA"; "Remote"; "Chicago, IL"; "Los Angeles, CA";
   "Denver, CO"; "Atlanta, GA"; "Remote - US"; "Portland, OR";
   "San Jose, CA"; "Washington, DC"; "Remote - Global"].

Definition experience_levels : list string :=
  ["3+ years"; "5+ years"; "7+ years"; "2-4 years"; "Entry level";
   "Senior level"; "10+ years"; "4-6 years"; "Principal level";
   "Lead level"; "1-3 years"; "8+ years"].

Definition skills_sets : list string :=
  ["Python, Django, PostgreSQL, AWS, Docker";
   "JavaScript, React, Node.js, MongoDB, Git";
   "Java, Spring Boot, Microservices, Kubernetes, Jenkins";
   "C#, .NET, Azure, SQL Server, DevOps";
   "Go, Docker, Kubernetes, Terraform, AWS";
   "Python, TensorFlow, PyTorch, SQL, Machine Learning";
   "React, TypeScript, GraphQL, Jest, CSS";
   "AWS, CloudFormation, Lambda, S3, EC2";
   "Figma, Sketch, Adobe Creative Suite, Prototyping";
   "Agile, Scrum, JIRA, Confluence, Leadership";
   "Linux, Bash, Monitoring, Alerting, SRE";
   "Cybersecurity, Penetration Testing, SIEM, Compliance";
   "Swift, iOS, Objective-C, Xcode, App Store";
   "Angular, Vue.js, HTML5, CSS3, Webpack";
   "Spark, Hadoop, Airflow, ETL, Data Warehousing";
   "SQL, Tableau, Power BI, Statistics, Excel";
   "Selenium, JUnit, TestNG, Automation, Performance Testing";
   "Architecture, System Design, Scalability, Performance";
   "Research, Publications, PhD, Algorithm Design";
   "Team Leadership, Project Management, Strategy"].

Definition descriptions : list string :=
  ["Join our team to build scalable software solutions that impact millions of users worldwide. You'll work with cutting-edge technologies and collaborate with talented engineers.";
   "We're looking for a passionate data scientist to extract insights from large datasets and build predictive models that drive business decisions.";
   "Lead product strategy and roadmap for our flagship products. Work closely with engineering, design, and business teams to deliver exceptional user experiences.";
   "Design and maintain our cloud infrastructure. Implement CI/CD pipelines and ensure high availability of our services.";
   "Create beautiful and intuitive user interfaces using modern web technologies. Collaborate with designers and backend engineers.";
   "Build robust backend services and APIs. Work with databases, distributed systems, and ensure high performance and reliability.";
   "Develop machine learning models and deploy them at scale. Work on computer vision, NLP, and recommendation systems.";
   "Design cloud architecture for enterprise-scale applications. Focus on security, scalability, and cost optimization.";
   "Design user-centered experiences for web and mobile applications. Conduct user research and create prototypes.";
   "Drive technical programs across multiple engineering teams. Ensure successful delivery of complex projects."].

Definition base_urls : list string :=
  ["https://careers.microsoft.com/job/"; "https://jobs.google.com/job/";
   "https://careers.amazon.com/job/"; "https://careers.apple.com/job/";
   "https://careers.netflix.com/job/"].

(** [random.choice(seq)]: the element at the next draw, taken modulo the
    length.  An empty [seq] raises; Python's class for it is IndexError,
    which every handler of the scripts treats as it treats a KeyError. *)
Definition choice (W : web) (seq : list string) : SM string :=
  fun s =>
    (match nth_error seq (draw W (drawn s) mod List.length seq) with
     | Some x => Returns x
     | None => Raises (Exn KeyError "Cannot choose from an empty sequence")
     end,
     {| console := console s; tables := tables s; texts := texts s;
        drawn := S (drawn s) |}).

(** One turn of the loop of [generate_sample_jobs]. *)
Definition sample_job (W : web) (i : nat) : SM dict :=
  job_title <~ choice W job_titles ;;
  location <~ choice W locations ;;
  experience <~ choice W experience_levels ;;
  skills <~ choice W skills_sets ;;
  base <~ choice W base_urls ;;
  summary <~ choice W descriptions ;;
  sret (job_record job_title location experience skills ""
          (base ++ str_of_int (1000 + Z.of_nat i)) summary).

Fixpoint sample_loop (W : web) (indices : list nat) (jobs : list dict)
  : SM (list dict) :=
  match indices with
  | [] => sret jobs
  | i :: indices' =>
      job <~ sample_job W i ;;
      sample_loop W indices' (jobs ++ [job])%list
  end.

Definition generate_sample_jobs (W : web) : SM (list dict) :=
  sample_loop W (seq 0 25) [].

(** [elem.get_text(strip=True) if elem else default] *)
Definition text_or (W : web) (elem : option (element W)) (default : string)
  : string :=
  match elem with
  | Some e => tag_text W e
  | None => default
  end.

(** [urljoin(url, link_elem['href']) if link_elem else ""] *)
Definition link_url (W : web) (url : string) (link_elem : option (element W))
  : SM string :=
  match link_elem with
  | Some e =>
      match tag_href W e with
      | Some h => sret (url_join W url h)
      | None => sraise (Exn KeyError "href")
      end
  | None => sret ""
  end.

Definition stackoverflow_url : string := "https://stackoverflow.com/jobs".

Definition stackoverflow_card (W : web) (card : element W) : SM dict :=
  let title := text_or W (tag_find W card "h2") "Unknown Title" in
  let location :=
    text_or W (tag_find_class W card "span" "fc-black-500") "Remote" in
  job_url <~ link_url W stackoverflow_url (tag_find_link W card) ;;
  sret (job_record title location "" "" "" job_url "").

(** A loop over cards with the [try] inside it, a card that raises being
    passed over. *)
Fixpoint collect_cards (W : web) (body : element W -> SM dict)
         (cards : list (element W)) (jobs : list dict) : SM (list dict) :=
  match cards with
  | [] => sret jobs
  | card :: cards' =>
      r <~ attempt (job <~ body card ;; sret (Some job)) (fun _ => sret None) ;;
      collect_cards W body cards'
        (match r with
         | Some job => (jobs ++ [job])%list
         | None => jobs
         end)
  end.

Definition try_scrape_stackoverflow_jobs (W : web) : SM (list dict) :=
  attempt
    (say AttemptingStackOverflow ~;;
     resp <~ fetch W stackoverflow_url ;;
     let job_cards := page_find_all W (content resp) "div" "listResults" in
     collect_cards W (stackoverflow_card W) (firstn 10 job_cards) [])
    (fun e => say (StackOverflowFailed e) ~;; sret []).

Definition remoteok_url : string := "https://remoteok.io/remote-dev-jobs".

Definition remoteok_row (W : web) (row : element W) : SM dict :=
  let title := text_or W (tag_find W row "h2") "Unknown Title" in
  let company := text_or W (tag_find W row "h3") "Unknown Company" in
  let location := "Remote" in
  job_url <~ link_url W remoteok_url (tag_find_link W row) ;;
  let skill_elems := tag_find_all_class W row "span" "tag" in
  let skills := map (tag_text W) (firstn 5 skill_elems) in
  sret (job_record (title ++ " at " ++ company) location ""
          (Py.join ", " skills) "" job_url "").

Definition try_scrape_remoteok (W : web) : SM (list dict) :=
  attempt
    (say AttemptingRemoteOK ~;;
     resp <~ fetch W remoteok_url ;;
     let job_rows := page_find_all W (content resp) "tr" "job" in
     collect_cards W (remoteok_row W) (firstn 15 job_rows) [])
    (fun e => say (RemoteOKFailed e) ~;; sret []).

(** The line for the skills of a shown job. *)
Definition skills_line (job : dict) : SM unit :=
  skills <~ slift (dict_item job "SkillsRequired") ;;
  if nonempty skills
  then skills' <~ slift (dict_item job "SkillsRequired") ;;
       say (SkillsLine (Some (Py.take 50 skills')))
  else say (SkillsLine None).

Fixpoint show_jobs (i : nat) (jobs : list dict) : SM unit :=
  match jobs with
  | [] => sret tt
  | job :: jobs' =>
      job_title <~ slift (dict_item job "JobTitle") ;;
      say (JobTitleLine (i + 1) job_title) ~;;
      location <~ slift (dict_item job "Location") ;;
      say (LocationLine location) ~;;
      skills_line job ~;;
      experience <~ slift (dict_item job "ExperienceRequired") ;;
      say (ExperienceLine experience) ~;;
      say BlankLine ~;;
      show_jobs (S i) jobs'
  end.

Definition save (W : web) (console_error : option exn) (jobs : list dict)
  : SM (option bool) :=
  inner (tech_save_to_excel (excel_error W) console_error jobs
           "TechCompany_Jobs.xlsx").

(** The body of the [try] of [main].  Of its five closing lines the first
    is plain and the other four, for which [FrameworkNotes] stands, start
    with a check mark. *)
Definition main_body (W : web) (console_error : option exn) : SM unit :=
  say TestingConnection ~;;
  fetch W "https://google.com" ~;;
  say_mark console_error ConnectionOK ~;;
  say AttemptingSources ~;;
  let all_jobs : list dict := [] in
  remoteok_jobs <~ try_scrape_remoteok W ;;
  all_jobs <~
    (match remoteok_jobs with
     | [] => sret all_jobs
     | _ => say_mark console_error (FoundFromRemoteOK (List.length remoteok_jobs)) ~;;
            sret (all_jobs ++ remoteok_jobs)%list
     end) ;;
  so_jobs <~ try_scrape_stackoverflow_jobs W ;;
  all_jobs <~
    (match so_jobs with
     | [] => sret all_jobs
     | _ => say_mark console_error (FoundFromStackOverflow (List.length so_jobs)) ~;;
            sret (all_jobs ++ so_jobs)%list
     end) ;;
  all_jobs <~
    (match all_jobs with
     | [] =>
         say_mark console_error ScrapingFailedGenerating ~;;
         sample_jobs <~ generate_sample_jobs W ;;
         say_mark console_error (GeneratedSample (List.length sample_jobs)) ~;;
         sret (all_jobs ++ sample_jobs)%list
     | _ => sret all_jobs
     end) ;;
  match all_jobs with
  | [] => say_mark console_error NoJobsAtAll
  | _ =>
      success <~ save W console_error all_jobs ;;
      match success with
      | Some true =>
          say SampleHeading ~;;
          say (Rule "-" 50) ~;;
          show_jobs 0 (firstn 5 all_jobs) ~;;
          say_mark console_error (CreatedFile (List.length all_jobs)) ~;;
          say (Heading "This file demonstrates the complete job scraping framework with:") ~;;
          say_mark console_error FrameworkNotes
      | _ => sret tt
      end
  end.

Definition main (W : web) (console_error : option exn) : SM unit :=
  say (Rule "=" 60) ~;;
  say (Heading "Tech Company Job Scraper") ~;;
  say (Rule "=" 60) ~;;
  fun s =>
    match main_body W console_error s with
    | (Returns a, s') => (Returns a, s')
    | (Raises e, s') =>
        if is_request_exception e
        then (say_mark console_error (NetworkError e) ~;;
              say GeneratingOffline ~;;
              sample_jobs <~ generate_sample_jobs W ;;
              save W console_error sample_jobs ~;; sret tt) s'
        else (say_mark console_error (UnexpectedError e) ~;;
              say GeneratingFallback ~;;
              sample_jobs <~ generate_sample_jobs W ;;
              save W console_error sample_jobs ~;; sret tt) s'
    end.

End TechSite.

(** ** Notions the properties of the runs are stated with *)

(** Whenever the computation returns, its result satisfies [P]. *)
Definition ensures {A : Type} (c : SM A) (P : A -> Prop) : Prop :=
  forall s a s', c s = (Returns a, s') -> P a.

(** The computation returns from every state, with a result that
    satisfies [P]. *)
Definition safe {A : Type} (c : SM A) (P : A -> Prop) : Prop :=
  forall s, exists a s', c s = (Returns a, s') /\ P a.

(** The computation leaves the written tables as they are. *)
Definition same_tables {A : Type} (c : SM A) : Prop :=
  forall s, tables (snd (c s)) = tables s.

(** The computation leaves the written text files as they are. *)
Definition same_texts {A : Type} (c : SM A) : Prop :=
  forall s, texts (snd (c s)) = texts s.

(** The computation leaves every table but the one of the given name as
    it is. *)
Definition only_table {A : Type} (filename : string) (c : SM A) : Prop :=
  forall s other,
    other <> filename ->
    read_file (tables (snd (c s))) other = read_file (tables s) other.

(** The result of the computation does not depend on the state it starts
    from. *)
Definition fixed {A : Type} (c : SM A) : Prop :=
  exists r, forall s, fst (c s) = r.

(** A record with the seven fields of the schema, in their order. *)
Definition schema_record (job : dict) : Prop :=
  dict_keys job = required_columns.

(** A record of the GitHub listing. *)
Definition github_record (job : dict) : Prop :=
  schema_record job
  /\ dict_get job "Location" = Some "Remote/Global"
  /\ dict_get job "Salary" = Some ""
  /\ exists job_title,
      dict_get job "JobTitle" = Some job_title
      /\ 3 <= String.length (strip job_title).

(** A record of the Microsoft listing. *)
Definition microsoft_record (job : dict) : Prop :=
  schema_record job
  /\ dict_get job "Salary" = Some ""
  /\ exists job_title,
      dict_get job "JobTitle" = Some job_title /\ job_title <> "".

(** The jobs of the pages up to the first page that has none. *)
Fixpoint pages_until_empty (listing : Z -> list dict) (pages : list Z)
  : list dict :=
  match pages with
  | [] => []
  | page :: pages' =>
      match listing page with
      | [] => []
      | jobs => (jobs ++ pages_until_empty listing pages')%list
      end
  end.

(** The record [generate_sample_jobs] makes in turn [i] of its loop. *)
Definition sample_record_at (i : nat) (job : dict) : Prop :=
  schema_record job
  /\ (exists v, dict_get job "JobTitle" = Some v /\ In v TechSite.job_titles)
  /\ (exists v, dict_get job "Location" = Some v /\ In v TechSite.locations)
  /\ (exists v, dict_get job "ExperienceRequired" = Some v
                /\ In v TechSite.experience_levels)
  /\ (exists v, dict_get job "SkillsRequired" = Some v
                /\ In v TechSite.skills_sets)
  /\ dict_get job "Salary" = Some ""
  /\ (exists base,
         dict_get job "JobURL" = Some (base ++ str_of_int (1000 + Z.of_nat i))
         /\ In base TechSite.base_urls)
  /\ (exists v, dict_get job "JobDescriptionSummary" = Some v
                /\ In v TechSite.descriptions).

(** A record of the two scrapers of [scrape_tech_jobs.py]. *)
Definition scraped_record (job : dict) : Prop :=
  schema_record job
  /\ dict_get job "ExperienceRequired" = Some ""
  /\ dict_get job "Salary" = Some ""
  /\ dict_get job "JobDescriptionSummary" = Some "".

(** The jobs the two scrapers of [scrape_tech_jobs.py] give, Remote OK's
    first. *)
Definition remoteok_jobs (W : web) : list dict :=
  match fst (TechSite.try_scrape_remoteok W
               {| console := []; tables := []; texts := []; drawn := 0 |}) with
  | Returns jobs => jobs
  | Raises _ => []
  end.

Definition stackoverflow_jobs (W : web) : list dict :=
  match fst (TechSite.try_scrape_stackoverflow_jobs W
               {| console := []; tables := []; texts := []; drawn := 0 |}) with
  | Returns jobs => jobs
  | Raises _ => []
  end.

Definition scraped_jobs (W : web) : list dict :=
  (remoteok_jobs W ++ stackoverflow_jobs W)%list.

(** The records [main] of [scrape_tech_jobs.py] has to write: the scraped
    jobs when the connection test passes and there are any, the 25 sample
    records otherwise. *)
Definition tech_main_records (W : web) (jobs : list dict) : Prop :=
  if fetch_fails (http_get W) "https://google.com"
  then Forall2 sample_record_at (seq 0 25) jobs
  else match scraped_jobs W with
       | [] => Forall2 sample_record_at (seq 0 25) jobs
       | _ => jobs = scraped_jobs W
       end.

(** The state a [main] is in after its three heading lines and the line
    that announces the connection test. *)
Definition after_banner (title : string) (s : site) : site :=
  {| console := TestingConnection :: Rule "=" 60 :: Heading title
                :: Rule "=" 60 :: console s;
     tables := tables s; texts := texts s; drawn := drawn s |}.

(** The spreadsheet of [scrape_tech_jobs.py] holds the table of records
    that [main] has to write. *)
Definition tech_table_written (W : web) (s : site) : Prop :=
  exists jobs,
    read_file (tables s) "TechCompany_Jobs.xlsx" = Some (schema_table jobs)
    /\ jobs <> []
    /\ tech_main_records W jobs.

(** The text file of a given name, if one was written. *)
Fixpoint read_text (fs : list (string * string)) (filename : string)
  : option string :=
  match fs with
  | [] => None
  | (k, v) :: fs' => if String.eqb k filename then Some v else read_text fs' filename
  end.

(** The test of the GitHub listing that passes a card over. *)
Definition title_too_short (job_title : string) : bool :=
  negb (nonempty job_title) || (String.length (strip job_title) <? 3).

(** The jobs the Microsoft listing gives for a page. *)
Definition page_jobs (W : web) (page : Z) : list dict :=
  match fst (MicrosoftSite.get_job_listings W page
               {| console := []; tables := []; texts := []; drawn := 0 |}) with
  | Returns jobs => jobs
  | Raises _ => []
  end.

(** Whenever the computation returns, the state it ends in satisfies [T]. *)
Definition lands {A : Type} (c : SM A) (T : site -> Prop) : Prop :=
  forall s a s', c s = (Returns a, s') -> T s'.

(** The computation keeps [T], however it ends. *)
Definition keeps {A : Type} (c : SM A) (T : site -> Prop) : Prop :=
  forall s, T s -> T (snd (c s)).

(** What the loop over the cards may get from its body. *)
Definition github_card_ok (r : option dict) : Prop :=
  match r with
  | Some job => github_record job
  | None => True
  end.

Definition microsoft_card_ok (r : option dict) : Prop :=
  match r with
  | Some job => microsoft_record job
  | None => True
  end.

(** The cell of a table under a column name and a row number. *)
Definition table_cell (df : dataframe) (col : string) (row : nat) : option cell :=
  match find_column (columns df) col with
  | Some cells => nth_error cells row
  | None => None
  end.

(** ** Sample pages and sites *)

Definition blank_page (job_url : string) : result response :=
  Returns {| status_code := 200; content := "<html></html>" |}.

Definition content_page (page selector : string) : option string :=
  if String.eqb selector ".content" then Some "Senior engineer, Rust"
  else if String.eqb selector "main" then Some "Everything on the page"
  else None.

Definition fresh : site :=
  {| console := []; tables := []; texts := []; drawn := 0 |}.

Definition offline (element : Type) : web :=
  {| element := element;
     http_get := fun _ => Raises (Exn RequestException "Name or service not known");
     page_text := fun _ _ => None;
     page_select := fun _ _ => [];
     page_links := fun _ => [];
     page_find_all := fun _ _ _ => [];
     page_prettify := fun page => page;
     tag_name := fun _ => "";
     tag_text := fun _ => "";
     tag_href := fun _ => None;
     tag_find := fun _ _ => None;
     tag_find_class := fun _ _ _ => None;
     tag_find_link := fun _ => None;
     tag_find_all_class := fun _ _ _ => [];
     tag_select_one := fun _ _ => None;
     url_join := fun base url => url;
     open_error := fun _ => None;
     excel_error := fun _ => None;
     draw := fun k => k |}.

Definition empty_site (element : Type) : web :=
  {| element := element;
     http_get := fun _ => Returns {| status_code := 200; content := "<html></html>" |};
     page_text := fun _ _ => None;
     page_select := fun _ _ => [];
     page_links := fun _ => [];
     page_find_all := fun _ _ _ => [];
     page_prettify := fun page => page;
     tag_name := fun _ => "";
     tag_text := fun _ => "";
     tag_href := fun _ => None;
     tag_find := fun _ _ => None;
     tag_find_class := fun _ _ _ => None;
     tag_find_link := fun _ => None;
     tag_find_all_class := fun _ _ _ => [];
     tag_select_one := fun _ _ => None;
     url_join := fun base url => url;
     open_error := fun _ => None;
     excel_error := fun _ => None;
     draw := fun k => k |}.

Definition pages_web (get : string -> result response)
           (join : string -> string -> string) : web :=
  {| element := string;
     http_get := get;
     page_text := fun _ _ => None;
     page_select := fun _ _ => [];
     page_links := fun _ => [];
     page_find_all := fun _ _ _ => [];
     page_prettify := fun page => page;
     tag_name := fun _ => "a";
     tag_text := fun e => e;
     tag_href := fun e => Some ("/positions/" ++ e);
     tag_find := fun _ _ => None;
     tag_find_class := fun _ _ _ => None;
     tag_find_link := fun _ => None;
     tag_find_all_class := fun _ _ _ => [];
     tag_select_one := fun _ _ => None;
     url_join := join;
     open_error := fun _ => None;
     excel_error := fun _ => None;
     draw := fun k => k |}.

(** * Properties *)

(** ** Strings *)

Module PyFacts.
Import Py.

Lemma lower_char_idem (c : ascii) : lower_char (lower_char c) = lower_char c.
Proof.
  destruct c as [[] [] [] [] [] [] [] []]; reflexivity.
Qed.

Lemma lower_idem (s : string) : lower (lower s) = lower s.
Proof.
  induction s as [|c s IH]; simpl; [reflexivity|].
  now rewrite lower_char_idem, IH.
Qed.

Lemma lower_app (a b : string) : lower (a ++ b) = lower a ++ lower b.
Proof.
  induction a as [|c a IH]; simpl; [reflexivity|]. now rewrite IH.
Qed.

Lemma lower_empty (s : string) : lower s = "" <-> s = "".
Proof.
  destruct s; simpl; split; intro H; try reflexivity; discriminate H.
Qed.

Lemma app_assoc (a b c : string) : (a ++ b) ++ c = a ++ b ++ c.
Proof.
  induction a as [|x a IH]; simpl; [reflexivity|]. now rewrite IH.
Qed.

Lemma app_empty_r (a : string) : a ++ "" = a.
Proof.
  induction a as [|x a IH]; simpl; [reflexivity|]. now rewrite IH.
Qed.

Lemma length_app (a b : string) :
  String.length (a ++ b) = String.length a + String.length b.
Proof.
  induction a as [|x a IH]; simpl; [reflexivity|]. now rewrite IH.
Qed.

Lemma startswith_app (p s : string) : startswith p (p ++ s) = true.
Proof.
  induction p as [|c p IH]; simpl; [reflexivity|].
  now rewrite Ascii.eqb_refl, IH.
Qed.

Lemma contains_startswith (sub s : string) :
  startswith sub s = true -> contains sub s = true.
Proof.
  destruct s; simpl; intros ->; reflexivity.
Qed.

Lemma contains_app (sub a b : string) : contains sub (a ++ sub ++ b) = true.
Proof.
  induction a as [|c a IH].
  - change ("" ++ sub ++ b) with (sub ++ b).
    apply contains_startswith, startswith_app.
  - simpl. rewrite IH. apply orb_true_r.
Qed.

Lemma length_take (n : nat) (s : string) :
  n <= String.length s -> String.length (take n s) = n.
Proof.
  revert s; induction n as [|n IH]; intros [|c s] H; simpl in *;
    try reflexivity; try lia.
  rewrite IH; lia.
Qed.

Lemma take_drop (n : nat) (s : string) : take n s ++ drop n s = s.
Proof.
  revert s; induction n as [|n IH]; intros [|c s]; simpl; try reflexivity.
  now rewrite IH.
Qed.

Lemma count_char_app (c : ascii) (a b : string) :
  count_char c (a ++ b) = count_char c a + count_char c b.
Proof.
  induction a as [|x a IH]; simpl; [reflexivity|]. rewrite IH. lia.
Qed.

(** Joining comma-free entries with ", " puts one comma between two
    neighbours. *)
Lemma count_comma_join (l : list string) :
  Forall (fun e => count_char "," e = 0) l ->
  count_char "," (join ", " l) = List.length l - 1.
Proof.
  induction 1 as [|x l Hx Hl IH]; [reflexivity|].
  destruct l as [|y l]; [simpl; lia|].
  change (join ", " (x :: y :: l)) with (x ++ ", " ++ join ", " (y :: l)).
  rewrite !count_char_app, Hx, IH. simpl. lia.
Qed.

End PyFacts.

(** ** The summary *)

(** C3: a description of at most 200 characters is its own summary (the
    empty one included); a longer one is cut to its first 200 characters
    followed by "...", 203 characters in all. *)
Theorem summarize_spec (description : string) :
  (String.length description <= 200 -> summarize description = description)
  /\ (200 < String.length description ->
      summarize description = Py.take 200 description ++ "..."
      /\ String.length (summarize description) = 203
      /\ Py.take 200 description ++ Py.drop 200 description = description)
  /\ summarize "" = "".
Proof.
  unfold summarize. split; [|split].
  - intro H. apply Nat.ltb_ge in H. now rewrite H.
  - intro H. pose proof H as Hb. apply Nat.ltb_lt in Hb. rewrite Hb.
    split; [reflexivity|]. split.
    + rewrite PyFacts.length_app, PyFacts.length_take by lia. reflexivity.
    + apply PyFacts.take_drop.
  - reflexivity.
Qed.

Lemma summarize_spec_witness :
  summarize "Write code." = "Write code."
  /\ String.length (summarize long_text) = 203.
Proof.
  split.
  - apply (proj1 (summarize_spec "Write code.")). simpl. lia.
  - apply (proj1 (proj2 (summarize_spec long_text))). vm_compute. lia.
Defined.

(** ** The skills loop *)

Lemma firstn_In {A : Type} (n : nat) (l : list A) (x : A) :
  In x (firstn n l) -> In x l.
Proof.
  revert l; induction n as [|n IH]; intros [|y l] H; simpl in *; try contradiction.
  destruct H as [H | H]; [now left | right; now apply IH].
Qed.

Section ExtractorFacts.

Variable experience_patterns : list Re.regex.
Variable skill_keywords : list string.

Lemma skills_loop_filter (d : string) (l acc : list string) :
  fold_left (skills_step d) l acc = (acc ++ filter (skill_matches d) l)%list.
Proof.
  revert acc; induction l as [|k l IH]; intro acc; simpl.
  - now rewrite List.app_nil_r.
  - rewrite IH. unfold skills_step, skill_matches.
    destruct (Py.contains (Py.lower k) d); [|reflexivity].
    now rewrite <- List.app_assoc.
Qed.

Lemma found_skills_filter (d : string) :
  found_skills skill_keywords d = filter (skill_matches d) skill_keywords.
Proof.
  unfold found_skills. now rewrite skills_loop_filter.
Qed.

Lemma top_skills_length (d : string) :
  List.length (top_skills skill_keywords d) <= 10.
Proof.
  unfold top_skills. apply firstn_le_length.
Qed.

Lemma top_skills_incl (d : string) :
  incl (top_skills skill_keywords d) skill_keywords.
Proof.
  intros k Hk. unfold top_skills in Hk. apply firstn_In in Hk.
  rewrite found_skills_filter in Hk. now apply filter_In in Hk.
Qed.

Lemma reported_length (text : string) : List.length (reported skill_keywords text) <= 10.
Proof.
  destruct text; simpl; [lia | apply top_skills_length].
Qed.

Lemma reported_incl (text : string) : incl (reported skill_keywords text) skill_keywords.
Proof.
  destruct text; [intros k [] | apply top_skills_incl].
Qed.

Lemma snd_extract (text : string) :
  snd (extract experience_patterns skill_keywords text)
  = Py.join ", " (reported skill_keywords text).
Proof.
  destruct text; reflexivity.
Qed.




Lemma second_keyword_reported (k0 k : string) (rest : list string) (d : string) :
  skill_keywords = k0 :: k :: rest ->
  skill_matches d k = true ->
  In k (top_skills skill_keywords d).
Proof.
  intros E H. unfold top_skills. rewrite found_skills_filter, E.
  simpl. rewrite H. destruct (skill_matches d k0); simpl; auto.
Qed.

(** The function returns for a text and for [None]. *)
Lemma extract_returns (o : pyobj) :
  (o = PyNone \/ exists s, o = PyStr s) ->
  exists e sk,
    extract_experience_and_skills experience_patterns skill_keywords o
    = Returns (e, sk).
Proof.
  intros [-> | [s ->]].
  - now exists "", "".
  - destruct s as [|c s].
    + now exists "", "".
    + unfold extract_experience_and_skills. simpl falsy. cbv iota.
      destruct (extract experience_patterns skill_keywords (String c s)) as [e sk].
      now exists e, sk.
Qed.

End ExtractorFacts.

Arguments reported skill_keywords job_description : simpl never.

Lemma comma_free_vocabularies :
  Forall (fun e => Py.count_char "," e = 0) Github.skill_keywords
  /\ Forall (fun e => Py.count_char "," e = 0) Microsoft.skill_keywords.
Proof.
  split; repeat constructor.
Qed.

Lemma at_most_ten_reported (pats : list Re.regex) (kws : list string) (text : string) :
  Forall (fun e => Py.count_char "," e = 0) kws ->
  at_most_ten_of kws (snd (extract pats kws text)).
Proof.
  intro Hfree. exists (reported kws text).
  pose proof (reported_length kws text) as Hlen.
  pose proof (reported_incl kws text) as Hincl.
  rewrite snd_extract. repeat split; try assumption.
  rewrite PyFacts.count_comma_join; [lia|].
  apply Forall_forall. intros e He.
  rewrite Forall_forall in Hfree. apply Hfree, Hincl, He.
Qed.

(** C1: whatever the text, the skills the extractor returns are at most
    ten vocabulary entries joined by ", ", in both scrapers. *)
Theorem skills_at_most_ten (text : string) :
  at_most_ten_of Github.skill_keywords (snd (Github.extract text))
  /\ at_most_ten_of Microsoft.skill_keywords (snd (Microsoft.extract text)).
Proof.
  split; apply at_most_ten_reported; apply comma_free_vocabularies.
Qed.

(** C4: handed a text (the empty one included) or [None], the extractor
    returns a pair and raises nothing, in both scrapers; [None] and the
    empty text give two empty results.  The embedding is a function of its
    argument alone: it reads and changes no state. *)
Theorem extractor_never_raises :
  (forall o : pyobj,
      (o = PyNone \/ exists s, o = PyStr s) ->
      (exists e sk, Github.extract_experience_and_skills o = Returns (e, sk))
      /\ (exists e sk, Microsoft.extract_experience_and_skills o = Returns (e, sk)))
  /\ Github.extract_experience_and_skills PyNone = Returns ("", "")
  /\ Github.extract_experience_and_skills (PyStr "") = Returns ("", "")
  /\ Microsoft.extract_experience_and_skills PyNone = Returns ("", "")
  /\ Microsoft.extract_experience_and_skills (PyStr "") = Returns ("", "").
Proof.
  split; [|repeat split].
  intros o Ho. split; now apply extract_returns.
Qed.

Lemma extractor_never_raises_witness :
  (exists e sk,
      Github.extract_experience_and_skills (PyStr "Senior Rust developer")
      = Returns (e, sk))
  /\ (exists e sk,
         Microsoft.extract_experience_and_skills (PyStr "Senior Rust developer")
         = Returns (e, sk)).
Proof.
  apply (proj1 extractor_never_raises (PyStr "Senior Rust developer")).
  right. exists "Senior Rust developer". reflexivity.
Defined.

Lemma skills_refine (pats : list Re.regex) (kws : list string) (text : string) :
  filter (fun k => Py.contains (Py.lower k) "") kws = [] ->
  snd (extract pats kws text) = skills_spec kws text.
Proof.
  intro Hempty. unfold skills_spec. destruct text as [|c text].
  - simpl Py.lower. rewrite Hempty. reflexivity.
  - unfold extract, top_skills. cbv iota. simpl snd.
    now rewrite found_skills_filter.
Qed.

Lemma skills_none (pats : list Re.regex) (kws : list string) (text : string) :
  (forall k, In k kws -> Py.contains (Py.lower k) (Py.lower text) = false) ->
  snd (extract pats kws text) = "".
Proof.
  intro Hnone. destruct text as [|c text]; [reflexivity|].
  unfold extract, top_skills. cbv iota. simpl snd.
  rewrite found_skills_filter.
  replace (filter _ kws) with (@nil string); [reflexivity|].
  symmetry. induction kws as [|k l IH]; [reflexivity|].
  simpl. unfold skill_matches at 1. rewrite Hnone by now left.
  apply IH. intros k' Hk'. apply Hnone. now right.
Qed.

(** C5: the skills text is the vocabulary filtered by occurrence in the
    lower-cased text, so in vocabulary order, cut to its first ten entries
    and joined with ", "; with no entry occurring it is the empty text. *)
Theorem skills_in_vocabulary_order (text : string) :
  snd (Github.extract text) = skills_spec Github.skill_keywords text
  /\ snd (Microsoft.extract text) = skills_spec Microsoft.skill_keywords text
  /\ ((forall k, In k Github.skill_keywords ->
                 Py.contains (Py.lower k) (Py.lower text) = false) ->
      snd (Github.extract text) = "")
  /\ ((forall k, In k Microsoft.skill_keywords ->
                 Py.contains (Py.lower k) (Py.lower text) = false) ->
      snd (Microsoft.extract text) = "").
Proof.
  repeat split.
  - now apply skills_refine.
  - now apply skills_refine.
  - apply skills_none.
  - apply skills_none.
Qed.

Lemma skills_in_vocabulary_order_witness :
  snd (Github.extract "Lead the team") = ""
  /\ snd (Microsoft.extract "Lead the team") = "".
Proof.
  split.
  - apply (proj1 (proj2 (proj2 (skills_in_vocabulary_order "Lead the team")))).
    intros k Hk. simpl in Hk.
    repeat (destruct Hk as [<- | Hk]; [reflexivity|]). contradiction.
  - apply (proj2 (proj2 (proj2 (skills_in_vocabulary_order "Lead the team")))).
    intros k Hk. simpl in Hk.
    repeat (destruct Hk as [<- | Hk]; [reflexivity|]). contradiction.
Defined.

(** The order is the vocabulary's, not the text's. *)
Example skills_order_example :
  Github.extract "Rust first, then Go, then Python"
  = ("", "python, go, rust").
Proof. reflexivity. Qed.


Example python_upper_and_lower :
  Github.extract "PYTHON" = ("", "python")
  /\ Github.extract "python" = ("", "python")
  /\ Microsoft.extract "PYTHON" = ("", "python")
  /\ Microsoft.extract "python" = ("", "python").
Proof. repeat split. Qed.

(** C10: an entry is reported when it occurs inside a longer word: every
    text with "javascript" in it reports "java", be "java" a word of the
    text or not, and the text "maintain" gives the skills "ai". *)
Theorem skills_are_substrings :
  (forall pre post,
      In "java" (reported Github.skill_keywords (pre ++ "javascript" ++ post))
      /\ In "java" (reported Microsoft.skill_keywords (pre ++ "javascript" ++ post)))
  /\ Github.extract "javascript" = ("", "java, javascript")
  /\ Microsoft.extract "javascript" = ("", "java, javascript")
  /\ Github.extract "maintain" = ("", "ai")
  /\ Microsoft.extract "maintain" = ("", "ai")
  /\ Github.extract "We maintain servers" = ("", "ai")
  /\ Microsoft.extract "We maintain servers" = ("", "ai").
Proof.
  assert (Hin : forall kws k0 rest pre post,
             kws = k0 :: "java" :: rest ->
             In "java" (reported kws (pre ++ "javascript" ++ post))).
  { intros kws k0 rest pre post E. unfold reported.
    destruct (pre ++ "javascript" ++ post) eqn:Et.
    - destruct pre; discriminate.
    - rewrite <- Et.
      apply (second_keyword_reported kws k0 "java" rest); [exact E|].
      unfold skill_matches. rewrite !PyFacts.lower_app.
      change (Py.lower "javascript") with ("java" ++ "script").
      rewrite PyFacts.app_assoc.
      apply (PyFacts.contains_app "java"). }
  split; [|repeat split].
  intros pre post. split; eapply Hin; reflexivity.
Qed.

(** ** The matcher *)

Module ReFacts.
Import Re.

(** A match and its rest make up the text. *)
Lemma star_sound (a : atom) (s m rest : string) :
  In (m, rest) (star a s) -> s = m ++ rest.
Proof.
  revert m rest; induction s as [|c s IH]; intros m rest H; simpl in H.
  - destruct H as [H | []]. now inversion H.
  - destruct (atom_matches a c).
    + apply in_app_or in H. destruct H as [H | [H | []]].
      * apply in_map_iff in H. destruct H as [[m' r'] [E H]].
        inversion E; subst. simpl. f_equal. now apply IH.
      * now inversion H.
    + destruct H as [H | []]. now inversion H.
Qed.

Lemma run_sound (r : regex) (s m rest : string) :
  In (m, rest) (run r s) -> s = m ++ rest.
Proof.
  revert s m rest; induction r as [|a|r1 IH1 r2 IH2|r1 IH1 r2 IH2|r1 IH1|a|a];
    intros s m rest H; simpl in H.
  - destruct H as [H | []]. now inversion H.
  - destruct s as [|c s]; [contradiction|].
    destruct (atom_matches a c); [|contradiction].
    destruct H as [H | []]. now inversion H.
  - apply in_flat_map in H. destruct H as [[m1 s1] [H1 H2]].
    apply in_map_iff in H2. destruct H2 as [[m2 s2] [E H2]].
    inversion E; subst. simpl.
    rewrite PyFacts.app_assoc, <- (IH2 _ _ _ H2). now apply IH1.
  - apply in_app_or in H. destruct H as [H | H]; [now apply IH1 | now apply IH2].
  - apply in_app_or in H. destruct H as [H | [H | []]]; [now apply IH1|].
    now inversion H.
  - now apply (star_sound a).
  - destruct s as [|c s]; [contradiction|].
    destruct (atom_matches a c); [|contradiction].
    apply in_map_iff in H. destruct H as [[m' r'] [E H]].
    inversion E; subst. simpl. f_equal. now apply (star_sound a).
Qed.

(** The head of [findall] is the leftmost match. *)
Lemma findall_from_head (r : regex) (s : string) (fuel : nat) :
  String.length s < fuel ->
  hd_error (findall_from fuel r s) = search r s.
Proof.
  revert fuel; induction s as [|c s IH]; intros [|fuel] Hf; simpl in Hf; try lia.
  - simpl. destruct (run r "") as [|[[|x m] rest] l]; reflexivity.
  - cbn [findall_from search].
    destruct (run r (String c s)) as [|[[|x m] rest] l]; try reflexivity.
    apply IH. lia.
Qed.

Lemma findall_head (r : regex) (s : string) :
  hd_error (findall r s) = search r s.
Proof.
  apply findall_from_head. lia.
Qed.

(** More fuel than the text is long changes nothing: the scan ends before
    the fuel does. *)
Lemma findall_fuel (r : regex) (fuel1 fuel2 : nat) (s : string) :
  String.length s < fuel1 -> String.length s < fuel2 ->
  findall_from fuel1 r s = findall_from fuel2 r s.
Proof.
  remember (String.length s) as n eqn:En.
  revert s En fuel1 fuel2.
  induction n as [n IH] using lt_wf_ind.
  intros s En [|f1] [|f2] H1 H2; try lia.
  cbn [findall_from].
  assert (Hadv : match s with
                 | "" => []
                 | String _ s' => findall_from f1 r s'
                 end
                 = match s with
                   | "" => []
                   | String _ s' => findall_from f2 r s'
                   end).
  { destruct s as [|c s']; [reflexivity|].
    simpl in En. apply (IH (String.length s')); [lia | reflexivity | lia | lia]. }
  destruct (run r s) as [|[m rest] l] eqn:Er; [exact Hadv|].
  destruct m as [|x m]; [now rewrite Hadv|].
  f_equal.
  assert (Hs : s = String x m ++ rest).
  { apply (run_sound r). rewrite Er. now left. }
  assert (Hlen : String.length rest < n).
  { rewrite En, Hs. rewrite PyFacts.length_app. simpl. lia. }
  apply (IH (String.length rest)); [exact Hlen | reflexivity | lia | lia].
Qed.

Lemma search_hit (r : regex) (s m rest : string) (l : list (string * string)) :
  run r s = (m, rest) :: l -> search r s = Some m.
Proof.
  intro H. destruct s; simpl; now rewrite H.
Qed.

Lemma search_miss (r : regex) (c : ascii) (s : string) :
  run r (String c s) = [] -> search r (String c s) = search r s.
Proof.
  intro H. simpl. now rewrite H.
Qed.

Lemma search_skip (r : regex) (pre s : string) :
  no_match_before r (pre ++ s) (String.length pre) ->
  search r (pre ++ s) = search r s.
Proof.
  induction pre as [|c pre IH]; intro H; [reflexivity|].
  change (String c pre ++ s) with (String c (pre ++ s)).
  rewrite search_miss.
  - apply IH. intros i Hi. apply (H (S i)). simpl. lia.
  - apply (H 0). simpl. lia.
Qed.

Lemma search_found (r : regex) (pre s : string) :
  run r s <> [] -> search r (pre ++ s) <> None.
Proof.
  intro H. induction pre as [|c pre IH].
  - destruct s; simpl; destruct (run r _) as [|[m rest] l]; congruence.
  - change (String c pre ++ s) with (String c (pre ++ s)). simpl.
    destruct (run r (String c (pre ++ s))) as [|[m rest] l]; congruence.
Qed.

End ReFacts.

(** ** The experience loop *)

Section ExperienceFacts.

Variable skill_keywords : list string.

Lemma experience_first (p : Re.regex) (ps : list Re.regex) (d m : string) :
  Re.search p d = Some m -> experience_loop (p :: ps) d = m.
Proof.
  intro H. simpl. rewrite <- ReFacts.findall_head in H.
  destruct (Re.findall p d); simpl in H; congruence.
Qed.

Lemma experience_next (p : Re.regex) (ps : list Re.regex) (d : string) :
  Re.search p d = None -> experience_loop (p :: ps) d = experience_loop ps d.
Proof.
  intro H. simpl. rewrite <- ReFacts.findall_head in H.
  destruct (Re.findall p d); simpl in H; congruence.
Qed.

Lemma fst_extract (pats : list Re.regex) (text : string) :
  text <> "" ->
  fst (extract pats skill_keywords text) = experience_loop pats (Py.lower text).
Proof.
  destruct text; [congruence | reflexivity].
Qed.

End ExperienceFacts.

Lemma lower_digit (c : ascii) : Re.is_digit c = true -> Py.lower_char c = c.
Proof.
  destruct c as [[] [] [] [] [] [] [] []]; intro H;
    try reflexivity; discriminate H.
Qed.

Lemma lower_digits (ds : string) : all_digits ds = true -> Py.lower ds = ds.
Proof.
  induction ds as [|c ds IH]; simpl; [reflexivity|].
  intro H. apply andb_prop in H. destruct H as [Hc Hds].
  now rewrite lower_digit, IH.
Qed.

Lemma star_digits (ds : string) (c : ascii) (rest : string) :
  all_digits ds = true -> Re.is_digit c = false ->
  exists l, Re.star Re.Digit (ds ++ String c rest) = (ds, String c rest) :: l.
Proof.
  intros Hds Hc. induction ds as [|d ds IH]; simpl.
  - rewrite Hc. now exists [].
  - simpl in Hds. apply andb_prop in Hds. destruct Hds as [Hd Hds].
    rewrite Hd. destruct (IH Hds) as [l ->]. simpl. eexists. reflexivity.
Qed.

Lemma plus_digits (ds : string) (c : ascii) (rest : string) :
  ds <> "" -> all_digits ds = true -> Re.is_digit c = false ->
  exists l,
    Re.run (Re.Plus Re.Digit) (ds ++ String c rest) = (ds, String c rest) :: l.
Proof.
  intros Hne Hds Hc. destruct ds as [|d ds]; [congruence|].
  simpl in Hds. apply andb_prop in Hds. destruct Hds as [Hd Hds].
  simpl. rewrite Hd.
  destruct (star_digits ds c rest Hds Hc) as [l ->]. simpl.
  eexists. reflexivity.
Qed.

Lemma years_tail_run (post : string) :
  Re.run years_tail ("+ years of experience" ++ post)
  = [("+ years of experience", post)].
Proof. reflexivity. Qed.

Lemma years_run (ds post : string) :
  ds <> "" -> all_digits ds = true ->
  exists l,
    Re.run pat_years_experience (ds ++ "+ years of experience" ++ post)
    = (ds ++ "+ years of experience", post) :: l.
Proof.
  intros Hne Hds.
  change (Re.run pat_years_experience (ds ++ "+ years of experience" ++ post))
    with (flat_map
            (fun p => map (Re.extend (fst p)) (Re.run years_tail (snd p)))
            (Re.run (Re.Plus Re.Digit)
               (ds ++ String "+" (" years of experience" ++ post)))).
  destruct (plus_digits ds "+" (" years of experience" ++ post) Hne Hds eq_refl)
    as [l ->].
  cbn [flat_map fst snd].
  change (String "+" (" years of experience" ++ post))
    with ("+ years of experience" ++ post).
  rewrite years_tail_run. cbn [map app Re.extend fst snd].
  eexists. reflexivity.
Qed.

(** The leftmost match of the first pattern, when none starts before the
    digits that end in the "5". *)
Lemma search_five_plus (pre ds post : string) :
  all_digits ds = true ->
  no_match_before pat_years_experience
    (pre ++ ds ++ "5+ years of experience" ++ post) (String.length pre) ->
  Re.search pat_years_experience (pre ++ ds ++ "5+ years of experience" ++ post)
  = Some (ds ++ "5+ years of experience").
Proof.
  intros Hds Hno. rewrite ReFacts.search_skip by exact Hno.
  assert (Hd5 : all_digits (ds ++ "5") = true).
  { clear Hno. induction ds as [|d ds IH]; [reflexivity|].
    simpl in *. apply andb_prop in Hds. destruct Hds as [-> Hds]. now apply IH. }
  assert (Hne : ds ++ "5" <> "") by (destruct ds; discriminate).
  destruct (years_run (ds ++ "5") post Hne Hd5) as [l Hrun].
  rewrite !PyFacts.app_assoc in Hrun.
  exact (ReFacts.search_hit _ _ _ _ _ Hrun).
Qed.

Lemma lower_five_plus (pre ds post : string) :
  all_digits ds = true ->
  Py.lower (pre ++ ds ++ "5+ years of experience" ++ post)
  = Py.lower pre ++ ds ++ "5+ years of experience" ++ Py.lower post.
Proof.
  intro Hds. rewrite !PyFacts.lower_app, (lower_digits ds Hds). reflexivity.
Qed.

Lemma five_plus_experience (pats : list Re.regex) (kws : list string)
      (pre ds post : string) :
  all_digits ds = true ->
  no_match_before pat_years_experience
    (Py.lower (pre ++ ds ++ "5+ years of experience" ++ post))
    (String.length pre) ->
  fst (extract (pat_years_experience :: pats) kws
         (pre ++ ds ++ "5+ years of experience" ++ post))
  = ds ++ "5+ years of experience".
Proof.
  intros Hds Hno. rewrite fst_extract.
  - apply experience_first. rewrite lower_five_plus in * by exact Hds.
    apply search_five_plus; [exact Hds|].
    replace (String.length (Py.lower pre)) with (String.length pre); [exact Hno|].
    clear. induction pre; simpl; congruence.
  - destruct pre; [destruct ds|]; discriminate.
Qed.

Lemma five_plus_first_pattern (pats : list Re.regex) (kws : list string)
      (pre post : string) :
  exists m,
    Re.search pat_years_experience
      (Py.lower (pre ++ "5+ years of experience" ++ post)) = Some m
    /\ fst (extract (pat_years_experience :: pats) kws
              (pre ++ "5+ years of experience" ++ post)) = m.
Proof.
  destruct (Re.search pat_years_experience
              (Py.lower (pre ++ "5+ years of experience" ++ post))) as [m|] eqn:E.
  - exists m. split; [reflexivity|].
    rewrite fst_extract by (destruct pre; discriminate).
    now apply experience_first.
  - exfalso. revert E. rewrite !PyFacts.lower_app.
    apply ReFacts.search_found.
    change (Py.lower "5+ years of experience") with ("5" ++ "+ years of experience").
    rewrite PyFacts.app_assoc.
    destruct (years_run "5" (Py.lower post)) as [l ->];
      [discriminate | reflexivity | discriminate].
Qed.

(** C2, as the code has it: for a text with "5+ years of experience" in it
    the experience is the leftmost match of the first pattern in the
    lower-cased text, whatever the later patterns would match; when no
    match of that pattern starts before the digits that end in the "5",
    it is those digits followed by "+ years of experience". *)
Theorem five_plus_years_first_match :
  (forall pre post,
      exists m,
        Re.search pat_years_experience
          (Py.lower (pre ++ "5+ years of experience" ++ post)) = Some m
        /\ fst (Github.extract (pre ++ "5+ years of experience" ++ post)) = m
        /\ fst (Microsoft.extract (pre ++ "5+ years of experience" ++ post)) = m)
  /\ (forall pre ds post,
         all_digits ds = true ->
         no_match_before pat_years_experience
           (Py.lower (pre ++ ds ++ "5+ years of experience" ++ post))
           (String.length pre) ->
         fst (Github.extract (pre ++ ds ++ "5+ years of experience" ++ post))
         = ds ++ "5+ years of experience"
         /\ fst (Microsoft.extract (pre ++ ds ++ "5+ years of experience" ++ post))
            = ds ++ "5+ years of experience").
Proof.
  split.
  - intros pre post.
    destruct (five_plus_first_pattern (tl Github.experience_patterns)
                Github.skill_keywords pre post) as [m [Hm Hg]].
    destruct (five_plus_first_pattern (tl Microsoft.experience_patterns)
                Microsoft.skill_keywords pre post) as [m' [Hm' Hms]].
    exists m. repeat split; [exact Hm | exact Hg |].
    rewrite Hm in Hm'. injection Hm' as <-. exact Hms.
  - intros pre ds post Hds Hno. split.
    + exact (five_plus_experience (tl Github.experience_patterns)
               Github.skill_keywords pre ds post Hds Hno).
    + exact (five_plus_experience (tl Microsoft.experience_patterns)
               Microsoft.skill_keywords pre ds post Hds Hno).
Qed.

Lemma five_plus_years_first_match_witness :
  fst (Github.extract ("Senior role: " ++ "1" ++ "5+ years of experience" ++ " with Go"))
  = "1" ++ "5+ years of experience"
  /\ fst (Microsoft.extract ("Senior role: " ++ "1" ++ "5+ years of experience" ++ " with Go"))
     = "1" ++ "5+ years of experience".
Proof.
  apply (proj2 five_plus_years_first_match "Senior role: " "1" " with Go").
  - reflexivity.
  - intros i Hi. simpl in Hi.
    do 13 (destruct i as [|i]; [reflexivity|]). lia.
Defined.

(** An earlier match of the first pattern wins over a later "5+ years of
    experience". *)
Lemma five_plus_years_counterexample :
  let text := "2 years experience in sales, 5+ years of experience in all" in
  Py.contains "5+ years of experience" text = true
  /\ Py.contains "5+ years of experience" (fst (Github.extract text)) = false
  /\ Py.contains "5+ years of experience" (fst (Microsoft.extract text)) = false.
Proof. repeat split. Qed.

Example earlier_match_wins :
  Github.extract "2 years experience in sales, 5+ years of experience in all"
  = ("2 years experience", "")
  /\ Microsoft.extract "2 years experience in sales, 5+ years of experience in all"
     = ("2 years experience", "").
Proof. split; reflexivity. Qed.

(** The later patterns do not take over from the first. *)
Example first_pattern_over_later :
  Github.extract "Senior lead, bachelor degree, minimum 3 years, 5+ years of experience"
  = ("5+ years of experience", "")
  /\ Microsoft.extract "Senior lead, bachelor degree, minimum 3 years, 5+ years of experience"
     = ("5+ years of experience", "").
Proof. split; reflexivity. Qed.

(** ** The seniority pattern *)

Lemma lower_space (c : ascii) : Re.is_space c = true -> Py.lower_char c = c.
Proof.
  destruct c as [[] [] [] [] [] [] [] []]; intro H;
    try reflexivity; discriminate H.
Qed.

Lemma lower_spaces (ws : string) : all_spaces ws = true -> Py.lower ws = ws.
Proof.
  induction ws as [|c ws IH]; simpl; [reflexivity|].
  intro H. apply andb_prop in H. destruct H as [Hc Hws].
  now rewrite lower_space, IH.
Qed.

(** A prefix of a lower-cased text is lower-cased. *)
Lemma lower_prefix (m x y : string) :
  Py.lower m ++ x = m ++ y -> Py.lower m = m.
Proof.
  induction m as [|c m IH]; simpl; [reflexivity|].
  intro H. injection H as Hc Hm. now rewrite Hc, (IH Hm).
Qed.

Lemma lowered_match (s m rest : string) :
  Py.lower s = m ++ rest -> Py.lower m = m.
Proof.
  intro H. apply (lower_prefix m (Py.lower rest) rest).
  rewrite <- PyFacts.lower_app, <- H. apply PyFacts.lower_idem.
Qed.

Module SeniorityFacts.
Import Re.

Lemma run_cat_inv (r1 r2 : regex) (s m rest : string) :
  In (m, rest) (run (Cat r1 r2) s) ->
  exists m1 mid m2,
    In (m1, mid) (run r1 s) /\ In (m2, rest) (run r2 mid) /\ m = m1 ++ m2.
Proof.
  simpl. intro H. apply in_flat_map in H. destruct H as [[m1 mid] [H1 H2]].
  apply in_map_iff in H2. destruct H2 as [[m2 r'] [E H2]].
  inversion E; subst. now exists m1, mid, m2.
Qed.

(** A literal word matches itself, up to case. *)
Lemma run_word_inv (w s m rest : string) :
  In (m, rest) (run (word w) s) -> Py.lower m = Py.lower w.
Proof.
  revert s m rest; induction w as [|c w IH]; intros s m rest H.
  - simpl in H. destruct H as [H | []]. now inversion H.
  - change (word (String c w)) with (Cat (Atom (Lit c)) (word w)) in H.
    apply run_cat_inv in H. destruct H as [m1 [mid [m2 [H1 [H2 ->]]]]].
    simpl in H1. destruct s as [|x s]; [contradiction|].
    destruct (Ascii.eqb (Py.lower_char x) (Py.lower_char c)) eqn:Ex;
      [|contradiction].
    destruct H1 as [H1 | []]. inversion H1; subst.
    apply Ascii.eqb_eq in Ex. simpl. rewrite Ex. f_equal. now apply (IH mid _ rest).
Qed.

Lemma star_space_inv (s m rest : string) :
  In (m, rest) (star Space s) -> all_spaces m = true.
Proof.
  revert m rest; induction s as [|c s IH]; intros m rest H; simpl in H.
  - destruct H as [H | []]. now inversion H.
  - destruct (is_space c) eqn:Ec.
    + apply in_app_or in H. destruct H as [H | [H | []]].
      * apply in_map_iff in H. destruct H as [[m' r'] [E H]].
        inversion E; subst. simpl. rewrite Ec. now apply (IH _ rest).
      * now inversion H.
    + destruct H as [H | []]. now inversion H.
Qed.

Lemma run_entry_level_inv (s m rest : string) :
  In (m, rest) (run pat_entry_level s) ->
  exists ws, all_spaces ws = true /\ Py.lower m = "entry" ++ ws ++ "level".
Proof.
  intro H.
  change pat_entry_level
    with (Cat (word "entry") (Cat (Star Space) (Cat (word "level") Eps))) in H.
  apply run_cat_inv in H. destruct H as [m1 [s1 [m' [H1 [H ->]]]]].
  apply run_cat_inv in H. destruct H as [ws [s2 [m'' [H2 [H ->]]]]].
  apply run_cat_inv in H. destruct H as [m3 [s3 [e [H3 [H ->]]]]].
  simpl in H. destruct H as [H | []]. inversion H; subst.
  apply run_word_inv in H1. apply run_word_inv in H3.
  apply star_space_inv in H2.
  exists ws. split; [exact H2|].
  rewrite !PyFacts.lower_app, H1, H3, (lower_spaces ws H2). reflexivity.
Qed.

(** A match that [search] finds is a match at some index of the text. *)
Lemma search_inv (r : regex) (s m : string) :
  search r s = Some m ->
  exists pre rest, s = pre ++ m ++ rest /\ In (m, rest) (run r (m ++ rest)).
Proof.
  induction s as [|c s IH]; simpl.
  - destruct (run r "") as [|[m' rest] l] eqn:Er; [discriminate|].
    intro H. injection H as ->.
    assert (Hin : In (m, rest) (run r "")) by (rewrite Er; now left).
    exists "", rest. pose proof (ReFacts.run_sound _ _ _ _ Hin) as Hs.
    split; [exact Hs | now rewrite <- Hs].
  - destruct (run r (String c s)) as [|[m' rest] l] eqn:Er.
    + intro H. destruct (IH H) as [pre [rest [-> Hin]]].
      now exists (String c pre), rest.
    + intro H. injection H as ->.
      assert (Hin : In (m, rest) (run r (String c s))) by (rewrite Er; now left).
      exists "", rest. pose proof (ReFacts.run_sound _ _ _ _ Hin) as Hs.
      split; [exact Hs | now rewrite <- Hs].
Qed.

End SeniorityFacts.

(** A match found in a lower-cased text is lower-cased. *)
Lemma match_in_lowered (r : Re.regex) (text m : string) :
  Re.search r (Py.lower text) = Some m ->
  Py.lower m = m /\ exists rest, In (m, rest) (Re.run r (m ++ rest)).
Proof.
  intro H. apply SeniorityFacts.search_inv in H.
  destruct H as [pre [rest [Hs Hin]]].
  split; [|now exists rest].
  apply (lowered_match (Py.drop (String.length pre) text) m rest).
  clear Hin. revert text Hs. induction pre as [|c pre IH]; intros text Hs.
  - exact Hs.
  - destruct text as [|x text]; [discriminate Hs|].
    simpl in Hs. injection Hs as _ Hs. simpl. now apply IH.
Qed.

Lemma github_seniority_matches (text m : string) :
  Re.search Github.pat_seniority (Py.lower text) = Some m -> seniority_word m.
Proof.
  intro H. apply match_in_lowered in H. destruct H as [Hm [rest Hin]].
  unfold seniority_word. rewrite <- Hm.
  change Github.pat_seniority
    with (Re.Alt pat_entry_level
            (Re.Alt (Re.word "junior")
               (Re.Alt (Re.word "senior")
                  (Re.Alt (Re.word "principal") (Re.word "lead"))))) in Hin.
  simpl Re.run in Hin.
  repeat (apply in_app_or in Hin; destruct Hin as [Hin | Hin]).
  - right; right; right; right. exact (SeniorityFacts.run_entry_level_inv _ _ _ Hin).
  - left. exact (SeniorityFacts.run_word_inv "junior" _ _ _ Hin).
  - right; left. exact (SeniorityFacts.run_word_inv "senior" _ _ _ Hin).
  - right; right; left. exact (SeniorityFacts.run_word_inv "principal" _ _ _ Hin).
  - right; right; right; left. exact (SeniorityFacts.run_word_inv "lead" _ _ _ Hin).
Qed.

Lemma microsoft_seniority_matches (text m : string) :
  Re.search Microsoft.pat_seniority (Py.lower text) = Some m ->
  microsoft_seniority_word m.
Proof.
  intro H. apply match_in_lowered in H. destruct H as [Hm [rest Hin]].
  unfold microsoft_seniority_word. rewrite <- Hm.
  change Microsoft.pat_seniority
    with (Re.Alt pat_entry_level
            (Re.Alt (Re.word "junior")
               (Re.Alt (Re.word "senior") (Re.word "principal")))) in Hin.
  simpl Re.run in Hin.
  repeat (apply in_app_or in Hin; destruct Hin as [Hin | Hin]).
  - right; right; right. exact (SeniorityFacts.run_entry_level_inv _ _ _ Hin).
  - left. exact (SeniorityFacts.run_word_inv "junior" _ _ _ Hin).
  - right; left. exact (SeniorityFacts.run_word_inv "senior" _ _ _ Hin).
  - right; right; left. exact (SeniorityFacts.run_word_inv "principal" _ _ _ Hin).
Qed.

(** The greedy white-space run takes the whole run first. *)
Lemma star_spaces (ws : string) (c : ascii) (rest : string) :
  all_spaces ws = true -> Re.is_space c = false ->
  exists l, Re.star Re.Space (ws ++ String c rest) = (ws, String c rest) :: l.
Proof.
  intros Hws Hc. induction ws as [|d ws IH]; simpl.
  - rewrite Hc. now exists [].
  - simpl in Hws. apply andb_prop in Hws. destruct Hws as [Hd Hws].
    rewrite Hd. destruct (IH Hws) as [l ->]. simpl. eexists. reflexivity.
Qed.

(** The preferred way through a sequence is made of the preferred ways
    through its parts. *)
Lemma run_cat_head (r1 r2 : Re.regex) (s m1 mid m2 rest : string)
      (l1 l2 : list (string * string)) :
  Re.run r1 s = (m1, mid) :: l1 ->
  Re.run r2 mid = (m2, rest) :: l2 ->
  exists l, Re.run (Re.Cat r1 r2) s = (m1 ++ m2, rest) :: l.
Proof.
  intros H1 H2. simpl. rewrite H1. simpl. rewrite H2. simpl.
  eexists. reflexivity.
Qed.

Lemma entry_level_run (ws post : string) :
  all_spaces ws = true ->
  exists l,
    Re.run pat_entry_level ("entry" ++ ws ++ "level" ++ post)
    = ("entry" ++ ws ++ "level", post) :: l.
Proof.
  intro Hws.
  change pat_entry_level
    with (Re.Cat (Re.word "entry")
            (Re.Cat (Re.Star Re.Space) (Re.Cat (Re.word "level") Re.Eps))).
  destruct (star_spaces ws "l" ("evel" ++ post) Hws eq_refl) as [l Hstar].
  destruct (run_cat_head (Re.Star Re.Space) (Re.Cat (Re.word "level") Re.Eps)
              (ws ++ "level" ++ post) ws ("level" ++ post) "level" post l []
              Hstar eq_refl) as [l' Htail].
  exact (run_cat_head (Re.word "entry") _ ("entry" ++ ws ++ "level" ++ post)
           "entry" (ws ++ "level" ++ post) (ws ++ "level") post [] l'
           eq_refl Htail).
Qed.

(** "entry level", whatever the white space between its words, is what a
    pattern that starts with that alternative finds there. *)
Lemma entry_level_search (r : Re.regex) (ws post : string) :
  all_spaces ws = true ->
  Re.search (Re.Alt pat_entry_level r) ("entry" ++ ws ++ "level" ++ post)
  = Some ("entry" ++ ws ++ "level").
Proof.
  intro Hws. destruct (entry_level_run ws post Hws) as [l Hrun].
  apply (ReFacts.search_hit _ _ _ post (l ++ Re.run r ("entry" ++ ws ++ "level" ++ post))).
  change (Re.run (Re.Alt pat_entry_level r) ("entry" ++ ws ++ "level" ++ post))
    with (Re.run pat_entry_level ("entry" ++ ws ++ "level" ++ post)
          ++ Re.run r ("entry" ++ ws ++ "level" ++ post))%list.
  now rewrite Hrun.
Qed.

Lemma lead_run (post : string) :
  Re.run Github.pat_seniority ("lead" ++ post) = [("lead", post)].
Proof. reflexivity. Qed.

Lemma lead_experience (pre post : string) :
  Re.search pat_years_experience (Py.lower (pre ++ "lead" ++ post)) = None ->
  Re.search pat_minimum_years (Py.lower (pre ++ "lead" ++ post)) = None ->
  Re.search pat_range_years (Py.lower (pre ++ "lead" ++ post)) = None ->
  no_match_before Github.pat_seniority
    (Py.lower (pre ++ "lead" ++ post)) (String.length pre) ->
  fst (Github.extract (pre ++ "lead" ++ post)) = "lead".
Proof.
  intros H1 H2 H3 Hno. unfold Github.extract.
  rewrite fst_extract by (destruct pre; discriminate).
  unfold Github.experience_patterns.
  rewrite experience_next by exact H1.
  rewrite experience_next by exact H2.
  rewrite experience_next by exact H3.
  apply experience_first.
  rewrite !PyFacts.lower_app in *.
  rewrite ReFacts.search_skip.
  - exact (ReFacts.search_hit _ _ _ _ _ (lead_run (Py.lower post))).
  - replace (String.length (Py.lower pre)) with (String.length pre); [exact Hno|].
    clear. induction pre; simpl; congruence.
Qed.

(** C7, as the code has it.  In the GitHub scraper the fourth pattern of
    the priority list matches the seniority words "entry level" (with any
    run of white space, or none, between its two words), "junior",
    "senior", "principal" and "lead", and in a text whose characters all
    lie below U+0100, the texts of this development, it matches nothing
    else; for a text that matches none of the three numeric patterns and
    has "lead" in it, with no match of the fourth pattern starting before
    that "lead", the GitHub experience is "lead".  In the Microsoft scraper
    the fourth pattern matches "entry level" (in the same way), "junior",
    "senior" and "principal", and in such a text nothing else: it has no
    "lead". *)
Theorem lead_is_seniority_word :
  (forall pre post,
      Re.search pat_years_experience (Py.lower (pre ++ "lead" ++ post)) = None ->
      Re.search pat_minimum_years (Py.lower (pre ++ "lead" ++ post)) = None ->
      Re.search pat_range_years (Py.lower (pre ++ "lead" ++ post)) = None ->
      no_match_before Github.pat_seniority
        (Py.lower (pre ++ "lead" ++ post)) (String.length pre) ->
      fst (Github.extract (pre ++ "lead" ++ post)) = "lead")
  /\ (forall ws post,
         all_spaces ws = true ->
         Re.search Github.pat_seniority ("entry" ++ ws ++ "level" ++ post)
         = Some ("entry" ++ ws ++ "level"))
  /\ (forall post,
         Re.search Github.pat_seniority ("junior" ++ post) = Some "junior"
         /\ Re.search Github.pat_seniority ("senior" ++ post) = Some "senior"
         /\ Re.search Github.pat_seniority ("principal" ++ post) = Some "principal"
         /\ Re.search Github.pat_seniority ("lead" ++ post) = Some "lead")
  /\ (forall text m,
         Re.search Github.pat_seniority (Py.lower text) = Some m ->
         seniority_word m)
  /\ (forall ws post,
         all_spaces ws = true ->
         Re.search Microsoft.pat_seniority ("entry" ++ ws ++ "level" ++ post)
         = Some ("entry" ++ ws ++ "level"))
  /\ (forall post,
         Re.search Microsoft.pat_seniority ("junior" ++ post) = Some "junior"
         /\ Re.search Microsoft.pat_seniority ("senior" ++ post) = Some "senior"
         /\ Re.search Microsoft.pat_seniority ("principal" ++ post) = Some "principal")
  /\ (forall text m,
         Re.search Microsoft.pat_seniority (Py.lower text) = Some m ->
         microsoft_seniority_word m).
Proof.
  split; [exact lead_experience|].
  split; [intros ws post; apply entry_level_search|].
  split; [intro post; repeat split|].
  split; [exact github_seniority_matches|].
  split; [intros ws post; apply entry_level_search|].
  split; [intro post; repeat split|].
  exact microsoft_seniority_matches.
Qed.

Lemma lead_is_seniority_word_witness :
  fst (Github.extract ("Team " ++ "lead" ++ " for the platform group")) = "lead"
  /\ Re.search Github.pat_seniority ("entry" ++ String "009"%char " " ++ "level" ++ " role")
     = Some ("entry" ++ String "009"%char " " ++ "level")
  /\ seniority_word "senior"
  /\ Re.search Microsoft.pat_seniority ("entry" ++ "" ++ "level" ++ " role")
     = Some ("entry" ++ "" ++ "level")
  /\ microsoft_seniority_word "principal".
Proof.
  split; [|split; [|split; [|split]]].
  - apply (proj1 lead_is_seniority_word "Team " " for the platform group");
      try reflexivity.
    intros i Hi. simpl in Hi.
    do 5 (destruct i as [|i]; [reflexivity|]). lia.
  - apply (proj1 (proj2 lead_is_seniority_word) (String "009"%char " ") " role").
    reflexivity.
  - apply (proj1 (proj2 (proj2 (proj2 lead_is_seniority_word)))
             "A Senior role").
    reflexivity.
  - apply (proj1 (proj2 (proj2 (proj2 (proj2 lead_is_seniority_word))))
             "" " role").
    reflexivity.
  - apply (proj2 (proj2 (proj2 (proj2 (proj2 (proj2 lead_is_seniority_word)))))
             "Principal engineer").
    reflexivity.
Defined.

(** A seniority word earlier in the text wins over "lead" in both
    scrapers, and the Microsoft scraper finds no experience in a text whose
    one seniority word is "lead". *)
Lemma lead_counterexample :
  (let text := "Junior lead" in
   Re.search pat_years_experience (Py.lower text) = None
   /\ Re.search pat_minimum_years (Py.lower text) = None
   /\ Re.search pat_range_years (Py.lower text) = None
   /\ Py.contains "lead" text = true
   /\ fst (Github.extract text) = "junior"
   /\ fst (Github.extract text) <> "lead"
   /\ fst (Microsoft.extract text) = "junior"
   /\ fst (Microsoft.extract text) <> "lead")
  /\ (let text := "Team lead" in
      Re.search pat_years_experience (Py.lower text) = None
      /\ Re.search pat_minimum_years (Py.lower text) = None
      /\ Re.search pat_range_years (Py.lower text) = None
      /\ Py.contains "lead" text = true
      /\ fst (Github.extract text) = "lead"
      /\ fst (Microsoft.extract text) = ""
      /\ fst (Microsoft.extract text) <> "lead").
Proof. repeat split; discriminate. Qed.

(** ** The detail page *)

Section DetailFacts.

Variable requests_get : string -> result response.
Variable select_one_text : string -> string -> option string.
Variable description_selectors : list string.
Variable experience_patterns : list Re.regex.
Variable skill_keywords : list string.

Lemma detail_of_failed_fetch (job_url : string) (w : world) :
  fetch_fails requests_get job_url = true ->
  exists e,
    get_job_detail requests_get select_one_text description_selectors
      (extract_experience_and_skills experience_patterns skill_keywords)
      job_url w
    = (Returns empty_detail,
       {| stdout := ErrorFetching job_url e :: stdout w; files := files w |}).
Proof.
  unfold fetch_fails, get_job_detail, get_job_detail_body, try_except,
    bind, lift, raise_for_status.
  destruct (requests_get job_url) as [resp | e]; intro H.
  - rewrite H. unfold raise. eexists. reflexivity.
  - exists e. reflexivity.
Qed.

Lemma detail_returns (job_url : string) (w : world) :
  exists d w',
    get_job_detail requests_get select_one_text description_selectors
      (extract_experience_and_skills experience_patterns skill_keywords)
      job_url w
    = (Returns d, w').
Proof.
  unfold get_job_detail, get_job_detail_body, try_except,
    bind, lift, raise_for_status.
  destruct (requests_get job_url) as [resp | e].
  - destruct ((400 <=? status_code resp) && (status_code resp <? 600)).
    + unfold raise. eexists. eexists. reflexivity.
    + unfold ret.
      destruct (extract_returns experience_patterns skill_keywords
                  (PyStr (first_description select_one_text
                            description_selectors (content resp))))
        as [x [sk ->]].
      * right. eexists. reflexivity.
      * eexists. eexists. reflexivity.
  - eexists. eexists. reflexivity.
Qed.

End DetailFacts.

(** C8: when the fetch of the detail page fails, [get_job_detail] returns
    the record with every field empty, after printing the error, and does
    not raise; it returns a record in every case. *)
Theorem failed_fetch_gives_empty_detail
        (requests_get : string -> result response)
        (select_one_text : string -> string -> option string)
        (job_url : string) (w : world) :
  (fetch_fails requests_get job_url = true ->
   (exists e,
       Github.get_job_detail requests_get select_one_text job_url w
       = (Returns empty_detail,
          {| stdout := ErrorFetching job_url e :: stdout w; files := files w |}))
   /\ (exists e,
          Microsoft.get_job_detail requests_get select_one_text job_url w
          = (Returns empty_detail,
             {| stdout := ErrorFetching job_url e :: stdout w; files := files w |})))
  /\ (exists d w',
         Github.get_job_detail requests_get select_one_text job_url w
         = (Returns d, w'))
  /\ (exists d w',
         Microsoft.get_job_detail requests_get select_one_text job_url w
         = (Returns d, w')).
Proof.
  split; [intro H; split; now apply detail_of_failed_fetch|].
  split; apply detail_returns.
Qed.

Lemma failed_fetch_gives_empty_detail_witness :
  (exists e,
      Github.get_job_detail timed_out (fun _ _ => None)
        "https://github.com/about/careers/positions/1"
        {| stdout := []; files := [] |}
      = (Returns empty_detail,
         {| stdout := [ErrorFetching "https://github.com/about/careers/positions/1" e];
            files := [] |}))
  /\ (exists e,
         Microsoft.get_job_detail not_found (fun _ _ => None)
           "https://careers.microsoft.com/job/1"
           {| stdout := []; files := [] |}
         = (Returns empty_detail,
            {| stdout := [ErrorFetching "https://careers.microsoft.com/job/1" e];
               files := [] |})).
Proof.
  split.
  - apply (proj1 (failed_fetch_gives_empty_detail timed_out (fun _ _ => None)
                    "https://github.com/about/careers/positions/1"
                    {| stdout := []; files := [] |})).
    reflexivity.
  - apply (proj1 (failed_fetch_gives_empty_detail not_found (fun _ _ => None)
                    "https://careers.microsoft.com/job/1"
                    {| stdout := []; files := [] |})).
    reflexivity.
Defined.

(** A page that is fetched gives the fields the extractor finds. *)
Example fetched_detail :
  fst (Github.get_job_detail
         (fun _ => Returns {| status_code := 200; content := "page" |})
         (fun _ selector =>
            if String.eqb selector "main"
            then Some "Senior engineer, Python and SQL" else None)
         "https://github.com/about/careers/positions/2"
         {| stdout := []; files := [] |})
  = Returns {| description := "Senior engineer, Python and SQL";
               experience := "senior";
               skills := "python, sql";
               summary := "Senior engineer, Python and SQL";
               salary := "" |}.
Proof. reflexivity. Qed.

(** ** The table writer *)

Module FrameFacts.

Lemma mem_app (c : string) (a b : list string) :
  mem c (a ++ b) = mem c a || mem c b.
Proof. apply existsb_app. Qed.

Lemma mem_add_keys (c : string) (keys seen : list string) :
  mem c (fold_left (fun acc k => if mem k acc then acc else (acc ++ [k])%list)
           keys seen)
  = mem c seen || mem c keys.
Proof.
  revert seen; induction keys as [|k keys IH]; intro seen; simpl.
  - now rewrite orb_false_r.
  - rewrite IH. destruct (mem k seen) eqn:Ek.
    + destruct (String.eqb c k) eqn:Eck; [|reflexivity].
      apply String.eqb_eq in Eck. subst. now rewrite Ek.
    + rewrite mem_app. simpl. now rewrite orb_false_r, orb_assoc.
Qed.

Lemma mem_union_keys (c : string) (jobs : list dict) (seen : list string) :
  mem c (fold_left add_keys jobs seen)
  = mem c seen || existsb (fun j => mem c (dict_keys j)) jobs.
Proof.
  revert seen; induction jobs as [|j jobs IH]; intro seen; simpl.
  - now rewrite orb_false_r.
  - rewrite IH. unfold add_keys. now rewrite mem_add_keys, orb_assoc.
Qed.

Lemma dict_get_none (j : dict) (c : string) :
  mem c (dict_keys j) = false -> dict_get j c = None.
Proof.
  induction j as [|[k v] j IH]; simpl; [reflexivity|].
  rewrite String.eqb_sym. destruct (String.eqb k c); [discriminate|].
  exact IH.
Qed.

(** A name that is no column of [DataFrame jobs] is a field of no
    record. *)
Lemma absent_everywhere (c : string) (jobs : list dict) :
  mem c (union_keys jobs) = false ->
  map (fun j => dict_get j c) jobs = repeat None (List.length jobs).
Proof.
  unfold union_keys. rewrite mem_union_keys. simpl.
  induction jobs as [|j jobs IH]; simpl; [reflexivity|].
  intro H. apply orb_false_elim in H. destruct H as [Hj Hjobs].
  now rewrite (dict_get_none j c Hj), IH.
Qed.

Lemma find_column_map (g : string -> list cell) (keys : list string) (c : string) :
  find_column (map (fun k => (k, g k)) keys) c
  = if mem c keys then Some (g c) else None.
Proof.
  induction keys as [|k keys IH]; simpl; [reflexivity|].
  rewrite (String.eqb_sym c k). destruct (String.eqb k c) eqn:E; [|exact IH].
  apply String.eqb_eq in E. now subst.
Qed.

Lemma find_column_mem (cols : list (string * list cell)) (c : string) :
  mem c (map fst cols) = match find_column cols c with Some _ => true | None => false end.
Proof.
  induction cols as [|[k v] cols IH]; simpl; [reflexivity|].
  rewrite (String.eqb_sym c k). destruct (String.eqb k c); [reflexivity | exact IH].
Qed.

Lemma find_column_app (a b : list (string * list cell)) (c : string) :
  find_column (a ++ b) c
  = match find_column a c with Some v => Some v | None => find_column b c end.
Proof.
  induction a as [|[k v] a IH]; simpl; [reflexivity|].
  destruct (String.eqb k c); [reflexivity | exact IH].
Qed.

(** The loop over the required columns keeps the columns there are and
    adds a column of empty texts for each name that is missing. *)
Lemma ensure_columns_spec (cols : list string) (df : dataframe) :
  nrows (ensure_columns df cols) = nrows df
  /\ forall c,
      find_column (columns (ensure_columns df cols)) c
      = match find_column (columns df) c with
        | Some v => Some v
        | None => if mem c cols then Some (repeat (Some "") (nrows df)) else None
        end.
Proof.
  revert df; induction cols as [|a cols IH]; intro df.
  - split; [reflexivity|]. intro c. simpl. now destruct (find_column _ c).
  - change (ensure_columns df (a :: cols))
      with (ensure_columns
              (if mem a (column_names df) then df else add_column df a "") cols).
    destruct (IH (if mem a (column_names df) then df else add_column df a ""))
      as [Hn Hf].
    unfold column_names in *. rewrite find_column_mem in *.
    destruct (find_column (columns df) a) as [va|] eqn:Ea.
    + split; [exact Hn|]. intro c. rewrite Hf.
      destruct (find_column (columns df) c) eqn:Ec; [reflexivity|].
      simpl. destruct (String.eqb c a) eqn:Eca; [|reflexivity].
      apply String.eqb_eq in Eca. subst. congruence.
    + split; [exact Hn|]. intro c. rewrite Hf. simpl.
      rewrite find_column_app. simpl.
      destruct (find_column (columns df) c) eqn:Ec; [reflexivity|].
      rewrite (String.eqb_sym a c). now destruct (String.eqb c a).
Qed.

Lemma select_columns_all (cols : list (string * list cell))
      (f : string -> list cell) (names : list string) :
  (forall c, In c names -> find_column cols c = Some (f c)) ->
  select_columns cols names = Returns (map (fun c => (c, f c)) names).
Proof.
  induction names as [|c names IH]; intro H; simpl; [reflexivity|].
  rewrite (H c) by now left.
  rewrite IH; [reflexivity|]. intros c' Hc'. apply H. now right.
Qed.

Lemma map_repeat {A B : Type} (f : A -> B) (x : A) (n : nat) :
  map f (repeat x n) = repeat (f x) n.
Proof.
  induction n as [|n IH]; simpl; [reflexivity|]. now rewrite IH.
Qed.

Lemma map_const {A B : Type} (y : B) (l : list A) :
  map (fun _ => y) l = repeat y (List.length l).
Proof.
  induction l as [|x l IH]; simpl; [reflexivity|]. now rewrite IH.
Qed.

Lemma ensured_column (jobs : list dict) (c : string) :
  In c required_columns ->
  find_column (columns (ensure_columns (DataFrame jobs) required_columns)) c
  = Some (raw_column jobs c).
Proof.
  intro Hc. destruct (ensure_columns_spec required_columns (DataFrame jobs))
    as [_ Hf].
  rewrite Hf. unfold DataFrame at 1 2. cbn [columns nrows].
  rewrite find_column_map. unfold raw_column.
  destruct (mem c (union_keys jobs)); [reflexivity|].
  replace (mem c required_columns) with true; [reflexivity|].
  symmetry. apply existsb_exists. exists c. split; [exact Hc|].
  apply String.eqb_refl.
Qed.

Lemma filled_column (jobs : list dict) (c : string) :
  map (fun x : cell => match x with Some v => Some v | None => Some "" end)
    (raw_column jobs c)
  = map (field_or_empty c) jobs.
Proof.
  unfold raw_column. destruct (mem c (union_keys jobs)) eqn:E.
  - rewrite map_map. reflexivity.
  - rewrite map_repeat.
    transitivity (map (fun x : cell => match x with Some v => Some v | None => Some "" end)
                    (map (fun j => dict_get j c) jobs)).
    + rewrite (absent_everywhere c jobs E), map_repeat. reflexivity.
    + rewrite map_map. reflexivity.
Qed.

(** The frame that goes to [to_excel]. *)
Lemma frame_to_write (jobs : list dict) :
  match getitem (ensure_columns (DataFrame jobs) required_columns) required_columns with
  | Returns df => fillna df "" = schema_table jobs
  | Raises _ => False
  end.
Proof.
  unfold getitem.
  rewrite (select_columns_all _ (raw_column jobs) required_columns)
    by (intros c Hc; now apply ensured_column).
  unfold fillna, schema_table. cbn [nrows columns].
  destruct (ensure_columns_spec required_columns (DataFrame jobs)) as [-> _].
  cbn [DataFrame nrows]. f_equal.
  rewrite map_map. apply map_ext. intro c. cbn [fst snd].
  now rewrite filled_column.
Qed.

End FrameFacts.

Lemma read_written (fs : list (string * dataframe)) (filename : string)
      (df : dataframe) :
  read_file ((filename, df) :: fs) filename = Some df.
Proof.
  simpl. now rewrite String.eqb_refl.
Qed.

Lemma save_nonempty (write_error : string -> option exn) (jobs : list dict)
      (filename : string) (w : world) :
  jobs <> [] ->
  exists out,
    save_to_excel write_error jobs filename w = (Returns tt, out)
    /\ match write_error filename with
       | None => read_file (files out) filename = Some (schema_table jobs)
       | Some e => files out = files w
       end.
Proof.
  intro Hne. destruct jobs as [|j jobs]; [congruence|].
  unfold save_to_excel, try_except, bind, lift, to_excel.
  pose proof (FrameFacts.frame_to_write (j :: jobs)) as Hframe.
  destruct (getitem (ensure_columns (DataFrame (j :: jobs)) required_columns)
              required_columns) as [df | e]; [|contradiction].
  rewrite Hframe.
  destruct (write_error filename) as [e|].
  - eexists. split; reflexivity.
  - eexists. split; [reflexivity|]. cbn [files print]. apply read_written.
Qed.

(** C9: with no record the writer prints that there is nothing to save and
    writes no file; with records it does not raise, and the file it writes
    has the seven columns of the schema, in their order, each record's
    missing fields filled with the empty text; when the write itself fails
    no file changes. *)
Theorem save_to_excel_schema
        (write_error : string -> option exn) (filename : string) (w : world) :
  save_to_excel write_error [] filename w
  = (Returns tt, {| stdout := NoJobsToSave :: stdout w; files := files w |})
  /\ (forall jobs,
         jobs <> [] ->
         exists out,
           save_to_excel write_error jobs filename w = (Returns tt, out)
           /\ match write_error filename with
              | None =>
                  read_file (files out) filename = Some (schema_table jobs)
                  /\ column_names (schema_table jobs)
                     = ["JobTitle"; "Location"; "ExperienceRequired";
                        "SkillsRequired"; "Salary"; "JobURL";
                        "JobDescriptionSummary"]
              | Some e => files out = files w
              end).
Proof.
  split; [reflexivity|].
  intros jobs Hne.
  destruct (save_nonempty write_error jobs filename w Hne) as [out [Hsave Hfile]].
  exists out. split; [exact Hsave|].
  destruct (write_error filename); [exact Hfile|].
  split; [exact Hfile | reflexivity].
Qed.

Lemma save_to_excel_schema_witness :
  exists out,
    save_to_excel (fun _ => None) sample_jobs "Jobs.xlsx"
      {| stdout := []; files := [] |} = (Returns tt, out)
    /\ read_file (files out) "Jobs.xlsx" = Some (schema_table sample_jobs)
    /\ column_names (schema_table sample_jobs)
       = ["JobTitle"; "Location"; "ExperienceRequired"; "SkillsRequired";
          "Salary"; "JobURL"; "JobDescriptionSummary"].
Proof.
  apply (proj2 (save_to_excel_schema (fun _ => None) "Jobs.xlsx"
                  {| stdout := []; files := [] |}) sample_jobs).
  discriminate.
Defined.

(** The written table for two records that fill different fields. *)
Example written_table :
  columns (schema_table sample_jobs)
  = [("JobTitle", [Some "Site Reliability Engineer"; Some "Data Analyst"]);
     ("Location", [Some ""; Some "Remote"]);
     ("ExperienceRequired", [Some ""; Some ""]);
     ("SkillsRequired", [Some ""; Some ""]);
     ("Salary", [Some ""; Some ""]);
     ("JobURL", [Some "https://example.org/1"; Some ""]);
     ("JobDescriptionSummary", [Some ""; Some ""])].
Proof. reflexivity. Qed.

(** * Further properties of the extractor *)

Lemma contains_inv (sub s : string) :
  Py.contains sub s = true -> exists pre post, s = pre ++ sub ++ post.
Proof.
  assert (Hsw : forall p t, Py.startswith p t = true -> exists post, t = p ++ post).
  { induction p as [|a p IH]; intros t H.
    - now exists t.
    - destruct t as [|b t]; [discriminate|]. simpl in H.
      apply andb_prop in H. destruct H as [Hab Hp].
      apply Ascii.eqb_eq in Hab. subst.
      destruct (IH t Hp) as [post ->]. now exists post. }
  induction s as [|c s IH]; simpl; intro H.
  - rewrite orb_false_r in H. destruct (Hsw _ _ H) as [post Hp].
    now exists "", post.
  - apply orb_prop in H. destruct H as [H | H].
    + destruct (Hsw _ _ H) as [post Hp]. now exists "", post.
    + destruct (IH H) as [pre [post ->]]. now exists (String c pre), post.
Qed.

Lemma contains_embed (sub a t b : string) :
  Py.contains sub t = true -> Py.contains sub (a ++ t ++ b) = true.
Proof.
  intro H. apply contains_inv in H. destruct H as [pre [post ->]].
  rewrite !PyFacts.app_assoc. rewrite <- (PyFacts.app_assoc a pre).
  apply PyFacts.contains_app.
Qed.

Lemma nullable_sound (r : Re.regex) (s m rest : string) :
  nullable r = false -> In (m, rest) (Re.run r s) -> m <> "".
Proof.
  revert s m rest; induction r as [|a|r1 IH1 r2 IH2|r1 IH1 r2 IH2|r1 IH1|a|a];
    intros s m rest Hn H; simpl in Hn; try discriminate.
  - simpl in H. destruct s as [|c s]; [contradiction|].
    destruct (Re.atom_matches a c); [|contradiction].
    destruct H as [H | []]. inversion H. discriminate.
  - apply SeniorityFacts.run_cat_inv in H.
    destruct H as [m1 [mid [m2 [H1 [H2 ->]]]]].
    apply andb_false_iff in Hn. destruct Hn as [Hn | Hn].
    + specialize (IH1 _ _ _ Hn H1). destruct m1; [congruence | discriminate].
    + specialize (IH2 _ _ _ Hn H2). destruct m1; [exact IH2 | discriminate].
  - apply orb_false_iff in Hn. destruct Hn as [Hn1 Hn2].
    simpl in H. apply in_app_or in H. destruct H as [H | H].
    + exact (IH1 _ _ _ Hn1 H).
    + exact (IH2 _ _ _ Hn2 H).
  - simpl in H. destruct s as [|c s]; [contradiction|].
    destruct (Re.atom_matches a c); [|contradiction].
    apply in_map_iff in H. destruct H as [[m' r'] [E H]].
    inversion E. discriminate.
Qed.

Lemma search_nonempty (r : Re.regex) (s m : string) :
  nullable r = false -> Re.search r s = Some m -> m <> "".
Proof.
  intros Hn H. apply SeniorityFacts.search_inv in H.
  destruct H as [pre [rest [_ Hin]]]. exact (nullable_sound _ _ _ _ Hn Hin).
Qed.

Section LoopFacts.

Variable skill_keywords : list string.

(** The experience is cut out of the lower-cased text. *)
Lemma experience_loop_in_text (pats : list Re.regex) (d : string) :
  exists pre rest, experience_loop pats d = "" \/ d = pre ++ experience_loop pats d ++ rest.
Proof.
  induction pats as [|p pats IH].
  - exists "", "". now left.
  - destruct (Re.search p d) as [m|] eqn:E.
    + rewrite (experience_first p pats d m E).
      apply SeniorityFacts.search_inv in E.
      destruct E as [pre [rest [Hd _]]]. exists pre, rest. now right.
    + now rewrite (experience_next p pats d E).
Qed.

Lemma experience_in_text (pats : list Re.regex) (text : string) :
  Py.contains (fst (extract pats skill_keywords text)) (Py.lower text) = true.
Proof.
  destruct text as [|c text]; [reflexivity|].
  rewrite fst_extract by discriminate.
  destruct (experience_loop_in_text pats (Py.lower (String c text)))
    as [pre [rest [-> | H]]].
  - reflexivity.
  - rewrite H at 2. apply PyFacts.contains_app.
Qed.

(** The experience is empty exactly when no pattern matches, the patterns
    matching no empty text. *)
Lemma experience_empty_iff (pats : list Re.regex) (d : string) :
  forallb (fun p => negb (nullable p)) pats = true ->
  experience_loop pats d = "" <-> Forall (fun p => Re.search p d = None) pats.
Proof.
  induction pats as [|p pats IH]; intro Hn.
  - split; [constructor | reflexivity].
  - simpl in Hn. apply andb_prop in Hn. destruct Hn as [Hp Hn].
    apply negb_true_iff in Hp.
    destruct (Re.search p d) as [m|] eqn:E.
    + rewrite (experience_first p pats d m E). split.
      * intro Hm. exfalso. exact (search_nonempty p d m Hp E Hm).
      * intro H. inversion H; subst. congruence.
    + rewrite (experience_next p pats d E). rewrite (IH Hn). split.
      * intro H. now constructor.
      * intro H. now inversion H.
Qed.

End LoopFacts.

(** X1: the experience the extractor returns is a piece of the lower-cased
    text (the empty piece when nothing matches), in both scrapers. *)
Theorem experience_is_piece_of_text (text : string) :
  Py.contains (fst (Github.extract text)) (Py.lower text) = true
  /\ Py.contains (fst (Microsoft.extract text)) (Py.lower text) = true.
Proof.
  split; apply experience_in_text.
Qed.

(** X2: the experience is the empty text exactly when none of the five
    patterns of the scraper matches anywhere in the lower-cased text. *)
Theorem experience_empty_iff_no_match (text : string) :
  (fst (Github.extract text) = ""
   <-> Forall (fun p => Re.search p (Py.lower text) = None)
         Github.experience_patterns)
  /\ (fst (Microsoft.extract text) = ""
      <-> Forall (fun p => Re.search p (Py.lower text) = None)
            Microsoft.experience_patterns).
Proof.
  destruct text as [|c text].
  - split; split; intro; try reflexivity; repeat constructor.
  - split.
    + unfold Github.extract. rewrite fst_extract by discriminate.
      now apply experience_empty_iff.
    + unfold Microsoft.extract. rewrite fst_extract by discriminate.
      now apply experience_empty_iff.
Qed.

Lemma NoDup_firstn {A : Type} (n : nat) (l : list A) :
  NoDup l -> NoDup (firstn n l).
Proof.
  revert l; induction n as [|n IH]; intros [|x l] H; simpl; try constructor.
  - inversion H; subst. intro Hx. apply firstn_In in Hx. contradiction.
  - inversion H; subst. now apply IH.
Qed.

Lemma vocabularies_distinct :
  NoDup Github.skill_keywords /\ NoDup Microsoft.skill_keywords.
Proof.
  split.
  - rewrite <- (eq_refl : nodup string_dec Github.skill_keywords
                          = Github.skill_keywords).
    apply NoDup_nodup.
  - rewrite <- (eq_refl : nodup string_dec Microsoft.skill_keywords
                          = Microsoft.skill_keywords).
    apply NoDup_nodup.
Qed.

Section ReportedFacts.

Variable skill_keywords : list string.

Lemma reported_sound (text k : string) :
  In k (reported skill_keywords text) ->
  In k skill_keywords /\ Py.contains (Py.lower k) (Py.lower text) = true.
Proof.
  destruct text as [|c text]; [intros []|].
  unfold reported, top_skills. intro H. apply firstn_In in H.
  rewrite found_skills_filter in H. apply filter_In in H. exact H.
Qed.

Lemma reported_nodup (text : string) :
  NoDup skill_keywords -> NoDup (reported skill_keywords text).
Proof.
  intro H. destruct text as [|c text]; [constructor|].
  unfold reported, top_skills. apply NoDup_firstn.
  rewrite found_skills_filter. now apply NoDup_filter.
Qed.

(** With at most ten keywords occurring, each of them is reported. *)
Lemma reported_complete (text k : string) :
  text <> "" ->
  List.length (found_skills skill_keywords (Py.lower text)) <= 10 ->
  In k skill_keywords ->
  Py.contains (Py.lower k) (Py.lower text) = true ->
  In k (reported skill_keywords text).
Proof.
  intros Hne Hlen Hk Hc. destruct text as [|c text]; [congruence|].
  unfold reported, top_skills. rewrite firstn_all2 by exact Hlen.
  rewrite found_skills_filter. apply filter_In. now split.
Qed.

(** A keyword found in a text is found in every text around it. *)
Lemma found_skills_embed (a t b k : string) :
  In k (found_skills skill_keywords (Py.lower t)) ->
  In k (found_skills skill_keywords (Py.lower (a ++ t ++ b))).
Proof.
  rewrite !found_skills_filter, !filter_In. intros [Hk Hc]. split; [exact Hk|].
  unfold skill_matches in *. rewrite !PyFacts.lower_app.
  now apply contains_embed.
Qed.

End ReportedFacts.

(** X3: the entries the extractor reports are distinct entries of the
    vocabulary, each occurring in the lower-cased text, in both scrapers. *)
Theorem reported_entries_occur (text : string) :
  (NoDup (reported Github.skill_keywords text)
   /\ forall k, In k (reported Github.skill_keywords text) ->
                In k Github.skill_keywords
                /\ Py.contains (Py.lower k) (Py.lower text) = true)
  /\ (NoDup (reported Microsoft.skill_keywords text)
      /\ forall k, In k (reported Microsoft.skill_keywords text) ->
                   In k Microsoft.skill_keywords
                   /\ Py.contains (Py.lower k) (Py.lower text) = true).
Proof.
  split; (split; [apply reported_nodup; apply vocabularies_distinct
                 | intros k; apply reported_sound]).
Qed.

Lemma reported_entries_occur_witness :
  In "sql" Github.skill_keywords
  /\ Py.contains (Py.lower "sql") (Py.lower "PostgreSQL and Rust") = true.
Proof.
  apply (proj2 (proj1 (reported_entries_occur "PostgreSQL and Rust")) "sql").
  unfold reported. vm_compute. auto.
Defined.

(** X4: when at most ten vocabulary entries occur in a text that is not
    empty, every entry that occurs is reported: the limit drops nothing. *)
Theorem all_found_when_at_most_ten (text k : string) :
  text <> "" ->
  (List.length (Github.found_skills (Py.lower text)) <= 10 ->
   In k Github.skill_keywords ->
   Py.contains (Py.lower k) (Py.lower text) = true ->
   In k (reported Github.skill_keywords text))
  /\ (List.length (Microsoft.found_skills (Py.lower text)) <= 10 ->
      In k Microsoft.skill_keywords ->
      Py.contains (Py.lower k) (Py.lower text) = true ->
      In k (reported Microsoft.skill_keywords text)).
Proof.
  intro Hne. unfold Github.found_skills, Microsoft.found_skills.
  split; intros Hlen Hk Hc.
  - exact (reported_complete Github.skill_keywords text k Hne Hlen Hk Hc).
  - exact (reported_complete Microsoft.skill_keywords text k Hne Hlen Hk Hc).
Qed.

Lemma all_found_when_at_most_ten_witness :
  In "docker" (reported Github.skill_keywords "Docker, Kubernetes and AWS")
  /\ In "docker" (reported Microsoft.skill_keywords "Docker, Kubernetes and AWS").
Proof.
  split.
  - apply (proj1 (all_found_when_at_most_ten "Docker, Kubernetes and AWS" "docker"
                    ltac:(discriminate))).
    + vm_compute. lia.
    + vm_compute. tauto.
    + reflexivity.
  - apply (proj2 (all_found_when_at_most_ten "Docker, Kubernetes and AWS" "docker"
                    ltac:(discriminate))).
    + vm_compute. lia.
    + vm_compute. tauto.
    + reflexivity.
Defined.

(** The limit does drop entries when more than ten occur. *)
Example eleventh_entry_dropped :
  Py.contains "css"
    (Py.lower "Python Java JavaScript TypeScript Go Rust C# C++ SQL HTML CSS")
  = true
  /\ ~ In "css" (reported Github.skill_keywords
                   "Python Java JavaScript TypeScript Go Rust C# C++ SQL HTML CSS").
Proof.
  split; [reflexivity|]. intro H. vm_compute in H.
  repeat (destruct H as [H | H]; [discriminate H|]). exact H.
Qed.

(** X5: a keyword found in a text is found in every text that contains
    that text (before the limit of ten applies), in both scrapers. *)
Theorem found_skills_monotone (a t b k : string) :
  (In k (Github.found_skills (Py.lower t)) ->
   In k (Github.found_skills (Py.lower (a ++ t ++ b))))
  /\ (In k (Microsoft.found_skills (Py.lower t)) ->
      In k (Microsoft.found_skills (Py.lower (a ++ t ++ b)))).
Proof.
  unfold Github.found_skills, Microsoft.found_skills.
  split; apply found_skills_embed.
Qed.

Lemma found_skills_monotone_witness :
  In "rust" (Github.found_skills (Py.lower ("We use " ++ "Rust" ++ " daily"))).
Proof.
  apply (proj1 (found_skills_monotone "We use " "Rust" " daily" "rust")).
  vm_compute. auto.
Defined.

(** ** Further properties of the summary *)

Lemma take_app_exact (n : nat) (a b : string) :
  String.length a = n -> Py.take n (a ++ b) = a.
Proof.
  revert a; induction n as [|n IH]; intros [|c a] H; simpl in *;
    try discriminate.
  - now destruct b.
  - f_equal. apply IH. lia.
Qed.

Lemma length_take_le (n : nat) (s : string) : String.length (Py.take n s) <= n.
Proof.
  revert s; induction n as [|n IH]; intros [|c s]; simpl; try lia.
  specialize (IH s). lia.
Qed.

(** X6: a summary is at most 203 characters long, agrees with the
    description on its first 200 characters, and summarizing it again
    changes nothing. *)
Theorem summarize_bounded_idempotent (description : string) :
  String.length (summarize description) <= 203
  /\ Py.take 200 (summarize description) = Py.take 200 description
  /\ summarize (summarize description) = summarize description.
Proof.
  unfold summarize at 1 2 4 5.
  destruct (200 <? String.length description) eqn:E.
  - apply Nat.ltb_lt in E.
    assert (Hlen : String.length (Py.take 200 description) = 200)
      by (apply PyFacts.length_take; lia).
    split; [|split].
    + rewrite PyFacts.length_app, Hlen. simpl. lia.
    + now apply take_app_exact.
    + unfold summarize. rewrite PyFacts.length_app, Hlen.
      simpl (200 <? 200 + String.length "...").
      rewrite take_app_exact by exact Hlen. reflexivity.
  - apply Nat.ltb_ge in E. split; [lia|]. split; [reflexivity|].
    unfold summarize. apply Nat.ltb_ge in E. now rewrite E.
Qed.

(** * Further properties of the detail page *)

Section CascadeFacts.

Variable select_one_text : string -> string -> option string.

Lemma first_description_all_miss (selectors : list string) (page : string) :
  (forall s, In s selectors -> select_one_text page s = None) ->
  first_description select_one_text selectors page = "".
Proof.
  induction selectors as [|s l IH]; intro H; simpl; [reflexivity|].
  rewrite (H s) by now left. apply IH. intros s' Hs'. apply H. now right.
Qed.

Lemma first_description_first_hit (pre post : list string) (sel page text : string) :
  (forall s, In s pre -> select_one_text page s = None) ->
  select_one_text page sel = Some text ->
  first_description select_one_text (pre ++ sel :: post) page = text.
Proof.
  intros Hpre Hsel. induction pre as [|s pre IH]; simpl.
  - now rewrite Hsel.
  - rewrite (Hpre s) by now left. apply IH. intros s' Hs'. apply Hpre. now right.
Qed.

End CascadeFacts.

Section DetailMore.

Variable requests_get : string -> result response.
Variable select_one_text : string -> string -> option string.
Variable description_selectors : list string.
Variable experience_patterns : list Re.regex.
Variable skill_keywords : list string.

(** What a page that was fetched gives. *)
Lemma detail_of_fetched (job_url : string) (w : world) (resp : response) :
  requests_get job_url = Returns resp ->
  fetch_fails requests_get job_url = false ->
  get_job_detail requests_get select_one_text description_selectors
    (extract_experience_and_skills experience_patterns skill_keywords)
    job_url w
  = (Returns
       (let d := first_description select_one_text description_selectors
                   (content resp) in
        {| description := d;
           experience := fst (extract experience_patterns skill_keywords d);
           skills := snd (extract experience_patterns skill_keywords d);
           summary := summarize d;
           salary := "" |}),
     w).
Proof.
  intros Hget Hok. unfold fetch_fails in Hok. rewrite Hget in Hok.
  unfold get_job_detail, get_job_detail_body, try_except, bind, lift,
    raise_for_status.
  rewrite Hget, Hok. unfold ret.
  destruct (first_description select_one_text description_selectors (content resp))
    as [|c d]; reflexivity.
Qed.

Lemma detail_consistent (job_url : string) (w : world) :
  exists d w',
    get_job_detail requests_get select_one_text description_selectors
      (extract_experience_and_skills experience_patterns skill_keywords)
      job_url w
    = (Returns d, w')
    /\ files w' = files w
    /\ (stdout w' = stdout w
        \/ exists e, stdout w' = ErrorFetching job_url e :: stdout w)
    /\ (experience d, skills d)
       = extract experience_patterns skill_keywords (description d)
    /\ summary d = summarize (description d)
    /\ salary d = "".
Proof.
  destruct (fetch_fails requests_get job_url) eqn:Ef.
  - destruct (detail_of_failed_fetch requests_get select_one_text
                description_selectors experience_patterns skill_keywords
                job_url w Ef) as [e ->].
    eexists. eexists. split; [reflexivity|].
    repeat split. right. now exists e.
  - unfold fetch_fails in Ef.
    destruct (requests_get job_url) as [resp|e] eqn:Eg; [|discriminate].
    rewrite (detail_of_fetched job_url w resp Eg)
      by (unfold fetch_fails; now rewrite Eg).
    eexists. eexists. split; [reflexivity|]. cbn.
    repeat split; auto.
    now destruct (extract experience_patterns skill_keywords _).
Qed.

End DetailMore.

(** X7: whatever the network and the page, the record [get_job_detail]
    returns is consistent: its experience and skills are the extractor's
    for its description, its summary is the description's, its salary is
    empty; no file changes, and at most the error line is printed. *)
Theorem detail_record_consistent
        (requests_get : string -> result response)
        (select_one_text : string -> string -> option string)
        (job_url : string) (w : world) :
  (exists d w',
      Github.get_job_detail requests_get select_one_text job_url w = (Returns d, w')
      /\ files w' = files w
      /\ (stdout w' = stdout w
          \/ exists e, stdout w' = ErrorFetching job_url e :: stdout w)
      /\ (experience d, skills d) = Github.extract (description d)
      /\ summary d = summarize (description d)
      /\ salary d = "")
  /\ (exists d w',
         Microsoft.get_job_detail requests_get select_one_text job_url w
         = (Returns d, w')
         /\ files w' = files w
         /\ (stdout w' = stdout w
             \/ exists e, stdout w' = ErrorFetching job_url e :: stdout w)
         /\ (experience d, skills d) = Microsoft.extract (description d)
         /\ summary d = summarize (description d)
         /\ salary d = "").
Proof.
  split; apply detail_consistent.
Qed.

(** X8: a page that is fetched but on which no description selector finds
    an element gives the record of five empty texts, with nothing
    printed: the same record as a failed fetch. *)
Theorem detail_of_page_without_description
        (requests_get : string -> result response)
        (select_one_text : string -> string -> option string)
        (job_url : string) (w : world) (resp : response) :
  requests_get job_url = Returns resp ->
  fetch_fails requests_get job_url = false ->
  ((forall s, In s Github.description_selectors ->
              select_one_text (content resp) s = None) ->
   Github.get_job_detail requests_get select_one_text job_url w
   = (Returns empty_detail, w))
  /\ ((forall s, In s Microsoft.description_selectors ->
                 select_one_text (content resp) s = None) ->
      Microsoft.get_job_detail requests_get select_one_text job_url w
      = (Returns empty_detail, w)).
Proof.
  intros Hget Hok. split; intro Hmiss.
  - unfold Github.get_job_detail, Github.extract_experience_and_skills.
    rewrite (detail_of_fetched _ _ _ _ _ job_url w resp Hget Hok).
    now rewrite (first_description_all_miss _ _ _ Hmiss).
  - unfold Microsoft.get_job_detail, Microsoft.extract_experience_and_skills.
    rewrite (detail_of_fetched _ _ _ _ _ job_url w resp Hget Hok).
    now rewrite (first_description_all_miss _ _ _ Hmiss).
Qed.

Lemma detail_of_page_without_description_witness :
  Github.get_job_detail blank_page (fun _ _ => None)
    "https://github.com/about/careers/positions/3"
    {| stdout := []; files := [] |}
  = (Returns empty_detail, {| stdout := []; files := [] |}).
Proof.
  apply (proj1 (detail_of_page_without_description blank_page (fun _ _ => None)
                  "https://github.com/about/careers/positions/3"
                  {| stdout := []; files := [] |}
                  {| status_code := 200; content := "<html></html>" |}
                  eq_refl eq_refl)).
  reflexivity.
Defined.

(** X9: on a fetched page the description is the text of the first
    selector, in the order of the list, that finds an element; the later
    selectors are not consulted. *)
Theorem description_from_first_selector
        (requests_get : string -> result response)
        (select_one_text : string -> string -> option string)
        (job_url : string) (w : world) (resp : response)
        (pre post : list string) (sel text : string) :
  requests_get job_url = Returns resp ->
  fetch_fails requests_get job_url = false ->
  (forall s, In s pre -> select_one_text (content resp) s = None) ->
  select_one_text (content resp) sel = Some text ->
  (Github.description_selectors = (pre ++ sel :: post)%list ->
   Github.get_job_detail requests_get select_one_text job_url w
   = (Returns {| description := text;
                 experience := fst (Github.extract text);
                 skills := snd (Github.extract text);
                 summary := summarize text;
                 salary := "" |}, w))
  /\ (Microsoft.description_selectors = (pre ++ sel :: post)%list ->
      Microsoft.get_job_detail requests_get select_one_text job_url w
      = (Returns {| description := text;
                    experience := fst (Microsoft.extract text);
                    skills := snd (Microsoft.extract text);
                    summary := summarize text;
                    salary := "" |}, w)).
Proof.
  intros Hget Hok Hpre Hsel. split; intro Hlist.
  - unfold Github.get_job_detail, Github.extract_experience_and_skills.
    rewrite (detail_of_fetched _ _ _ _ _ job_url w resp Hget Hok).
    rewrite Hlist.
    now rewrite (first_description_first_hit _ pre post sel _ text Hpre Hsel).
  - unfold Microsoft.get_job_detail, Microsoft.extract_experience_and_skills.
    rewrite (detail_of_fetched _ _ _ _ _ job_url w resp Hget Hok).
    rewrite Hlist.
    now rewrite (first_description_first_hit _ pre post sel _ text Hpre Hsel).
Qed.

Lemma description_from_first_selector_witness :
  Github.get_job_detail blank_page content_page
    "https://github.com/about/careers/positions/4"
    {| stdout := []; files := [] |}
  = (Returns {| description := "Senior engineer, Rust";
                experience := fst (Github.extract "Senior engineer, Rust");
                skills := snd (Github.extract "Senior engineer, Rust");
                summary := summarize "Senior engineer, Rust";
                salary := "" |},
     {| stdout := []; files := [] |}).
Proof.
  apply (proj1 (description_from_first_selector blank_page content_page
                  "https://github.com/about/careers/positions/4"
                  {| stdout := []; files := [] |}
                  {| status_code := 200; content := "<html></html>" |}
                  [".markdown-body"; ".job-description"; ".job-details"]
                  ["main"; "[data-target=readme-toc.content]"]
                  ".content" "Senior engineer, Rust"
                  eq_refl eq_refl
                  ltac:(intros s [<- | [<- | [<- | []]]]; reflexivity)
                  eq_refl)).
  reflexivity.
Defined.

(** * Further properties of the table writer *)

Lemma read_file_filter (fs : list (string * dataframe)) (filename other : string) :
  other <> filename ->
  read_file (filter (fun f => negb (String.eqb (fst f) filename)) fs) other
  = read_file fs other.
Proof.
  intro Hne. induction fs as [|[k v] fs IH]; simpl; [reflexivity|].
  destruct (String.eqb k filename) eqn:Ek; simpl.
  - apply String.eqb_eq in Ek. subst.
    destruct (String.eqb filename other) eqn:Eo; [|exact IH].
    apply String.eqb_eq in Eo. congruence.
  - rewrite IH. reflexivity.
Qed.

Lemma to_excel_other_files (write_error : string -> option exn)
      (df : dataframe) (filename other : string) (w : world) :
  other <> filename ->
  read_file (files (snd (to_excel write_error df filename w))) other
  = read_file (files w) other.
Proof.
  intro Hne. unfold to_excel. destruct (write_error filename); [reflexivity|].
  cbn [snd files read_file].
  destruct (String.eqb filename other) eqn:Eo.
  - apply String.eqb_eq in Eo. congruence.
  - now apply read_file_filter.
Qed.

(** X10: [save_to_excel] never raises and touches no file but the one it
    is asked to write: every file of another name reads as before. *)
Theorem save_to_excel_other_files
        (write_error : string -> option exn) (jobs : list dict)
        (filename other : string) (w : world) :
  other <> filename ->
  fst (save_to_excel write_error jobs filename w) = Returns tt
  /\ read_file (files (snd (save_to_excel write_error jobs filename w))) other
     = read_file (files w) other.
Proof.
  intro Hne. destruct jobs as [|j jobs]; [split; reflexivity|].
  unfold save_to_excel, try_except, bind, lift.
  pose proof (FrameFacts.frame_to_write (j :: jobs)) as Hframe.
  destruct (getitem (ensure_columns (DataFrame (j :: jobs)) required_columns)
              required_columns) as [df | e]; [|contradiction].
  pose proof (to_excel_other_files write_error (fillna df "") filename other w Hne)
    as Hother.
  unfold to_excel in *. destruct (write_error filename); split; try reflexivity;
    exact Hother.
Qed.

Lemma save_to_excel_other_files_witness :
  read_file
    (files (snd (save_to_excel (fun _ => None) sample_jobs "Jobs.xlsx"
                   {| stdout := [];
                      files := [("Old.xlsx", schema_table [])] |})))
    "Old.xlsx"
  = Some (schema_table []).
Proof.
  apply (proj2 (save_to_excel_other_files (fun _ => None) sample_jobs
                  "Jobs.xlsx" "Old.xlsx"
                  {| stdout := []; files := [("Old.xlsx", schema_table [])] |}
                  ltac:(discriminate))).
Defined.

Lemma schema_table_cell (jobs : list dict) (col : string) (row : nat) (job : dict) :
  In col required_columns ->
  nth_error jobs row = Some job ->
  table_cell (schema_table jobs) col row = Some (field_or_empty col job).
Proof.
  intros Hcol Hrow. unfold table_cell, schema_table. cbn [columns].
  rewrite (FrameFacts.find_column_map (fun c => map (field_or_empty c) jobs)).
  replace (mem col required_columns) with true.
  - now rewrite nth_error_map, Hrow.
  - symmetry. apply existsb_exists. exists col. split; [exact Hcol|].
    apply String.eqb_refl.
Qed.

Lemma schema_table_shape (jobs : list dict) (col : string) (cells : list cell) :
  In (col, cells) (columns (schema_table jobs)) ->
  In col required_columns
  /\ List.length cells = List.length jobs
  /\ Forall (fun c => c <> None) cells.
Proof.
  unfold schema_table. cbn [columns]. intro H.
  apply in_map_iff in H. destruct H as [c [E Hc]]. inversion E; subst.
  split; [exact Hc|]. split; [apply length_map|].
  apply Forall_forall. intros x Hx. apply in_map_iff in Hx.
  destruct Hx as [j [<- _]]. unfold field_or_empty.
  destruct (dict_get j col); discriminate.
Qed.

Lemma frame_for_excel_is (jobs : list dict) :
  frame_for_excel jobs = Returns (schema_table jobs).
Proof.
  unfold frame_for_excel.
  pose proof (FrameFacts.frame_to_write jobs) as Hframe.
  destruct (getitem (ensure_columns (DataFrame jobs) required_columns)
              required_columns) as [df | e]; [|contradiction].
  now rewrite Hframe.
Qed.

(** The frame of [frame_for_excel] is the one [save_to_excel] passes to
    [to_excel]. *)
Lemma save_writes_frame (write_error : string -> option exn) (jobs : list dict)
      (filename : string) (df : dataframe) :
  jobs <> [] ->
  frame_for_excel jobs = Returns df ->
  save_to_excel write_error jobs filename
  = try_except
      (to_excel write_error df filename ;;;
       print (SavedJobs (List.length jobs) filename) ;;;
       print (SummaryStats (List.length jobs)
                (List.length (filter (truthy_field "ExperienceRequired") jobs))
                (List.length (filter (truthy_field "SkillsRequired") jobs))
                (List.length (filter (truthy_field "JobDescriptionSummary") jobs))))
      (fun e => print (ErrorSaving e)).
Proof.
  intros Hne Hdf. destruct jobs as [|j jobs]; [congruence|].
  unfold frame_for_excel in Hdf. unfold save_to_excel.
  destruct (getitem (ensure_columns (DataFrame (j :: jobs)) required_columns)
              required_columns) as [df0 | e]; [|discriminate].
  injection Hdf as <-. reflexivity.
Qed.

(** X11: in the frame that [save_to_excel] passes to [to_excel], the cell
    under a schema column in row [i] is the text record [i] has for that
    field, or the empty text when the record lacks it.  (This is the frame
    in memory; what a reader of the written file gets back is not
    modelled.) *)
Theorem frame_cells_are_fields
        (write_error : string -> option exn) (jobs : list dict)
        (filename : string) (col : string) (row : nat) (job : dict) :
  In col required_columns ->
  nth_error jobs row = Some job ->
  exists df,
    frame_for_excel jobs = Returns df
    /\ save_to_excel write_error jobs filename
       = try_except
           (to_excel write_error df filename ;;;
            print (SavedJobs (List.length jobs) filename) ;;;
            print (SummaryStats (List.length jobs)
                     (List.length (filter (truthy_field "ExperienceRequired") jobs))
                     (List.length (filter (truthy_field "SkillsRequired") jobs))
                     (List.length (filter (truthy_field "JobDescriptionSummary") jobs))))
           (fun e => print (ErrorSaving e))
    /\ table_cell df col row
       = Some (Some (match dict_get job col with Some v => v | None => "" end)).
Proof.
  intros Hcol Hrow.
  assert (Hne : jobs <> []) by (destruct jobs; [destruct row|]; discriminate).
  exists (schema_table jobs). split; [apply frame_for_excel_is|].
  split; [apply save_writes_frame; [exact Hne | apply frame_for_excel_is]|].
  rewrite (schema_table_cell jobs col row job Hcol Hrow).
  unfold field_or_empty. now destruct (dict_get job col).
Qed.

Lemma frame_cells_are_fields_witness :
  exists df,
    frame_for_excel sample_jobs = Returns df
    /\ save_to_excel (fun _ => None) sample_jobs "Jobs.xlsx"
       = try_except
           (to_excel (fun _ => None) df "Jobs.xlsx" ;;;
            print (SavedJobs (List.length sample_jobs) "Jobs.xlsx") ;;;
            print (SummaryStats (List.length sample_jobs)
                     (List.length (filter (truthy_field "ExperienceRequired") sample_jobs))
                     (List.length (filter (truthy_field "SkillsRequired") sample_jobs))
                     (List.length (filter (truthy_field "JobDescriptionSummary") sample_jobs))))
           (fun e => print (ErrorSaving e))
    /\ table_cell df "Location" 1 = Some (Some "Remote").
Proof.
  apply (frame_cells_are_fields (fun _ => None) sample_jobs "Jobs.xlsx"
           "Location" 1
           [("Location", "Remote"); ("Team", "Platform");
            ("JobTitle", "Data Analyst")]).
  - simpl. tauto.
  - reflexivity.
Defined.

(** X12: the frame that [save_to_excel] passes to [to_excel] has as many
    rows as there are records and the seven columns of the schema, with
    one cell per record in each column, and no cell of it is a missing
    value.  (This is the frame in memory; what a reader of the written
    file gets back is not modelled.) *)
Theorem frame_shape_no_missing (jobs : list dict) :
  jobs <> [] ->
  exists df,
    frame_for_excel jobs = Returns df
    /\ (forall write_error filename,
           save_to_excel write_error jobs filename
           = try_except
               (to_excel write_error df filename ;;;
                print (SavedJobs (List.length jobs) filename) ;;;
                print (SummaryStats (List.length jobs)
                         (List.length (filter (truthy_field "ExperienceRequired") jobs))
                         (List.length (filter (truthy_field "SkillsRequired") jobs))
                         (List.length (filter (truthy_field "JobDescriptionSummary") jobs))))
               (fun e => print (ErrorSaving e)))
    /\ nrows df = List.length jobs
    /\ column_names df = required_columns
    /\ forall col cells,
        In (col, cells) (columns df) ->
        List.length cells = List.length jobs
        /\ Forall (fun c => c <> None) cells.
Proof.
  intro Hne.
  exists (schema_table jobs). split; [apply frame_for_excel_is|].
  split; [intros write_error filename;
          apply save_writes_frame; [exact Hne | apply frame_for_excel_is]|].
  split; [reflexivity|]. split; [reflexivity|].
  intros col cells H. apply schema_table_shape in H. tauto.
Qed.

Lemma frame_shape_no_missing_witness :
  exists df,
    frame_for_excel sample_jobs = Returns df
    /\ (forall write_error filename,
           save_to_excel write_error sample_jobs filename
           = try_except
               (to_excel write_error df filename ;;;
                print (SavedJobs (List.length sample_jobs) filename) ;;;
                print (SummaryStats (List.length sample_jobs)
                         (List.length (filter (truthy_field "ExperienceRequired") sample_jobs))
                         (List.length (filter (truthy_field "SkillsRequired") sample_jobs))
                         (List.length (filter (truthy_field "JobDescriptionSummary") sample_jobs))))
               (fun e => print (ErrorSaving e)))
    /\ nrows df = List.length sample_jobs
    /\ column_names df = required_columns
    /\ forall col cells,
        In (col, cells) (columns df) ->
        List.length cells = List.length sample_jobs
        /\ Forall (fun c => c <> None) cells.
Proof.
  apply (frame_shape_no_missing sample_jobs). discriminate.
Defined.

(** X13: the writer of [scrape_tech_jobs.py] tells what happened, up to
    the console.  For no record it answers [None] and writes nothing.
    Otherwise, when the write fails it answers [False] with the files as
    they were; when the write succeeds the schema table is in the file,
    and the answer is [True] on a console that prints the check mark of
    the success line, and [False], from the handler, on one that does
    not. *)
Theorem tech_save_result
        (write_error : string -> option exn) (console_error : option exn)
        (filename : string) (w : world) :
  tech_save_to_excel write_error console_error [] filename w
  = (Returns None, {| stdout := NoJobsToSave :: stdout w; files := files w |})
  /\ forall jobs,
      jobs <> [] ->
      match write_error filename, console_error with
      | Some e, _ =>
          tech_save_to_excel write_error console_error jobs filename w
          = (Returns (Some false),
             {| stdout := ErrorSaving e :: stdout w; files := files w |})
      | None, None =>
          exists out,
            tech_save_to_excel write_error console_error jobs filename w
            = (Returns (Some true), out)
            /\ read_file (files out) filename = Some (schema_table jobs)
      | None, Some e =>
          exists out,
            tech_save_to_excel write_error console_error jobs filename w
            = (Returns (Some false), out)
            /\ read_file (files out) filename = Some (schema_table jobs)
            /\ stdout out = ErrorSaving e :: stdout w
      end.
Proof.
  split; [reflexivity|]. intros jobs Hne.
  destruct jobs as [|j jobs]; [congruence|].
  unfold tech_save_to_excel, try_except, bind, lift, to_excel, print_mark.
  pose proof (FrameFacts.frame_to_write (j :: jobs)) as Hframe.
  destruct (getitem (ensure_columns (DataFrame (j :: jobs)) required_columns)
              required_columns) as [df | e]; [|contradiction].
  rewrite Hframe.
  destruct (write_error filename) as [e|]; [reflexivity|].
  destruct console_error as [e|].
  - eexists. split; [reflexivity|]. cbn [files stdout print raise].
    split; [apply read_written | reflexivity].
  - eexists. split; [reflexivity|]. cbn [files print]. apply read_written.
Qed.

Lemma tech_save_result_witness :
  exists out,
    tech_save_to_excel (fun _ => None) None sample_jobs "TechCompany_Jobs.xlsx"
      {| stdout := []; files := [] |}
    = (Returns (Some true), out)
    /\ read_file (files out) "TechCompany_Jobs.xlsx"
       = Some (schema_table sample_jobs).
Proof.
  apply (proj2 (tech_save_result (fun _ => None) None "TechCompany_Jobs.xlsx"
                  {| stdout := []; files := [] |}) sample_jobs).
  discriminate.
Defined.

(** * The runs of the scripts *)

Module RunFacts.

Lemma safe_ensures {A : Type} (c : SM A) (P : A -> Prop) :
  safe c P -> ensures c P.
Proof.
  intros H s a s' E. destruct (H s) as [a' [s'' [E' Ha]]]. congruence.
Qed.

Lemma ensures_weaken {A : Type} (c : SM A) (P Q : A -> Prop) :
  ensures c P -> (forall a, P a -> Q a) -> ensures c Q.
Proof.
  intros H HPQ s a s' E. eauto.
Qed.

Lemma ensures_ret {A : Type} (a : A) (P : A -> Prop) : P a -> ensures (sret a) P.
Proof.
  intros H s a' s' E. inversion E; subst. exact H.
Qed.

Lemma ensures_true {A : Type} (c : SM A) : ensures c (fun _ => True).
Proof.
  intros s a s' _. exact I.
Qed.

Lemma ensures_bind {A B : Type} (c : SM A) (k : A -> SM B)
      (P : A -> Prop) (Q : B -> Prop) :
  ensures c P -> (forall a, P a -> ensures (k a) Q) -> ensures (sbind c k) Q.
Proof.
  intros Hc Hk s b s' E. unfold sbind in E.
  destruct (c s) as [[a | e] s1] eqn:Ec; [|discriminate].
  exact (Hk a (Hc s a s1 Ec) s1 b s' E).
Qed.

Lemma ensures_attempt {A : Type} (body : SM A) (handler : exn -> SM A)
      (P : A -> Prop) :
  ensures body P -> (forall e, ensures (handler e) P) ->
  ensures (attempt body handler) P.
Proof.
  intros Hb Hh s a s' E. unfold attempt in E.
  destruct (body s) as [[a' | e] s1] eqn:Eb.
  - inversion E; subst. exact (Hb s a s' Eb).
  - exact (Hh e s1 a s' E).
Qed.

Lemma safe_ret {A : Type} (a : A) (P : A -> Prop) : P a -> safe (sret a) P.
Proof.
  intros H s. now exists a, s.
Qed.

Lemma safe_say (l : line) : safe (say l) (fun _ => True).
Proof.
  intro s. eexists. eexists. split; [reflexivity | exact I].
Qed.

Lemma safe_bind {A B : Type} (c : SM A) (k : A -> SM B)
      (P : A -> Prop) (Q : B -> Prop) :
  safe c P -> (forall a, P a -> safe (k a) Q) -> safe (sbind c k) Q.
Proof.
  intros Hc Hk s. destruct (Hc s) as [a [s1 [Ec Ha]]].
  destruct (Hk a Ha s1) as [b [s2 [Ek Hb]]].
  exists b, s2. unfold sbind. rewrite Ec. now split.
Qed.

Lemma safe_attempt {A : Type} (body : SM A) (handler : exn -> SM A)
      (P : A -> Prop) :
  ensures body P -> (forall e, safe (handler e) P) ->
  safe (attempt body handler) P.
Proof.
  intros Hb Hh s. unfold attempt.
  destruct (body s) as [[a | e] s1] eqn:Eb.
  - exists a, s1. split; [reflexivity | exact (Hb s a s1 Eb)].
  - exact (Hh e s1).
Qed.

Lemma safe_weaken {A : Type} (c : SM A) (P Q : A -> Prop) :
  safe c P -> (forall a, P a -> Q a) -> safe c Q.
Proof.
  intros H HPQ s. destruct (H s) as [a [s' [E Ha]]]. exists a, s'. auto.
Qed.

Lemma ensures_inner {A : Type} (c : M A) (P : A -> Prop) :
  (forall w a w', c w = (Returns a, w') -> P a) -> ensures (inner c) P.
Proof.
  intros H s a s' E. unfold inner in E.
  destruct (c {| stdout := []; files := tables s |}) as [r w'] eqn:Ec.
  simpl in E. inversion E; subst. exact (H _ _ _ Ec).
Qed.

Lemma safe_inner {A : Type} (c : M A) (P : A -> Prop) :
  (forall w, exists a w', c w = (Returns a, w') /\ P a) -> safe (inner c) P.
Proof.
  intros H s. destruct (H {| stdout := []; files := tables s |}) as [a [w' [E Ha]]].
  exists a. eexists. unfold inner. rewrite E. split; [reflexivity | exact Ha].
Qed.

End RunFacts.

(** ** The GitHub listing *)

Lemma detail_salary (pats : list Re.regex) (kws selectors : list string)
      (requests_get : string -> result response)
      (select_one_text : string -> string -> option string)
      (job_url : string) (w w' : world) (d : job_detail) :
  get_job_detail requests_get select_one_text selectors
    (extract_experience_and_skills pats kws) job_url w = (Returns d, w') ->
  salary d = "" /\ files w' = files w.
Proof.
  intro E.
  destruct (detail_consistent requests_get select_one_text selectors pats kws
              job_url w) as [d0 [w0 [E0 [Hf [_ [_ [_ Hs]]]]]]].
  rewrite E in E0. inversion E0; subst. now split.
Qed.

Lemma job_record_schema (t l e sk sal u su : string) :
  schema_record (job_record t l e sk sal u su).
Proof. reflexivity. Qed.

Module GithubFacts.
Import RunFacts GithubSite.

Lemma github_process_card_ok (W : web) (n i : nat) (card : element W) :
  ensures (process_card W n i card) github_card_ok.
Proof.
  unfold process_card.
  apply (ensures_bind _ _ (fun _ => True)); [apply ensures_true | intros _ _].
  destruct (negb (nonempty (fst (title_and_url W card)))
            || (String.length (strip (fst (title_and_url W card))) <? 3)) eqn:Ec.
  - now apply ensures_ret.
  - apply orb_false_elim in Ec. destruct Ec as [_ Hlen].
    apply Nat.ltb_ge in Hlen.
    apply (ensures_bind _ _ (fun d => salary d = "")).
    + destruct (nonempty (snd (title_and_url W card))
                && Py.contains "github.com" (snd (title_and_url W card))).
      * apply (ensures_bind _ _ (fun _ => True)); [apply ensures_true | intros _ _].
        apply ensures_inner. intros w d w' E.
        exact (proj1 (detail_salary _ _ _ _ _ _ _ _ _ E)).
      * now apply ensures_ret.
    + intros d Hd.
      apply (ensures_bind _ _ (fun _ => True)); [apply ensures_true | intros _ _].
      apply ensures_ret. simpl. unfold github_record.
      split; [apply job_record_schema|]. split; [reflexivity|].
      split; [simpl; now rewrite Hd|].
      eexists. split; [reflexivity | exact Hlen].
Qed.

Lemma github_process_cards_ok (W : web) (n : nat) (cards : list (element W)) :
  forall i jobs,
    Forall github_record jobs ->
    ensures (process_cards W n i cards jobs) (Forall github_record).
Proof.
  induction cards as [|card cards IH]; intros i jobs Hjobs.
  - now apply ensures_ret.
  - simpl. apply (ensures_bind _ _ github_card_ok).
    + apply ensures_attempt; [apply github_process_card_ok|].
      intro e.
      apply (ensures_bind _ _ (fun _ => True)); [apply ensures_true | intros _ _].
      now apply ensures_ret.
    + intros [job|] Hr; apply IH; [|exact Hjobs].
      apply Forall_app. split; [exact Hjobs | now constructor].
Qed.

Lemma github_listings_ok (W : web) :
  safe (get_job_listings W) (Forall github_record).
Proof.
  unfold get_job_listings. apply safe_attempt.
  - apply (ensures_bind _ _ (fun _ => True)); [apply ensures_true | intros _ _].
    apply (ensures_bind _ _ (fun _ => True)); [apply ensures_true | intros resp _].
    apply (ensures_bind _ _ (fun _ => True)); [apply ensures_true | intros _ _].
    apply (ensures_bind _ _ (fun _ => True)); [apply ensures_true | intros cards0 _].
    apply (ensures_bind _ _ (fun _ => True)); [apply ensures_true | intros cards _].
    destruct cards as [|card cards].
    + apply (ensures_bind _ _ (fun _ => True)); [apply ensures_true | intros _ _].
      apply (ensures_bind _ _ (fun _ => True)); [apply ensures_true | intros _ _].
      apply (ensures_bind _ _ (fun _ => True)); [apply ensures_true | intros _ _].
      now apply ensures_ret.
    + now apply github_process_cards_ok.
  - intro e. apply (safe_bind _ _ (fun _ => True)); [apply safe_say | intros _ _].
    now apply safe_ret.
Qed.

End GithubFacts.

(** X14: the GitHub listing never raises, and every record it returns has
    the seven fields of the schema in their order, the location
    "Remote/Global", an empty salary and a title of at least three
    characters once stripped. *)
Theorem github_listing_records (W : web) (s : site) :
  exists jobs s',
    GithubSite.get_job_listings W s = (Returns jobs, s')
    /\ Forall github_record jobs.
Proof.
  exact (GithubFacts.github_listings_ok W s).
Qed.

Lemma select_cards_none (W : web) (selectors : list string) (page : string) (s : site) :
  (forall sel, In sel selectors -> page_select W page sel = []) ->
  select_cards W selectors page s = (Returns [], s).
Proof.
  induction selectors as [|sel l IH]; intro H; simpl; [reflexivity|].
  rewrite (H sel) by now left. apply IH. intros sel' Hs. apply H. now right.
Qed.

Lemma fetch_of_failure (W : web) (url : string) (s : site) :
  fetch_fails (http_get W) url = true ->
  exists e, fetch W url s = (Raises e, s).
Proof.
  unfold fetch_fails, fetch, sbind, slift.
  destruct (http_get W url) as [resp|e]; intro H.
  - rewrite H. eexists. reflexivity.
  - now exists e.
Qed.

Lemma fetch_of_success (W : web) (url : string) (s : site) (resp : response) :
  http_get W url = Returns resp ->
  fetch_fails (http_get W) url = false ->
  fetch W url s = (Returns resp, s).
Proof.
  unfold fetch_fails, fetch, sbind, slift. intros -> H. now rewrite H.
Qed.

(** X15: when the careers page cannot be fetched the GitHub listing is
    empty; the error is printed, and no file changes. *)
Theorem github_listing_of_failed_fetch (W : web) (s : site) :
  fetch_fails (http_get W) GithubSite.BASE_URL = true ->
  exists e,
    GithubSite.get_job_listings W s
    = (Returns [],
       {| console := ErrorInListings e :: AccessingPage :: console s;
          tables := tables s; texts := texts s; drawn := drawn s |}).
Proof.
  intro H. unfold GithubSite.get_job_listings, attempt, sbind at 1, say at 1.
  destruct (fetch_of_failure W GithubSite.BASE_URL
              {| console := AccessingPage :: console s; tables := tables s;
                 texts := texts s; drawn := drawn s |} H) as [e He].
  unfold sbind at 1. rewrite He. exists e. reflexivity.
Qed.

Lemma github_listing_of_failed_fetch_witness :
  exists e,
    GithubSite.get_job_listings (offline unit) fresh
    = (Returns [],
       {| console := [ErrorInListings e; AccessingPage];
          tables := []; texts := []; drawn := 0 |}).
Proof.
  apply (github_listing_of_failed_fetch (offline unit) fresh). reflexivity.
Defined.

(** X16: when the careers page is fetched but no selector finds a card and
    no link looks like a job, the GitHub listing is empty and the page,
    prettified, is written to debug_github_page.html; when that file
    cannot be opened the listing is empty all the same and no file
    changes.  The spreadsheets are untouched. *)
Theorem github_listing_without_cards (W : web) (s : site) (resp : response) :
  http_get W GithubSite.BASE_URL = Returns resp ->
  fetch_fails (http_get W) GithubSite.BASE_URL = false ->
  (forall sel, In sel GithubSite.job_selectors ->
               page_select W (content resp) sel = []) ->
  (forall link, In link (page_links W (content resp)) ->
                GithubSite.job_like_link W link = false) ->
  exists s',
    GithubSite.get_job_listings W s = (Returns [], s')
    /\ tables s' = tables s
    /\ match open_error W "debug_github_page.html" with
       | None =>
           read_text (texts s') "debug_github_page.html"
           = Some (page_prettify W (content resp))
       | Some _ => texts s' = texts s
       end.
Proof.
  intros Hget Hok Hsel Hlinks.
  assert (Hfilter : filter (GithubSite.job_like_link W) (page_links W (content resp)) = []).
  { induction (page_links W (content resp)) as [|l ls IH]; [reflexivity|].
    simpl. rewrite (Hlinks l) by now left.
    apply IH. intros l' Hl'. apply Hlinks. now right. }
  unfold GithubSite.get_job_listings, attempt.
  unfold sbind at 1, say at 1.
  unfold sbind at 1. rewrite (fetch_of_success W _ _ resp Hget Hok).
  unfold sbind at 1, say at 1.
  unfold sbind at 1. rewrite (select_cards_none W _ _ _ Hsel).
  unfold sbind at 1. unfold sbind at 1, say at 1. rewrite Hfilter.
  unfold sbind at 1, say at 1. unfold sret at 1.
  unfold sbind at 1, say at 1.
  unfold sbind at 1, write_text.
  destruct (open_error W "debug_github_page.html") as [e|].
  - eexists. split; [reflexivity|]. split; reflexivity.
  - eexists. split; [reflexivity|]. split; [reflexivity|].
    cbn. reflexivity.
Qed.

Lemma github_listing_without_cards_witness :
  exists s',
    GithubSite.get_job_listings (empty_site unit) fresh = (Returns [], s')
    /\ tables s' = []
    /\ read_text (texts s') "debug_github_page.html" = Some "<html></html>".
Proof.
  apply (github_listing_without_cards (empty_site unit) fresh
           {| status_code := 200; content := "<html></html>" |}
           eq_refl eq_refl).
  - intros sel _. reflexivity.
  - intros link [].
Defined.

Lemma inner_failed_detail (W : web) (job_url : string) (s : site) :
  fetch_fails (http_get W) job_url = true ->
  exists e,
    inner (Github.get_job_detail (http_get W) (page_text W) job_url) s
    = (Returns empty_detail,
       {| console := Inner (ErrorFetching job_url e) :: console s;
          tables := tables s; texts := texts s; drawn := drawn s |})
    /\ inner (Microsoft.get_job_detail (http_get W) (page_text W) job_url) s
       = (Returns empty_detail,
          {| console := Inner (ErrorFetching job_url e) :: console s;
             tables := tables s; texts := texts s; drawn := drawn s |}).
Proof.
  intro H. unfold inner, Github.get_job_detail, Microsoft.get_job_detail,
    get_job_detail, get_job_detail_body, try_except, bind, lift.
  unfold fetch_fails in H.
  destruct (http_get W job_url) as [resp|e].
  - unfold raise_for_status. rewrite H. eexists. split; reflexivity.
  - exists e. split; reflexivity.
Qed.

(** X18: a card with a usable title whose URL is empty or not on
    github.com gives a record with the title, the location and the URL and
    with empty experience, skills, salary and summary; no page is fetched
    for it. *)
Theorem github_card_off_site (W : web) (n i : nat) (card : element W) (s : site) :
  title_too_short (fst (GithubSite.title_and_url W card)) = false ->
  nonempty (snd (GithubSite.title_and_url W card))
  && Py.contains "github.com" (snd (GithubSite.title_and_url W card)) = false ->
  GithubSite.process_card W n i card s
  = (Returns
       (Some (job_record (fst (GithubSite.title_and_url W card)) "Remote/Global"
                "" "" "" (snd (GithubSite.title_and_url W card)) "")),
     {| console := Processed (fst (GithubSite.title_and_url W card))
                   :: ProcessingJob (i + 1) n :: console s;
        tables := tables s; texts := texts s; drawn := drawn s |}).
Proof.
  unfold title_too_short, GithubSite.process_card. intros Ht Hu.
  unfold sbind at 1, say at 1. rewrite Ht, Hu. reflexivity.
Qed.

(** X19: a card on github.com whose detail page cannot be fetched still
    gives its record, with empty experience, skills, salary and summary;
    the error is printed and the loop goes on. *)
Theorem github_card_detail_fails (W : web) (n i : nat) (card : element W) (s : site) :
  title_too_short (fst (GithubSite.title_and_url W card)) = false ->
  nonempty (snd (GithubSite.title_and_url W card))
  && Py.contains "github.com" (snd (GithubSite.title_and_url W card)) = true ->
  fetch_fails (http_get W) (snd (GithubSite.title_and_url W card)) = true ->
  exists e,
    GithubSite.process_card W n i card s
    = (Returns
         (Some (job_record (fst (GithubSite.title_and_url W card)) "Remote/Global"
                  "" "" "" (snd (GithubSite.title_and_url W card)) "")),
       {| console := Processed (fst (GithubSite.title_and_url W card))
                     :: Inner (ErrorFetching (snd (GithubSite.title_and_url W card)) e)
                     :: FetchingDetails (fst (GithubSite.title_and_url W card))
                     :: ProcessingJob (i + 1) n :: console s;
          tables := tables s; texts := texts s; drawn := drawn s |}).
Proof.
  unfold title_too_short, GithubSite.process_card. intros Ht Hu Hf.
  unfold sbind at 1, say at 1. rewrite Ht, Hu.
  unfold sbind at 1. unfold sbind at 1, say at 1.
  destruct (inner_failed_detail W (snd (GithubSite.title_and_url W card))
              {| console := FetchingDetails (fst (GithubSite.title_and_url W card))
                            :: ProcessingJob (i + 1) n :: console s;
                 tables := tables s; texts := texts s; drawn := drawn s |} Hf)
    as [e [He _]].
  cbn [console tables texts drawn] in *.
  rewrite He. exists e. reflexivity.
Qed.

Lemma github_card_off_site_witness :
  GithubSite.process_card (pages_web timed_out (fun base url => url)) 1 0
    "Staff Engineer" fresh
  = (Returns
       (Some (job_record "Staff Engineer" "Remote/Global" "" "" ""
                "/positions/Staff Engineer" "")),
     {| console := [Processed "Staff Engineer"; ProcessingJob 1 1];
        tables := []; texts := []; drawn := 0 |}).
Proof.
  apply (github_card_off_site (pages_web timed_out (fun base url => url)) 1 0
           "Staff Engineer" fresh); reflexivity.
Defined.

Lemma github_card_detail_fails_witness :
  exists e,
    GithubSite.process_card (pages_web timed_out (fun base url => base ++ url)) 1 0
      "Staff Engineer" fresh
    = (Returns
         (Some (job_record "Staff Engineer" "Remote/Global" "" "" ""
                  "https://github.com/about/careers/positions/Staff Engineer" "")),
       {| console :=
            [Processed "Staff Engineer";
             Inner (ErrorFetching
                      "https://github.com/about/careers/positions/Staff Engineer" e);
             FetchingDetails "Staff Engineer"; ProcessingJob 1 1];
          tables := []; texts := []; drawn := 0 |}).
Proof.
  apply (github_card_detail_fails
           (pages_web timed_out (fun base url => base ++ url)) 1 0
           "Staff Engineer" fresh); reflexivity.
Defined.

(** ** The Microsoft listing *)

Module MicrosoftFacts.
Import RunFacts MicrosoftSite.

Lemma microsoft_process_card_ok (W : web) (url : string) (n i : nat) (card : element W) :
  ensures (process_card W url n i card) microsoft_card_ok.
Proof.
  unfold process_card.
  generalize (find_title W url card title_selectors) as tu. intro tu.
  generalize (find_location W card location_selectors) as loc. intro loc.
  apply (ensures_bind _ _ (fun _ => True)); [apply ensures_true | intros _ _].
  destruct (nonempty (fst tu)) eqn:Et.
  - simpl negb. cbv iota.
    apply (ensures_bind _ _ (fun d => salary d = "")).
    + destruct (nonempty (snd tu)).
      * apply (ensures_bind _ _ (fun _ => True)); [apply ensures_true | intros _ _].
        apply ensures_inner. intros w d w' E.
        exact (proj1 (detail_salary _ _ _ _ _ _ _ _ _ E)).
      * now apply ensures_ret.
    + intros d Hd.
      apply (ensures_bind _ _ (fun _ => True)); [apply ensures_true | intros _ _].
      apply ensures_ret. simpl. unfold microsoft_record.
      split; [apply job_record_schema|].
      split; [simpl; now rewrite Hd|].
      eexists. split; [reflexivity|].
      intro H. rewrite H in Et. discriminate.
  - now apply ensures_ret.
Qed.

Lemma microsoft_process_cards_ok (W : web) (url : string) (n : nat) (cards : list (element W)) :
  forall i jobs,
    Forall microsoft_record jobs ->
    ensures (process_cards W url n i cards jobs) (Forall microsoft_record).
Proof.
  induction cards as [|card cards IH]; intros i jobs Hjobs.
  - now apply ensures_ret.
  - simpl. apply (ensures_bind _ _ microsoft_card_ok).
    + apply ensures_attempt; [apply microsoft_process_card_ok|].
      intro e.
      apply (ensures_bind _ _ (fun _ => True)); [apply ensures_true | intros _ _].
      now apply ensures_ret.
    + intros [job|] Hr; apply IH; [|exact Hjobs].
      apply Forall_app. split; [exact Hjobs | now constructor].
Qed.

Lemma microsoft_listings_ok (W : web) (page : Z) :
  safe (get_job_listings W page) (Forall microsoft_record).
Proof.
  unfold get_job_listings. apply safe_attempt.
  - apply (ensures_bind _ _ (fun _ => True)); [apply ensures_true | intros found _].
    destruct found as [[html url]|].
    + apply (ensures_bind _ _ (fun _ => True)); [apply ensures_true | intros _ _].
      apply (ensures_bind _ _ (fun _ => True)); [apply ensures_true | intros cards _].
      destruct cards as [|card cards].
      * apply (ensures_bind _ _ (fun _ => True)); [apply ensures_true | intros _ _].
        apply (ensures_bind _ _ (fun _ => True)); [apply ensures_true | intros _ _].
        apply (ensures_bind _ _ (fun _ => True)); [apply ensures_true | intros _ _].
        now apply ensures_ret.
      * now apply microsoft_process_cards_ok.
    + apply (ensures_bind _ _ (fun _ => True)); [apply ensures_true | intros _ _].
      now apply ensures_ret.
  - intro e. apply (safe_bind _ _ (fun _ => True)); [apply safe_say | intros _ _].
    now apply safe_ret.
Qed.

Lemma try_urls_all_fail (W : web) (urls : list string) :
  (forall url, In url urls -> fetch_fails (http_get W) url = true) ->
  forall s,
    exists s',
      try_urls W urls s = (Returns None, s')
      /\ tables s' = tables s /\ texts s' = texts s /\ drawn s' = drawn s
      /\ exists lines,
          console s' = (lines ++ console s)%list
          /\ List.length lines = 2 * List.length urls.
Proof.
  induction urls as [|url urls IH]; intros H s.
  - exists s. repeat split. now exists [].
  - simpl try_urls. unfold sbind at 1, attempt.
    unfold sbind at 1, say at 1. unfold sbind at 1.
    destruct (fetch_of_failure W url
                {| console := TryingURL url :: console s; tables := tables s;
                   texts := texts s; drawn := drawn s |})
      as [e He]; [apply H; now left|].
    rewrite He. unfold sbind at 1, say at 1. unfold sret at 1.
    destruct (IH (fun u Hu => H u (or_intror Hu))
                {| console := FailedToAccess url e :: TryingURL url :: console s;
                   tables := tables s; texts := texts s; drawn := drawn s |})
      as [s' [E [Ht [Hx [Hd [lines [Hc Hl]]]]]]].
    exists s'. split; [exact E|]. cbn in Ht, Hx, Hd, Hc.
    repeat split; try assumption.
    exists (lines ++ [FailedToAccess url e; TryingURL url])%list.
    split.
    + now rewrite <- List.app_assoc.
    + rewrite length_app. simpl. lia.
Qed.

End MicrosoftFacts.

(** X20: the Microsoft listing never raises, whatever the page number, and
    every record it returns has the seven fields of the schema in their
    order, a title that is not empty and an empty salary. *)
Theorem microsoft_listing_records (W : web) (page : Z) (s : site) :
  exists jobs s',
    MicrosoftSite.get_job_listings W page s = (Returns jobs, s')
    /\ Forall microsoft_record jobs.
Proof.
  exact (MicrosoftFacts.microsoft_listings_ok W page s).
Qed.

(** X21: when none of the three addresses of a page can be fetched, the
    Microsoft listing of that page is empty: each address is tried once and
    its failure printed, then the line that the site could not be reached;
    no file changes. *)
Theorem microsoft_listing_unreachable (W : web) (page : Z) (s : site) :
  (forall url, In url (MicrosoftSite.urls_to_try page) ->
               fetch_fails (http_get W) url = true) ->
  exists s' lines,
    MicrosoftSite.get_job_listings W page s = (Returns [], s')
    /\ tables s' = tables s
    /\ texts s' = texts s
    /\ console s' = (CouldNotAccess :: lines ++ console s)%list
    /\ List.length lines = 6.
Proof.
  intro H. unfold MicrosoftSite.get_job_listings, attempt.
  destruct (MicrosoftFacts.try_urls_all_fail W _ H s)
    as [s1 [E [Ht [Hx [Hd [lines [Hc Hl]]]]]]].
  unfold sbind at 1. rewrite E. unfold sbind, say, sret.
  eexists. exists lines. split; [reflexivity|]. cbn.
  repeat split; try assumption. now rewrite Hc.
Qed.

Lemma microsoft_listing_unreachable_witness :
  exists s' lines,
    MicrosoftSite.get_job_listings (offline unit) 1 fresh = (Returns [], s')
    /\ tables s' = []
    /\ texts s' = []
    /\ console s' = (CouldNotAccess :: lines ++ [])%list
    /\ List.length lines = 6.
Proof.
  apply (microsoft_listing_unreachable (offline unit) 1 fresh).
  intros url _. reflexivity.
Defined.

(** The addresses of a page start 20 jobs further for each page. *)
Example addresses_of_page_three :
  MicrosoftSite.urls_to_try 3
  = ["https://careers.microsoft.com/us/en/search-results?from=40";
     "https://careers.microsoft.com/v2/global/en/search-results?from=40";
     "https://jobs.careers.microsoft.com/global/en/search?from=40"].
Proof. reflexivity. Qed.

(** ** Results that do not depend on the state *)

Module FixedFacts.

Lemma fixed_ret {A : Type} (a : A) : fixed (sret a).
Proof. now exists (Returns a). Qed.

Lemma fixed_raise {A : Type} (e : exn) : fixed (@sraise A e).
Proof. now exists (Raises e). Qed.

Lemma fixed_lift {A : Type} (r : result A) : fixed (slift r).
Proof. now exists r. Qed.

Lemma fixed_say (l : line) : fixed (say l).
Proof. now exists (Returns tt). Qed.

Lemma fixed_bind {A B : Type} (c : SM A) (k : A -> SM B) :
  fixed c -> (forall a, fixed (k a)) -> fixed (sbind c k).
Proof.
  intros [r Hr] Hk. destruct r as [a | e].
  - destruct (Hk a) as [r' Hr']. exists r'. intro s. unfold sbind.
    specialize (Hr s). destruct (c s) as [r0 s1]. simpl in Hr. subst.
    apply Hr'.
  - exists (Raises e). intro s. unfold sbind.
    specialize (Hr s). destruct (c s) as [r0 s1]. simpl in Hr. now subst.
Qed.

Lemma fixed_attempt {A : Type} (body : SM A) (handler : exn -> SM A) :
  fixed body -> (forall e, fixed (handler e)) -> fixed (attempt body handler).
Proof.
  intros [r Hr] Hh. destruct r as [a | e].
  - exists (Returns a). intro s. unfold attempt.
    specialize (Hr s). destruct (body s) as [r0 s1]. simpl in Hr. now subst.
  - destruct (Hh e) as [r' Hr']. exists r'. intro s. unfold attempt.
    specialize (Hr s). destruct (body s) as [r0 s1]. simpl in Hr. subst.
    apply Hr'.
Qed.

Lemma fixed_inner {A : Type} (c : M A) :
  (exists r, forall w, fst (c w) = r) -> fixed (inner c).
Proof.
  intros [r Hr]. exists r. intro s. unfold inner. simpl. apply Hr.
Qed.

Lemma fixed_fetch (W : web) (url : string) : fixed (fetch W url).
Proof.
  unfold fetch. apply fixed_bind; [apply fixed_lift|].
  intro resp. destruct ((400 <=? status_code resp) && (status_code resp <? 600));
    [apply fixed_raise | apply fixed_ret].
Qed.

Lemma fixed_write_text (W : web) (filename text : string) :
  fixed (write_text W filename text).
Proof.
  unfold write_text. destruct (open_error W filename) as [e|].
  - now exists (Raises e).
  - now exists (Returns tt).
Qed.

Lemma fixed_select_cards (W : web) (selectors : list string) (page : string) :
  fixed (select_cards W selectors page).
Proof.
  induction selectors as [|sel l IH]; simpl; [apply fixed_ret|].
  destruct (page_select W page sel); [exact IH|].
  apply fixed_bind; [apply fixed_say | intro; apply fixed_ret].
Qed.

Lemma fixed_detail (pats : list Re.regex) (kws selectors : list string)
      (requests_get : string -> result response)
      (select_one_text : string -> string -> option string) (job_url : string) :
  exists r, forall w,
      fst (get_job_detail requests_get select_one_text selectors
             (extract_experience_and_skills pats kws) job_url w) = r.
Proof.
  destruct (fetch_fails requests_get job_url) eqn:Ef.
  - exists (Returns empty_detail). intro w.
    destruct (detail_of_failed_fetch requests_get select_one_text selectors
                pats kws job_url w Ef) as [e ->]. reflexivity.
  - unfold fetch_fails in Ef.
    destruct (requests_get job_url) as [resp|e] eqn:Eg; [|discriminate].
    eexists. intro w.
    rewrite (detail_of_fetched requests_get select_one_text selectors pats kws
               job_url w resp Eg) by (unfold fetch_fails; now rewrite Eg).
    cbn [fst]. reflexivity.
Qed.

Import MicrosoftSite.

Lemma fixed_try_urls (W : web) (urls : list string) : fixed (try_urls W urls).
Proof.
  induction urls as [|url urls IH]; simpl; [apply fixed_ret|].
  apply fixed_bind.
  - apply fixed_attempt.
    + apply fixed_bind; [apply fixed_say | intros _].
      apply fixed_bind; [apply fixed_fetch | intro; apply fixed_ret].
    + intro e. apply fixed_bind; [apply fixed_say | intro; apply fixed_ret].
  - intros [found|]; [apply fixed_ret | exact IH].
Qed.

Lemma fixed_process_card (W : web) (url : string) (n i : nat) (card : element W) :
  fixed (process_card W url n i card).
Proof.
  unfold process_card.
  apply fixed_bind; [apply fixed_say | intros _].
  destruct (negb (nonempty (fst (find_title W url card title_selectors))));
    [apply fixed_ret|].
  apply fixed_bind.
  - destruct (nonempty (snd (find_title W url card title_selectors)));
      [|apply fixed_ret].
    apply fixed_bind; [apply fixed_say | intros _].
    apply fixed_inner. apply fixed_detail.
  - intro d. apply fixed_bind; [apply fixed_say | intro; apply fixed_ret].
Qed.

Lemma fixed_process_cards (W : web) (url : string) (n : nat)
      (cards : list (element W)) :
  forall i jobs, fixed (process_cards W url n i cards jobs).
Proof.
  induction cards as [|card cards IH]; intros i jobs; simpl; [apply fixed_ret|].
  apply fixed_bind.
  - apply fixed_attempt; [apply fixed_process_card|].
    intro e. apply fixed_bind; [apply fixed_say | intro; apply fixed_ret].
  - intros r. apply IH.
Qed.

Lemma fixed_listings (W : web) (page : Z) : fixed (get_job_listings W page).
Proof.
  unfold get_job_listings. apply fixed_attempt.
  - apply fixed_bind; [apply fixed_try_urls|].
    intros [[html url]|].
    + apply fixed_bind; [apply fixed_say | intros _].
      apply fixed_bind; [apply fixed_select_cards|].
      intros [|card cards].
      * apply fixed_bind; [apply fixed_say | intros _].
        apply fixed_bind; [apply fixed_write_text | intros _].
        apply fixed_bind; [apply fixed_say | intro; apply fixed_ret].
      * apply fixed_process_cards.
    + apply fixed_bind; [apply fixed_say | intro; apply fixed_ret].
  - intro e. apply fixed_bind; [apply fixed_say | intro; apply fixed_ret].
Qed.

Lemma listing_is_page_jobs (W : web) (page : Z) (s : site) :
  fst (get_job_listings W page s) = Returns (page_jobs W page).
Proof.
  destruct (fixed_listings W page) as [r Hr].
  destruct (MicrosoftFacts.microsoft_listings_ok W page s) as [jobs [s' [E _]]].
  pose proof (Hr s) as Hs. rewrite E in Hs. simpl in Hs. subst r.
  unfold page_jobs. rewrite !Hr. reflexivity.
Qed.

Lemma scrape_pages_result (W : web) (max_pages : Z) (pages : list Z) :
  forall all_jobs s,
    fst (scrape_pages W max_pages pages all_jobs s)
    = Returns (all_jobs ++ pages_until_empty (page_jobs W) pages)%list.
Proof.
  induction pages as [|page pages IH]; intros all_jobs s.
  - simpl. now rewrite List.app_nil_r.
  - simpl scrape_pages. unfold sbind at 1, say at 1. unfold sbind at 1.
    pose proof (listing_is_page_jobs W page
                  {| console := ScrapingPage page :: console s;
                     tables := tables s; texts := texts s; drawn := drawn s |})
      as Hl.
    destruct (get_job_listings W page _) as [r s1]. simpl in Hl. subst r.
    simpl pages_until_empty.
    destruct (page_jobs W page) as [|job jobs].
    + unfold sbind, say, sret. simpl. now rewrite List.app_nil_r.
    + unfold sbind at 1, say at 1. unfold sbind at 1.
      destruct (page <? max_pages)%Z.
      * unfold say at 1. rewrite IH. now rewrite <- List.app_assoc.
      * unfold sret at 1. rewrite IH. now rewrite <- List.app_assoc.
Qed.

End FixedFacts.

(** X22: the jobs the Microsoft listing gives for a page do not depend on
    what was printed or written before, and [scrape_all_jobs] returns the
    jobs of pages 1, 2, ... up to [max_pages], in order, stopping at the
    first page that gives none; it never raises. *)
Theorem scrape_all_jobs_until_empty_page (W : web) (max_pages : Z) (s : site) :
  (forall page s0,
      fst (MicrosoftSite.get_job_listings W page s0) = Returns (page_jobs W page))
  /\ fst (MicrosoftSite.scrape_all_jobs W max_pages s)
     = Returns (pages_until_empty (page_jobs W)
                  (MicrosoftSite.page_range max_pages)).
Proof.
  split.
  - intros page s0. apply FixedFacts.listing_is_page_jobs.
  - unfold MicrosoftSite.scrape_all_jobs.
    now rewrite FixedFacts.scrape_pages_result.
Qed.

Example three_pages : MicrosoftSite.page_range 3 = [1%Z; 2%Z; 3%Z].
Proof. reflexivity. Qed.

Example no_page : MicrosoftSite.page_range (-2) = [].
Proof. reflexivity. Qed.

(** ** The sample data and the scrapers of [scrape_tech_jobs.py] *)

Module TechFacts.
Import RunFacts TechSite.

Lemma choice_ok (W : web) (seq : list string) (s : site) :
  seq <> [] ->
  exists x,
    choice W seq s
    = (Returns x,
       {| console := console s; tables := tables s; texts := texts s;
          drawn := S (drawn s) |})
    /\ In x seq.
Proof.
  intro Hne. unfold choice.
  assert (Hlt : draw W (drawn s) mod List.length seq < List.length seq).
  { apply Nat.mod_upper_bound. destruct seq; [congruence | discriminate]. }
  destruct (nth_error seq (draw W (drawn s) mod List.length seq)) as [x|] eqn:E.
  - exists x. split; [reflexivity|]. exact (nth_error_In _ _ E).
  - apply nth_error_None in E. lia.
Qed.

Lemma sample_job_ok (W : web) (i : nat) (s : site) :
  exists job,
    sample_job W i s
    = (Returns job,
       {| console := console s; tables := tables s; texts := texts s;
          drawn := 6 + drawn s |})
    /\ sample_record_at i job.
Proof.
  unfold sample_job.
  unfold sbind at 1.
  destruct (choice_ok W job_titles s) as [t [E1 H1]]; [discriminate|].
  rewrite E1. unfold sbind at 1.
  match goal with |- context [choice W locations ?st] =>
    destruct (choice_ok W locations st) as [l [E2 H2]]; [discriminate|] end.
  rewrite E2. cbn [console tables texts drawn]. unfold sbind at 1.
  match goal with |- context [choice W experience_levels ?st] =>
    destruct (choice_ok W experience_levels st) as [e [E3 H3]]; [discriminate|] end.
  rewrite E3. cbn [console tables texts drawn]. unfold sbind at 1.
  match goal with |- context [choice W skills_sets ?st] =>
    destruct (choice_ok W skills_sets st) as [k [E4 H4]]; [discriminate|] end.
  rewrite E4. cbn [console tables texts drawn]. unfold sbind at 1.
  match goal with |- context [choice W base_urls ?st] =>
    destruct (choice_ok W base_urls st) as [b [E5 H5]]; [discriminate|] end.
  rewrite E5. cbn [console tables texts drawn]. unfold sbind at 1.
  match goal with |- context [choice W descriptions ?st] =>
    destruct (choice_ok W descriptions st) as [d [E6 H6]]; [discriminate|] end.
  rewrite E6. cbn [console tables texts drawn].
  eexists. split; [reflexivity|].
  unfold sample_record_at. split; [apply job_record_schema|].
  split; [now exists t|]. split; [now exists l|]. split; [now exists e|].
  split; [now exists k|]. split; [reflexivity|].
  split; [now exists b | now exists d].
Qed.

Lemma sample_loop_ok (W : web) (indices : list nat) :
  forall jobs s,
    exists new,
      sample_loop W indices jobs s
      = (Returns (jobs ++ new)%list,
         {| console := console s; tables := tables s; texts := texts s;
            drawn := 6 * List.length indices + drawn s |})
      /\ Forall2 sample_record_at indices new.
Proof.
  induction indices as [|i indices IH]; intros jobs s.
  - exists []. simpl. rewrite List.app_nil_r. destruct s; split; [reflexivity|].
    constructor.
  - simpl sample_loop. unfold sbind at 1.
    destruct (sample_job_ok W i s) as [job [E Hjob]]. rewrite E.
    destruct (IH (jobs ++ [job])%list
                {| console := console s; tables := tables s; texts := texts s;
                   drawn := 6 + drawn s |}) as [new [E' Hnew]].
    rewrite E'. exists (job :: new). cbn [console tables texts drawn].
    split.
    + rewrite <- List.app_assoc. simpl. do 2 f_equal.
      simpl List.length. lia.
    + now constructor.
Qed.

Lemma generate_ok (W : web) (s : site) :
  exists jobs,
    generate_sample_jobs W s
    = (Returns jobs,
       {| console := console s; tables := tables s; texts := texts s;
          drawn := 150 + drawn s |})
    /\ Forall2 sample_record_at (seq 0 25) jobs.
Proof.
  unfold generate_sample_jobs.
  destruct (sample_loop_ok W (seq 0 25) [] s) as [new [E H]].
  exists new. split; [exact E | exact H].
Qed.

End TechFacts.

(** X23: [generate_sample_jobs] never raises and makes 25 records from 150
    draws, printing and writing nothing.  The record of turn [i] has the
    seven fields of the schema in their order, each drawn field taken from
    its list of candidates, an empty salary, and a URL that is one of the
    five bases followed by the number 1000 + [i]. *)
Theorem sample_jobs_shape (W : web) (s : site) :
  exists jobs,
    TechSite.generate_sample_jobs W s
    = (Returns jobs,
       {| console := console s; tables := tables s; texts := texts s;
          drawn := 150 + drawn s |})
    /\ List.length jobs = 25
    /\ Forall2 sample_record_at (seq 0 25) jobs.
Proof.
  destruct (TechFacts.generate_ok W s) as [jobs [E H]].
  exists jobs. split; [exact E|]. split; [|exact H].
  apply Forall2_length in H. now rewrite <- H.
Qed.

(** The first sample record when every draw is 7. *)
Example first_sample_record :
  match fst (TechSite.sample_job
               {| element := unit;
                  http_get := timed_out;
                  page_text := fun _ _ => None;
                  page_select := fun _ _ => [];
                  page_links := fun _ => [];
                  page_find_all := fun _ _ _ => [];
                  page_prettify := fun page => page;
                  tag_name := fun _ => "";
                  tag_text := fun _ => "";
                  tag_href := fun _ => None;
                  tag_find := fun _ _ => None;
                  tag_find_class := fun _ _ _ => None;
                  tag_find_link := fun _ => None;
                  tag_find_all_class := fun _ _ _ => [];
                  tag_select_one := fun _ _ => None;
                  url_join := fun base url => url;
                  open_error := fun _ => None;
                  excel_error := fun _ => None;
                  draw := fun _ => 7 |} 0 fresh) with
  | Returns job =>
      dict_get job "JobTitle" = Some "Cloud Architect"
      /\ dict_get job "Location" = Some "Los Angeles, CA"
      /\ dict_get job "JobURL" = Some "https://careers.amazon.com/job/1000"
  | Raises _ => False
  end.
Proof. repeat split. Qed.

Module ScraperFacts.
Import RunFacts TechSite.

Lemma link_url_ensures (W : web) (url : string) (link : option (element W)) :
  ensures (link_url W url link) (fun _ => True).
Proof. apply ensures_true. Qed.

Lemma stackoverflow_card_ok (W : web) (card : element W) :
  ensures (stackoverflow_card W card)
    (fun job => scraped_record job /\ dict_get job "SkillsRequired" = Some "").
Proof.
  unfold stackoverflow_card.
  apply (ensures_bind _ _ (fun _ => True)); [apply ensures_true | intros u _].
  apply ensures_ret. unfold scraped_record.
  split; [split; [apply job_record_schema | repeat split] | reflexivity].
Qed.

Lemma remoteok_row_ok (W : web) (row : element W) :
  ensures (remoteok_row W row)
    (fun job => scraped_record job /\ dict_get job "Location" = Some "Remote").
Proof.
  unfold remoteok_row.
  apply (ensures_bind _ _ (fun _ => True)); [apply ensures_true | intros u _].
  apply ensures_ret. unfold scraped_record.
  split; [split; [apply job_record_schema | repeat split] | reflexivity].
Qed.

Lemma collect_cards_ok (W : web) (body : element W -> SM dict) (P : dict -> Prop)
      (cards : list (element W)) :
  (forall card, ensures (body card) P) ->
  forall jobs,
    Forall P jobs ->
    safe (collect_cards W body cards jobs)
      (fun out => Forall P out
                  /\ List.length out <= List.length jobs + List.length cards).
Proof.
  intro Hbody. induction cards as [|card cards IH]; intros jobs Hjobs.
  - apply safe_ret. split; [exact Hjobs | simpl; lia].
  - simpl collect_cards.
    apply (safe_bind _ _ (fun r => match r with Some job => P job | None => True end)).
    + apply safe_attempt.
      * apply (ensures_bind _ _ P); [apply Hbody|].
        intros job Hjob. now apply ensures_ret.
      * intro e. now apply safe_ret.
    + intros [job|] Hr.
      * eapply safe_weaken.
        -- apply IH. apply Forall_app. split; [exact Hjobs | now constructor].
        -- intros out [Hout Hlen]. split; [exact Hout|].
           rewrite length_app in Hlen. simpl in *. lia.
      * eapply safe_weaken; [apply IH; exact Hjobs|].
        intros out [Hout Hlen]. split; [exact Hout | simpl; lia].
Qed.

Lemma scraper_ok (W : web) (body : element W -> SM dict) (P : dict -> Prop)
      (first : line) (failed : exn -> line) (url tag cls : string) (limit : nat) :
  (forall card, ensures (body card) P) ->
  safe (attempt
          (say first ~;;
           resp <~ fetch W url ;;
           collect_cards W body
             (firstn limit (page_find_all W (content resp) tag cls)) [])
          (fun e => say (failed e) ~;; sret []))
    (fun out => Forall P out /\ List.length out <= limit).
Proof.
  intro Hbody. apply safe_attempt.
  - apply (ensures_bind _ _ (fun _ => True)); [apply ensures_true | intros _ _].
    apply (ensures_bind _ _ (fun _ => True)); [apply ensures_true | intros resp _].
    apply safe_ensures. eapply safe_weaken.
    + apply (collect_cards_ok W body P); [exact Hbody | constructor].
    + intros out [Hout Hlen]. split; [exact Hout|].
      pose proof (firstn_le_length limit (page_find_all W (content resp) tag cls)).
      simpl in Hlen. lia.
  - intro e. apply (safe_bind _ _ (fun _ => True)); [apply safe_say | intros _ _].
    apply safe_ret. split; [constructor | simpl; lia].
Qed.

End ScraperFacts.

(** X24: [try_scrape_remoteok] never raises and returns at most 15
    records, each with the seven fields of the schema in their order, the
    location "Remote" and empty experience, salary and summary; when the
    page cannot be fetched it returns none and prints the failure. *)
Theorem remoteok_records (W : web) (s : site) :
  (exists jobs s',
      TechSite.try_scrape_remoteok W s = (Returns jobs, s')
      /\ List.length jobs <= 15
      /\ Forall (fun job => scraped_record job
                            /\ dict_get job "Location" = Some "Remote") jobs)
  /\ (fetch_fails (http_get W) TechSite.remoteok_url = true ->
      exists e,
        TechSite.try_scrape_remoteok W s
        = (Returns [],
           {| console := RemoteOKFailed e :: AttemptingRemoteOK :: console s;
              tables := tables s; texts := texts s; drawn := drawn s |})).
Proof.
  split.
  - destruct (ScraperFacts.scraper_ok W (TechSite.remoteok_row W) _
                AttemptingRemoteOK RemoteOKFailed TechSite.remoteok_url
                "tr" "job" 15 (ScraperFacts.remoteok_row_ok W) s)
      as [jobs [s' [E [HP Hlen]]]].
    exists jobs, s'. split; [exact E|]. now split.
  - intro H. unfold TechSite.try_scrape_remoteok, attempt.
    unfold sbind at 1, say at 1. unfold sbind at 1.
    destruct (fetch_of_failure W TechSite.remoteok_url
                {| console := AttemptingRemoteOK :: console s; tables := tables s;
                   texts := texts s; drawn := drawn s |} H) as [e He].
    rewrite He. exists e. reflexivity.
Qed.

Lemma remoteok_records_witness :
  exists e,
    TechSite.try_scrape_remoteok (offline unit) fresh
    = (Returns [],
       {| console := [RemoteOKFailed e; AttemptingRemoteOK];
          tables := []; texts := []; drawn := 0 |}).
Proof.
  apply (proj2 (remoteok_records (offline unit) fresh)). reflexivity.
Defined.

(** X25: [try_scrape_stackoverflow_jobs] never raises and returns at most
    10 records, each with the seven fields of the schema in their order
    and empty experience, skills, salary and summary; when the page cannot
    be fetched it returns none and prints the failure. *)
Theorem stackoverflow_records (W : web) (s : site) :
  (exists jobs s',
      TechSite.try_scrape_stackoverflow_jobs W s = (Returns jobs, s')
      /\ List.length jobs <= 10
      /\ Forall (fun job => scraped_record job
                            /\ dict_get job "SkillsRequired" = Some "") jobs)
  /\ (fetch_fails (http_get W) TechSite.stackoverflow_url = true ->
      exists e,
        TechSite.try_scrape_stackoverflow_jobs W s
        = (Returns [],
           {| console := StackOverflowFailed e :: AttemptingStackOverflow
                         :: console s;
              tables := tables s; texts := texts s; drawn := drawn s |})).
Proof.
  split.
  - destruct (ScraperFacts.scraper_ok W (TechSite.stackoverflow_card W) _
                AttemptingStackOverflow StackOverflowFailed
                TechSite.stackoverflow_url "div" "listResults" 10
                (ScraperFacts.stackoverflow_card_ok W) s)
      as [jobs [s' [E [HP Hlen]]]].
    exists jobs, s'. split; [exact E|]. now split.
  - intro H. unfold TechSite.try_scrape_stackoverflow_jobs, attempt.
    unfold sbind at 1, say at 1. unfold sbind at 1.
    destruct (fetch_of_failure W TechSite.stackoverflow_url
                {| console := AttemptingStackOverflow :: console s;
                   tables := tables s; texts := texts s; drawn := drawn s |} H)
      as [e He].
    rewrite He. exists e. reflexivity.
Qed.

Lemma stackoverflow_records_witness :
  exists e,
    TechSite.try_scrape_stackoverflow_jobs (offline unit) fresh
    = (Returns [],
       {| console := [StackOverflowFailed e; AttemptingStackOverflow];
          tables := []; texts := []; drawn := 0 |}).
Proof.
  apply (proj2 (stackoverflow_records (offline unit) fresh)). reflexivity.
Defined.

(** ** The spreadsheets a run touches *)

Module TableFacts.

Section Only.

Variable filename : string.

Lemma ot_ret {A : Type} (a : A) : only_table filename (sret a).
Proof. intros s other _. reflexivity. Qed.

Lemma ot_raise {A : Type} (e : exn) : only_table filename (@sraise A e).
Proof. intros s other _. reflexivity. Qed.

Lemma ot_lift {A : Type} (r : result A) : only_table filename (slift r).
Proof. intros s other _. reflexivity. Qed.

Lemma ot_say (l : line) : only_table filename (say l).
Proof. intros s other _. reflexivity. Qed.

Lemma ot_say_mark (console_error : option exn) (l : line) :
  only_table filename (say_mark console_error l).
Proof. intros s other _. now destruct console_error. Qed.

Lemma ot_bind {A B : Type} (c : SM A) (k : A -> SM B) :
  only_table filename c -> (forall a, only_table filename (k a)) ->
  only_table filename (sbind c k).
Proof.
  intros Hc Hk s other Hne. unfold sbind. specialize (Hc s other Hne).
  destruct (c s) as [[a | e] s1]; [|exact Hc].
  simpl in Hc. rewrite <- Hc. now apply Hk.
Qed.

Lemma ot_attempt {A : Type} (body : SM A) (handler : exn -> SM A) :
  only_table filename body -> (forall e, only_table filename (handler e)) ->
  only_table filename (attempt body handler).
Proof.
  intros Hb Hh s other Hne. unfold attempt. specialize (Hb s other Hne).
  destruct (body s) as [[a | e] s1]; [exact Hb|].
  simpl in Hb. rewrite <- Hb. now apply Hh.
Qed.

Lemma ot_inner {A : Type} (c : M A) :
  (forall w other, other <> filename ->
                   read_file (files (snd (c w))) other = read_file (files w) other) ->
  only_table filename (inner c).
Proof.
  intros H s other Hne. unfold inner. cbn [snd tables].
  now rewrite H.
Qed.

Lemma ot_fetch (W : web) (url : string) : only_table filename (fetch W url).
Proof.
  unfold fetch. apply ot_bind; [apply ot_lift | intro resp].
  destruct ((400 <=? status_code resp) && (status_code resp <? 600));
    [apply ot_raise | apply ot_ret].
Qed.

Lemma ot_write_text (W : web) (name text : string) :
  only_table filename (write_text W name text).
Proof.
  intros s other _. unfold write_text. now destruct (open_error W name).
Qed.

Lemma ot_select_cards (W : web) (selectors : list string) (page : string) :
  only_table filename (select_cards W selectors page).
Proof.
  induction selectors as [|sel l IH]; simpl; [apply ot_ret|].
  destruct (page_select W page sel); [exact IH|].
  apply ot_bind; [apply ot_say | intro; apply ot_ret].
Qed.

Lemma ot_detail (pats : list Re.regex) (kws selectors : list string)
      (W : web) (job_url : string) :
  only_table filename
    (inner (get_job_detail (http_get W) (page_text W) selectors
              (extract_experience_and_skills pats kws) job_url)).
Proof.
  apply ot_inner. intros w other _.
  destruct (detail_consistent (http_get W) (page_text W) selectors pats kws
              job_url w) as [d [w' [E [Hf _]]]].
  rewrite E. simpl. now rewrite Hf.
Qed.

Lemma ot_choice (W : web) (seq : list string) :
  only_table filename (TechSite.choice W seq).
Proof. intros s other _. reflexivity. Qed.

End Only.

Lemma save_other (write_error : string -> option exn) (jobs : list dict)
      (filename other : string) (w : world) :
  other <> filename ->
  read_file (files (snd (save_to_excel write_error jobs filename w))) other
  = read_file (files w) other.
Proof.
  intro Hne. destruct jobs as [|j jobs]; [reflexivity|].
  unfold save_to_excel, try_except, bind, lift.
  destruct (getitem (ensure_columns (DataFrame (j :: jobs)) required_columns)
              required_columns) as [df | e]; [|reflexivity].
  pose proof (to_excel_other_files write_error (fillna df "") filename other w Hne)
    as Hother.
  unfold to_excel in *. destruct (write_error filename); exact Hother.
Qed.

Lemma tech_save_other (write_error : string -> option exn)
      (console_error : option exn) (jobs : list dict)
      (filename other : string) (w : world) :
  other <> filename ->
  read_file
    (files (snd (tech_save_to_excel write_error console_error jobs filename w)))
    other
  = read_file (files w) other.
Proof.
  intro Hne. destruct jobs as [|j jobs]; [reflexivity|].
  unfold tech_save_to_excel, try_except, bind, lift, print_mark.
  destruct (getitem (ensure_columns (DataFrame (j :: jobs)) required_columns)
              required_columns) as [df | e]; [|reflexivity].
  pose proof (to_excel_other_files write_error (fillna df "") filename other w Hne)
    as Hother.
  unfold to_excel in *.
  destruct (write_error filename); [exact Hother|].
  destruct console_error; exact Hother.
Qed.

Ltac ot :=
  repeat match goal with
         | |- only_table _ (sbind _ _) => apply ot_bind; [|intro]
         | |- only_table _ (attempt _ _) => apply ot_attempt; [|intro]
         | |- only_table _ (sret _) => apply ot_ret
         | |- only_table _ (say _) => apply ot_say
         | |- only_table _ (say_mark _ _) => apply ot_say_mark
         | |- only_table _ (slift _) => apply ot_lift
         | |- only_table _ (sraise _) => apply ot_raise
         | |- only_table _ (fetch _ _) => apply ot_fetch
         | |- only_table _ (write_text _ _ _) => apply ot_write_text
         | |- only_table _ (select_cards _ _ _) => apply ot_select_cards
         | |- only_table _ (TechSite.choice _ _) => apply ot_choice
         | |- only_table _ (inner (Github.get_job_detail _ _ _)) =>
             unfold Github.get_job_detail; apply ot_detail
         | |- only_table _ (inner (Microsoft.get_job_detail _ _ _)) =>
             unfold Microsoft.get_job_detail; apply ot_detail
         | |- only_table _ (if ?b then _ else _) => destruct b
         | |- only_table _ (match ?x with _ => _ end) => destruct x
         end.

Lemma ot_github_listings (filename : string) (W : web) :
  only_table filename (GithubSite.get_job_listings W).
Proof.
  assert (Hcard : forall n i card,
             only_table filename (GithubSite.process_card W n i card)).
  { intros n i card. unfold GithubSite.process_card. ot. }
  assert (Hcards : forall cards n i jobs,
             only_table filename (GithubSite.process_cards W n i cards jobs)).
  { induction cards as [|card cards IH]; intros n i jobs; simpl; ot.
    - apply Hcard.
    - apply IH. }
  unfold GithubSite.get_job_listings. ot; apply Hcards.
Qed.

Lemma ot_microsoft_listings (filename : string) (W : web) (page : Z) :
  only_table filename (MicrosoftSite.get_job_listings W page).
Proof.
  assert (Hcard : forall url n i card,
             only_table filename (MicrosoftSite.process_card W url n i card)).
  { intros url n i card. unfold MicrosoftSite.process_card. ot. }
  assert (Hcards : forall cards url n i jobs,
             only_table filename (MicrosoftSite.process_cards W url n i cards jobs)).
  { induction cards as [|card cards IH]; intros url n i jobs; simpl; ot.
    - apply Hcard.
    - apply IH. }
  assert (Hurls : forall urls, only_table filename (MicrosoftSite.try_urls W urls)).
  { induction urls as [|url urls IH]; simpl; ot. exact IH. }
  unfold MicrosoftSite.get_job_listings. ot; try apply Hurls; apply Hcards.
Qed.

Lemma ot_scrape_pages (filename : string) (W : web) (max_pages : Z) (pages : list Z) :
  forall all_jobs,
    only_table filename (MicrosoftSite.scrape_pages W max_pages pages all_jobs).
Proof.
  induction pages as [|page pages IH]; intro all_jobs; simpl; ot;
    try apply ot_microsoft_listings; apply IH.
Qed.

End TableFacts.

(** ** The records of the scrapers and the frame *)

Module SchemaFacts.

Lemma dict_get_some (j : dict) (c : string) :
  In c (dict_keys j) -> exists v, dict_get j c = Some v.
Proof.
  induction j as [|[k v] j IH]; simpl; [intros []|].
  intro H. destruct (String.eqb k c) eqn:E; [now exists v|].
  destruct H as [H | H]; [|exact (IH H)].
  subst. rewrite String.eqb_refl in E. discriminate.
Qed.

Lemma add_keys_schema (d : dict) :
  schema_record d ->
  add_keys [] d = required_columns
  /\ add_keys required_columns d = required_columns.
Proof.
  unfold schema_record, add_keys. intros ->. split; reflexivity.
Qed.

Lemma union_keys_schema (jobs : list dict) :
  Forall schema_record jobs -> jobs <> [] -> union_keys jobs = required_columns.
Proof.
  intros H Hne. destruct jobs as [|j jobs]; [congruence|].
  inversion H as [|? ? Hj Hjobs]; subst. unfold union_keys. simpl.
  rewrite (proj1 (add_keys_schema j Hj)). clear H Hne Hj.
  induction Hjobs as [|j' jobs' Hj' _ IH]; [reflexivity|].
  simpl. now rewrite (proj2 (add_keys_schema j' Hj')).
Qed.

Lemma field_present (jobs : list dict) (c : string) :
  Forall schema_record jobs -> In c required_columns ->
  map (field_or_empty c) jobs = map (fun d => dict_get d c) jobs.
Proof.
  intros H Hc. induction H as [|j jobs Hj _ IH]; [reflexivity|].
  simpl. rewrite IH. f_equal. unfold field_or_empty.
  destruct (dict_get_some j c) as [v ->]; [|reflexivity].
  unfold schema_record in Hj. now rewrite Hj.
Qed.

Lemma frame_is_schema_table (jobs : list dict) :
  Forall schema_record jobs -> jobs <> [] -> DataFrame jobs = schema_table jobs.
Proof.
  intros H Hne. unfold DataFrame, schema_table.
  rewrite (union_keys_schema jobs H Hne). f_equal.
  apply map_ext_in. intros c Hc. now rewrite (field_present jobs c H Hc).
Qed.

End SchemaFacts.

(** X29: for records that have the seven fields of the schema in their
    order, as all the scrapers and the sample generator make them, the
    frame [DataFrame(jobs)] already is the table that is written: the
    writer's loop adds no column, and no cell has to be filled. *)
Theorem schema_records_need_no_repair (jobs : list dict) :
  Forall schema_record jobs ->
  jobs <> [] ->
  column_names (DataFrame jobs) = required_columns
  /\ ensure_columns (DataFrame jobs) required_columns = DataFrame jobs
  /\ getitem (DataFrame jobs) required_columns = Returns (DataFrame jobs)
  /\ fillna (DataFrame jobs) "" = DataFrame jobs.
Proof.
  intros H Hne.
  pose proof (SchemaFacts.frame_is_schema_table jobs H Hne) as E.
  rewrite E. split; [reflexivity|]. split; [reflexivity|].
  split; [reflexivity|].
  unfold fillna, schema_table. cbn [nrows columns]. f_equal.
  rewrite map_map. apply map_ext. intro c. cbn [fst snd].
  rewrite map_map. apply (f_equal (pair c)). apply map_ext. intro j. unfold field_or_empty.
  now destruct (dict_get j c).
Qed.

Lemma schema_records_need_no_repair_witness :
  column_names (DataFrame [job_record "Engineer" "Remote" "" "" "" "" ""])
  = required_columns
  /\ ensure_columns (DataFrame [job_record "Engineer" "Remote" "" "" "" "" ""])
       required_columns
     = DataFrame [job_record "Engineer" "Remote" "" "" "" "" ""]
  /\ getitem (DataFrame [job_record "Engineer" "Remote" "" "" "" "" ""])
       required_columns
     = Returns (DataFrame [job_record "Engineer" "Remote" "" "" "" "" ""])
  /\ fillna (DataFrame [job_record "Engineer" "Remote" "" "" "" "" ""]) ""
     = DataFrame [job_record "Engineer" "Remote" "" "" "" "" ""].
Proof.
  apply (schema_records_need_no_repair
           [job_record "Engineer" "Remote" "" "" "" "" ""]).
  - repeat constructor.
  - discriminate.
Defined.

(** ** The [main] functions and the console *)

Module TechMainFacts.
Import RunFacts FixedFacts TechSite.

Lemma lands_bind {A B : Type} (c : SM A) (k : A -> SM B)
      (P : A -> Prop) (T : site -> Prop) :
  ensures c P -> (forall a, P a -> lands (k a) T) -> lands (sbind c k) T.
Proof.
  intros Hc Hk s b s' E. unfold sbind in E.
  destruct (c s) as [[a | e] s1] eqn:Ec; [|discriminate].
  exact (Hk a (Hc s a s1 Ec) s1 b s' E).
Qed.

Lemma lands_then_keeps {A B : Type} (c : SM A) (k : A -> SM B) (T : site -> Prop) :
  lands c T -> (forall a, keeps (k a) T) -> lands (sbind c k) T.
Proof.
  intros Hc Hk s b s' E. unfold sbind in E.
  destruct (c s) as [[a | e] s1] eqn:Ec; [|discriminate].
  pose proof (Hk a s1 (Hc s a s1 Ec)) as H. now rewrite E in H.
Qed.

Lemma keeps_bind {A B : Type} (c : SM A) (k : A -> SM B) (T : site -> Prop) :
  keeps c T -> (forall a, keeps (k a) T) -> keeps (sbind c k) T.
Proof.
  intros Hc Hk s Hs. unfold sbind. specialize (Hc s Hs).
  destruct (c s) as [[a | e] s1]; [|exact Hc].
  exact (Hk a s1 Hc).
Qed.

Section Table.

(** A property of the written tables. *)
Variable T : site -> Prop.
Hypothesis T_tables : forall s s', tables s' = tables s -> T s -> T s'.

Lemma keeps_say (l : line) : keeps (say l) T.
Proof. intros s H. apply (T_tables s); [reflexivity | exact H]. Qed.

Lemma keeps_say_mark (console_error : option exn) (l : line) :
  keeps (say_mark console_error l) T.
Proof. destruct console_error; [intros s H; exact H | apply keeps_say]. Qed.

Lemma keeps_ret {A : Type} (a : A) : keeps (sret a) T.
Proof. intros s H. exact H. Qed.

Lemma keeps_lift {A : Type} (r : result A) : keeps (slift r) T.
Proof. intros s H. exact H. Qed.

Lemma keeps_skills_line (job : dict) : keeps (skills_line job) T.
Proof.
  unfold skills_line. apply keeps_bind; [apply keeps_lift | intro skills].
  destruct (nonempty skills); [|apply keeps_say].
  apply keeps_bind; [apply keeps_lift | intro; apply keeps_say].
Qed.

Lemma keeps_show_jobs (jobs : list dict) :
  forall i, keeps (show_jobs i jobs) T.
Proof.
  induction jobs as [|job jobs IH]; intro i; simpl; [apply keeps_ret|].
  apply keeps_bind; [apply keeps_lift | intro].
  apply keeps_bind; [apply keeps_say | intro].
  apply keeps_bind; [apply keeps_lift | intro].
  apply keeps_bind; [apply keeps_say | intro].
  apply keeps_bind; [apply keeps_skills_line | intro].
  apply keeps_bind; [apply keeps_lift | intro].
  apply keeps_bind; [apply keeps_say | intro].
  apply keeps_bind; [apply keeps_say | intro].
  apply IH.
Qed.

End Table.

(** *** The two scrapers give the same jobs from every state *)

Lemma fixed_link_url (W : web) (url : string) (link : option (element W)) :
  fixed (link_url W url link).
Proof.
  unfold link_url. destruct link as [e|]; [|apply fixed_ret].
  destruct (tag_href W e); [apply fixed_ret | apply fixed_raise].
Qed.

Lemma fixed_collect (W : web) (body : element W -> SM dict)
      (cards : list (element W)) :
  (forall card, fixed (body card)) ->
  forall jobs, fixed (collect_cards W body cards jobs).
Proof.
  intro Hbody. induction cards as [|card cards IH]; intro jobs; simpl;
    [apply fixed_ret|].
  apply fixed_bind.
  - apply fixed_attempt.
    + apply fixed_bind; [apply Hbody | intro; apply fixed_ret].
    + intro e. apply fixed_ret.
  - intro r. apply IH.
Qed.

Lemma fixed_remoteok (W : web) : fixed (try_scrape_remoteok W).
Proof.
  unfold try_scrape_remoteok. apply fixed_attempt.
  - apply fixed_bind; [apply fixed_say | intros _].
    apply fixed_bind; [apply fixed_fetch | intro resp].
    apply fixed_collect. intro row. unfold remoteok_row.
    apply fixed_bind; [apply fixed_link_url | intro; apply fixed_ret].
  - intro e. apply fixed_bind; [apply fixed_say | intro; apply fixed_ret].
Qed.

Lemma fixed_stackoverflow (W : web) : fixed (try_scrape_stackoverflow_jobs W).
Proof.
  unfold try_scrape_stackoverflow_jobs. apply fixed_attempt.
  - apply fixed_bind; [apply fixed_say | intros _].
    apply fixed_bind; [apply fixed_fetch | intro resp].
    apply fixed_collect. intro card. unfold stackoverflow_card.
    apply fixed_bind; [apply fixed_link_url | intro; apply fixed_ret].
  - intro e. apply fixed_bind; [apply fixed_say | intro; apply fixed_ret].
Qed.

Lemma remoteok_safe (W : web) :
  safe (try_scrape_remoteok W) (Forall schema_record).
Proof.
  eapply safe_weaken.
  - exact (ScraperFacts.scraper_ok W (remoteok_row W) _
             AttemptingRemoteOK RemoteOKFailed remoteok_url "tr" "job" 15
             (ScraperFacts.remoteok_row_ok W)).
  - intros jobs [H _]. eapply Forall_impl; [|exact H].
    intros job [[Hs _] _]. exact Hs.
Qed.

Lemma stackoverflow_safe (W : web) :
  safe (try_scrape_stackoverflow_jobs W) (Forall schema_record).
Proof.
  eapply safe_weaken.
  - exact (ScraperFacts.scraper_ok W (stackoverflow_card W) _
             AttemptingStackOverflow StackOverflowFailed stackoverflow_url
             "div" "listResults" 10 (ScraperFacts.stackoverflow_card_ok W)).
  - intros jobs [H _]. eapply Forall_impl; [|exact H].
    intros job [[Hs _] _]. exact Hs.
Qed.

Lemma remoteok_is (W : web) (s : site) :
  fst (try_scrape_remoteok W s) = Returns (remoteok_jobs W).
Proof.
  destruct (fixed_remoteok W) as [r Hr].
  destruct (remoteok_safe W s) as [jobs [s' [E _]]].
  pose proof (Hr s) as Hs. rewrite E in Hs. simpl in Hs. subst r.
  unfold remoteok_jobs. rewrite !Hr. reflexivity.
Qed.

Lemma stackoverflow_is (W : web) (s : site) :
  fst (try_scrape_stackoverflow_jobs W s) = Returns (stackoverflow_jobs W).
Proof.
  destruct (fixed_stackoverflow W) as [r Hr].
  destruct (stackoverflow_safe W s) as [jobs [s' [E _]]].
  pose proof (Hr s) as Hs. rewrite E in Hs. simpl in Hs. subst r.
  unfold stackoverflow_jobs. rewrite !Hr. reflexivity.
Qed.

(** *** The steps of [main] never raise on a console that prints every
    line *)

Lemma safe_fetch (W : web) (url : string) :
  fetch_fails (http_get W) url = false -> safe (fetch W url) (fun _ => True).
Proof.
  intros Hf s. unfold fetch_fails in Hf.
  destruct (http_get W url) as [resp|e] eqn:Eg; [|discriminate].
  exists resp, s. split; [|exact I].
  apply fetch_of_success; [exact Eg|]. unfold fetch_fails. now rewrite Eg.
Qed.

Lemma safe_item (job : dict) (key : string) :
  schema_record job -> In key required_columns ->
  safe (slift (dict_item job key)) (fun _ => True).
Proof.
  intros Hj Hk s.
  destruct (SchemaFacts.dict_get_some job key) as [v Hv].
  - unfold schema_record in Hj. now rewrite Hj.
  - exists v, s. unfold slift, dict_item. rewrite Hv. now split.
Qed.

Lemma safe_skills_line (job : dict) :
  schema_record job -> safe (skills_line job) (fun _ => True).
Proof.
  intro Hj. unfold skills_line.
  apply (safe_bind _ _ (fun _ => True));
    [apply safe_item; [exact Hj | simpl; tauto] | intros skills _].
  destruct (nonempty skills); [|apply safe_say].
  apply (safe_bind _ _ (fun _ => True));
    [apply safe_item; [exact Hj | simpl; tauto] | intros; apply safe_say].
Qed.

Lemma safe_show_jobs (jobs : list dict) :
  Forall schema_record jobs ->
  forall i, safe (show_jobs i jobs) (fun _ => True).
Proof.
  induction 1 as [|job jobs Hj _ IH]; intro i; simpl; [now apply safe_ret|].
  apply (safe_bind _ _ (fun _ => True));
    [apply safe_item; [exact Hj | simpl; tauto] | intros ? _].
  apply (safe_bind _ _ (fun _ => True)); [apply safe_say | intros ? _].
  apply (safe_bind _ _ (fun _ => True));
    [apply safe_item; [exact Hj | simpl; tauto] | intros ? _].
  apply (safe_bind _ _ (fun _ => True)); [apply safe_say | intros ? _].
  apply (safe_bind _ _ (fun _ => True));
    [apply safe_skills_line; exact Hj | intros ? _].
  apply (safe_bind _ _ (fun _ => True));
    [apply safe_item; [exact Hj | simpl; tauto] | intros ? _].
  apply (safe_bind _ _ (fun _ => True)); [apply safe_say | intros ? _].
  apply (safe_bind _ _ (fun _ => True)); [apply safe_say | intros ? _].
  apply IH.
Qed.

Lemma Forall_firstn_schema (n : nat) (jobs : list dict) :
  Forall schema_record jobs -> Forall schema_record (firstn n jobs).
Proof.
  intro H. apply Forall_forall. intros job Hin.
  apply firstn_In in Hin. revert job Hin. now apply Forall_forall.
Qed.

Lemma sample_schema (indices : list nat) (jobs : list dict) :
  Forall2 sample_record_at indices jobs -> Forall schema_record jobs.
Proof.
  induction 1 as [|i job indices jobs [Hj _] _ IH]; constructor; assumption.
Qed.

Lemma safe_generate (W : web) :
  safe (generate_sample_jobs W)
    (fun jobs => Forall2 sample_record_at (seq 0 25) jobs).
Proof.
  intro s. destruct (TechFacts.generate_ok W s) as [jobs [E H]].
  exists jobs. eexists. split; [exact E | exact H].
Qed.

Lemma tech_save_returns (write_error : string -> option exn)
      (console_error : option exn) (jobs : list dict) (filename : string)
      (w : world) :
  exists r out,
    tech_save_to_excel write_error console_error jobs filename w
    = (Returns r, out).
Proof.
  destruct jobs as [|j jobs]; [eexists; eexists; reflexivity|].
  unfold tech_save_to_excel, try_except, bind, lift, to_excel, print_mark.
  destruct (getitem (ensure_columns (DataFrame (j :: jobs)) required_columns)
              required_columns) as [df | e]; [|eexists; eexists; reflexivity].
  destruct (write_error filename); [eexists; eexists; reflexivity|].
  destruct console_error; eexists; eexists; reflexivity.
Qed.

Lemma safe_save (W : web) (console_error : option exn) (jobs : list dict) :
  safe (save W console_error jobs) (fun _ => True).
Proof.
  unfold save. apply safe_inner. intro w.
  destruct (tech_save_returns (excel_error W) console_error jobs
              "TechCompany_Jobs.xlsx" w) as [r [out E]].
  now exists r, out.
Qed.

Lemma main_body_safe (W : web) :
  fetch_fails (http_get W) "https://google.com" = false ->
  safe (main_body W None) (fun _ => True).
Proof.
  intro Hf. unfold main_body, say_mark.
  apply (safe_bind _ _ (fun _ => True)); [apply safe_say | intros ? _].
  apply (safe_bind _ _ (fun _ => True)); [now apply safe_fetch | intros ? _].
  apply (safe_bind _ _ (fun _ => True)); [apply safe_say | intros ? _].
  apply (safe_bind _ _ (fun _ => True)); [apply safe_say | intros ? _].
  apply (safe_bind _ _ (Forall schema_record));
    [apply remoteok_safe | intros remoteok Hr].
  apply (safe_bind _ _ (Forall schema_record)).
  { destruct remoteok as [|job remoteok]; [now apply safe_ret|].
    apply (safe_bind _ _ (fun _ => True)); [apply safe_say | intros ? _].
    now apply safe_ret. }
  intros jobs1 H1.
  apply (safe_bind _ _ (Forall schema_record));
    [apply stackoverflow_safe | intros so Hso].
  apply (safe_bind _ _ (Forall schema_record)).
  { destruct so as [|job so]; [now apply safe_ret|].
    apply (safe_bind _ _ (fun _ => True)); [apply safe_say | intros ? _].
    apply safe_ret. apply Forall_app. now split. }
  intros jobs2 H2.
  apply (safe_bind _ _ (Forall schema_record)).
  { destruct jobs2 as [|job jobs2]; [|now apply safe_ret].
    apply (safe_bind _ _ (fun _ => True)); [apply safe_say | intros ? _].
    apply (safe_bind _ _ (fun jobs => Forall2 sample_record_at (seq 0 25) jobs));
      [apply safe_generate | intros sample Hs].
    apply (safe_bind _ _ (fun _ => True)); [apply safe_say | intros ? _].
    apply safe_ret. simpl. exact (sample_schema _ _ Hs). }
  intros jobs3 H3.
  destruct jobs3 as [|job jobs3]; [apply safe_say|].
  apply (safe_bind _ _ (fun _ => True)); [apply safe_save | intros success _].
  destruct success as [[|]|]; try now apply safe_ret.
  apply (safe_bind _ _ (fun _ => True)); [apply safe_say | intros ? _].
  apply (safe_bind _ _ (fun _ => True)); [apply safe_say | intros ? _].
  apply (safe_bind _ _ (fun _ => True));
    [apply safe_show_jobs; now apply Forall_firstn_schema | intros ? _].
  apply (safe_bind _ _ (fun _ => True)); [apply safe_say | intros ? _].
  apply (safe_bind _ _ (fun _ => True)); [apply safe_say | intros ? _].
  apply safe_say.
Qed.

(** *** Which table [main] leaves *)

Lemma written_tables (W : web) (s s' : site) :
  tables s' = tables s -> tech_table_written W s -> tech_table_written W s'.
Proof.
  unfold tech_table_written. now intros ->.
Qed.

Lemma tech_save_written (write_error : string -> option exn) (jobs : list dict)
      (filename : string) (w : world) :
  jobs <> [] ->
  write_error filename = None ->
  exists out,
    tech_save_to_excel write_error None jobs filename w
    = (Returns (Some true), out)
    /\ read_file (files out) filename = Some (schema_table jobs).
Proof.
  intros Hne Hw. destruct jobs as [|j jobs]; [congruence|].
  unfold tech_save_to_excel, try_except, bind, lift, to_excel, print_mark.
  pose proof (FrameFacts.frame_to_write (j :: jobs)) as Hframe.
  destruct (getitem (ensure_columns (DataFrame (j :: jobs)) required_columns)
              required_columns) as [df | e]; [|contradiction].
  rewrite Hframe, Hw.
  eexists. split; [reflexivity|]. cbn [files print]. apply read_written.
Qed.

Lemma save_written (W : web) (jobs : list dict) (s : site) :
  jobs <> [] ->
  excel_error W "TechCompany_Jobs.xlsx" = None ->
  exists s',
    save W None jobs s = (Returns (Some true), s')
    /\ read_file (tables s') "TechCompany_Jobs.xlsx" = Some (schema_table jobs)
    /\ drawn s' = drawn s.
Proof.
  intros Hne Hw. unfold save, inner.
  destruct (tech_save_written (excel_error W) jobs "TechCompany_Jobs.xlsx"
              {| stdout := []; files := tables s |} Hne Hw) as [out [E Hr]].
  rewrite E. eexists. split; [reflexivity|]. split; [exact Hr | reflexivity].
Qed.

Lemma save_lands (W : web) (jobs : list dict) :
  jobs <> [] ->
  tech_main_records W jobs ->
  excel_error W "TechCompany_Jobs.xlsx" = None ->
  lands (save W None jobs) (tech_table_written W).
Proof.
  intros Hne Hrec Hw s a s' E.
  destruct (save_written W jobs s Hne Hw) as [s1 [E1 [Hr _]]].
  rewrite E in E1. inversion E1; subst. now exists jobs.
Qed.

(** What the two handlers of [main] do after their first line. *)
Lemma fallback_written (W : web) (l1 l2 : line) (s : site) :
  excel_error W "TechCompany_Jobs.xlsx" = None ->
  exists s' jobs,
    (say l1 ~;; say l2 ~;;
     sample_jobs <~ generate_sample_jobs W ;;
     save W None sample_jobs ~;; sret tt) s = (Returns tt, s')
    /\ read_file (tables s') "TechCompany_Jobs.xlsx" = Some (schema_table jobs)
    /\ List.length jobs = 25
    /\ Forall2 sample_record_at (seq 0 25) jobs
    /\ drawn s' = 150 + drawn s.
Proof.
  intro Hw. unfold sbind at 1, say at 1. unfold sbind at 1, say at 1.
  unfold sbind at 1.
  match goal with |- context [generate_sample_jobs W ?st] =>
    destruct (TechFacts.generate_ok W st) as [jobs [E H]] end.
  rewrite E.
  assert (Hlen : List.length jobs = 25)
    by (apply Forall2_length in H; now rewrite <- H).
  assert (Hne : jobs <> []) by (destruct jobs; [discriminate | discriminate]).
  unfold sbind at 1.
  match goal with |- context [save W None jobs ?st] =>
    destruct (save_written W jobs st Hne Hw) as [s1 [E1 [Hr Hd]]] end.
  rewrite E1. unfold sret. exists s1, jobs. now repeat split.
Qed.

Lemma fallback_returns (W : web) (l1 l2 : line) (s : site) :
  fst ((say l1 ~;; say l2 ~;;
        sample_jobs <~ generate_sample_jobs W ;;
        save W None sample_jobs ~;; sret tt) s) = Returns tt.
Proof.
  assert (H : safe (say l1 ~;; say l2 ~;;
                    sample_jobs <~ generate_sample_jobs W ;;
                    save W None sample_jobs ~;; sret tt) (fun _ => True)).
  { apply (safe_bind _ _ (fun _ => True)); [apply safe_say | intros ? _].
    apply (safe_bind _ _ (fun _ => True)); [apply safe_say | intros ? _].
    apply (safe_bind _ _ (fun _ => True));
      [eapply safe_weaken; [apply safe_generate | easy] | intros sample _].
    apply (safe_bind _ _ (fun _ => True)); [apply safe_save | intros ? _].
    now apply safe_ret. }
  destruct (H s) as [[] [s' [E _]]]. now rewrite E.
Qed.

Lemma ensures_value {A : Type} (c : SM A) (v : A) :
  (forall s, fst (c s) = Returns v) -> ensures c (fun a => a = v).
Proof.
  intros Hv s a s' E. pose proof (Hv s) as H. rewrite E in H.
  simpl in H. now injection H.
Qed.

Lemma main_body_lands (W : web) :
  fetch_fails (http_get W) "https://google.com" = false ->
  excel_error W "TechCompany_Jobs.xlsx" = None ->
  lands (main_body W None) (tech_table_written W).
Proof.
  intros Hf Hw. unfold main_body, say_mark.
  apply (lands_bind _ _ (fun _ => True)); [apply ensures_true | intros _ _].
  apply (lands_bind _ _ (fun _ => True)); [apply ensures_true | intros _ _].
  apply (lands_bind _ _ (fun _ => True)); [apply ensures_true | intros _ _].
  apply (lands_bind _ _ (fun _ => True)); [apply ensures_true | intros _ _].
  apply (lands_bind _ _ (fun a => a = remoteok_jobs W));
    [apply ensures_value; apply remoteok_is | intros remoteok ->].
  apply (lands_bind _ _ (fun a => a = remoteok_jobs W)).
  { destruct (remoteok_jobs W) as [|job remoteok]; [now apply ensures_ret|].
    apply (ensures_bind _ _ (fun _ => True)); [apply ensures_true | intros _ _].
    now apply ensures_ret. }
  intros jobs1 ->.
  apply (lands_bind _ _ (fun a => a = stackoverflow_jobs W));
    [apply ensures_value; apply stackoverflow_is | intros so ->].
  apply (lands_bind _ _ (fun a => a = scraped_jobs W)).
  { unfold scraped_jobs.
    destruct (stackoverflow_jobs W) as [|job so].
    - apply ensures_ret. now rewrite List.app_nil_r.
    - apply (ensures_bind _ _ (fun _ => True)); [apply ensures_true | intros _ _].
      now apply ensures_ret. }
  intros jobs2 ->.
  apply (lands_bind _ _ (fun jobs => jobs <> [] /\ tech_main_records W jobs)).
  { unfold tech_main_records. rewrite Hf.
    destruct (scraped_jobs W) as [|job jobs2].
    - apply (ensures_bind _ _ (fun _ => True)); [apply ensures_true | intros _ _].
      apply (ensures_bind _ _
               (fun jobs => Forall2 sample_record_at (seq 0 25) jobs));
        [apply safe_ensures, safe_generate | intros sample Hs].
      apply (ensures_bind _ _ (fun _ => True)); [apply ensures_true | intros _ _].
      apply ensures_ret. simpl. split; [|exact Hs].
      apply Forall2_length in Hs. destruct sample; discriminate.
    - apply ensures_ret. split; [discriminate | reflexivity]. }
  intros jobs [Hne Hrec]. destruct jobs as [|job jobs]; [congruence|].
  apply lands_then_keeps.
  - now apply save_lands.
  - pose proof (written_tables W) as HT.
    intros [[|]|]; try now apply keeps_ret.
    apply keeps_bind; [now apply keeps_say | intro].
    apply keeps_bind; [now apply keeps_say | intro].
    apply keeps_bind; [now apply keeps_show_jobs | intro].
    apply keeps_bind; [now apply keeps_say | intro].
    apply keeps_bind; [now apply keeps_say | intro].
    now apply keeps_say.
Qed.

End TechMainFacts.

(** X26: on a console that prints every line, and when the spreadsheet
    can be written, [main] of [scrape_tech_jobs.py] returns and leaves in
    TechCompany_Jobs.xlsx the table of the records it had to write: the
    jobs the two scrapers returned, Remote OK's first, when the connection
    test passes and there is at least one, and the 25 sample records
    otherwise.  What the two scrapers return does not depend on what was
    printed or written before. *)
Theorem tech_main_always_writes (W : web) (s : site) :
  (forall s0,
      fst (TechSite.try_scrape_remoteok W s0) = Returns (remoteok_jobs W))
  /\ (forall s0,
         fst (TechSite.try_scrape_stackoverflow_jobs W s0)
         = Returns (stackoverflow_jobs W))
  /\ (excel_error W "TechCompany_Jobs.xlsx" = None ->
      exists s' jobs,
        TechSite.main W None s = (Returns tt, s')
        /\ read_file (tables s') "TechCompany_Jobs.xlsx"
           = Some (schema_table jobs)
        /\ jobs <> []
        /\ tech_main_records W jobs).
Proof.
  split; [exact (TechMainFacts.remoteok_is W)|].
  split; [exact (TechMainFacts.stackoverflow_is W)|].
  intro Hw. unfold TechSite.main.
  unfold sbind at 1, say at 1. unfold sbind at 1, say at 1.
  unfold sbind at 1, say at 1.
  destruct (fetch_fails (http_get W) "https://google.com") eqn:Hf.
  - unfold TechSite.main_body. unfold sbind at 1, say at 1. unfold sbind at 1.
    match goal with |- context [fetch W "https://google.com" ?st] =>
      destruct (fetch_of_failure W "https://google.com" st Hf) as [e He] end.
    rewrite He.
    destruct (is_request_exception e); unfold say_mark; cbv beta iota;
      match goal with
      | |- context [sbind (say ?l1) (fun _ => sbind (say ?l2) _) ?st] =>
          destruct (TechMainFacts.fallback_written W l1 l2 st Hw)
            as [s' [jobs [E' [Hr [Hlen [Hs _]]]]]]
      end;
      exists s', jobs; (split; [exact E'|]); (split; [exact Hr|]);
      (split; [destruct jobs; discriminate|]);
      unfold tech_main_records; rewrite Hf; exact Hs.
  - match goal with |- context [TechSite.main_body W None ?st] =>
      destruct (TechMainFacts.main_body_safe W Hf st) as [[] [s1 [E _]]];
      pose proof (TechMainFacts.main_body_lands W Hf Hw st tt s1 E)
        as [jobs [Hr [Hne Hrec]]]
    end.
    rewrite E. now exists s1, jobs.
Qed.

Lemma tech_main_always_writes_witness :
  exists s' jobs,
    TechSite.main (offline unit) None fresh = (Returns tt, s')
    /\ read_file (tables s') "TechCompany_Jobs.xlsx" = Some (schema_table jobs)
    /\ jobs <> []
    /\ tech_main_records (offline unit) jobs.
Proof.
  apply (proj2 (proj2 (tech_main_always_writes (offline unit) fresh))).
  reflexivity.
Defined.

(** X27: on a console that prints every line, when the connection test of
    that [main] fails and the spreadsheet can be written, the spreadsheet
    holds the 25 sample records, one row each, made from the first 150
    draws of the run. *)
Theorem tech_main_offline (W : web) (s : site) :
  excel_error W "TechCompany_Jobs.xlsx" = None ->
  fetch_fails (http_get W) "https://google.com" = true ->
  exists s' jobs,
    TechSite.main W None s = (Returns tt, s')
    /\ read_file (tables s') "TechCompany_Jobs.xlsx" = Some (schema_table jobs)
    /\ List.length jobs = 25
    /\ Forall2 sample_record_at (seq 0 25) jobs
    /\ drawn s' = 150 + drawn s.
Proof.
  intros Hw Hf. unfold TechSite.main.
  unfold sbind at 1, say at 1. unfold sbind at 1, say at 1.
  unfold sbind at 1, say at 1.
  unfold TechSite.main_body. unfold sbind at 1, say at 1. unfold sbind at 1.
  match goal with |- context [fetch W "https://google.com" ?st] =>
    destruct (fetch_of_failure W "https://google.com" st Hf) as [e He] end.
  rewrite He.
  destruct (is_request_exception e); unfold say_mark; cbv beta iota;
    match goal with
    | |- context [sbind (say ?l1) (fun _ => sbind (say ?l2) _) ?st] =>
        destruct (TechMainFacts.fallback_written W l1 l2 st Hw)
          as [s' [jobs [E' H]]]
    end;
    exists s', jobs; (split; [exact E' | exact H]).
Qed.

Lemma tech_main_offline_witness :
  exists s' jobs,
    TechSite.main (offline unit) None fresh = (Returns tt, s')
    /\ read_file (tables s') "TechCompany_Jobs.xlsx" = Some (schema_table jobs)
    /\ List.length jobs = 25
    /\ Forall2 sample_record_at (seq 0 25) jobs
    /\ drawn s' = 150 + 0.
Proof.
  apply (tech_main_offline (offline unit) fresh); reflexivity.
Defined.

Module MainFacts.
Import TableFacts.

Lemma ot_handled (filename : string) (body : SM unit)
      (handler : exn -> site -> result unit * site) :
  only_table filename body ->
  (forall e, only_table filename (handler e)) ->
  only_table filename
    (fun s =>
       match body s with
       | (Returns a, s') => (Returns a, s')
       | (Raises e, s') => handler e s'
       end).
Proof.
  intros Hb Hh s other Hne. specialize (Hb s other Hne).
  destruct (body s) as [[a | e] s1]; [exact Hb|].
  simpl in Hb. rewrite <- Hb. now apply Hh.
Qed.

Lemma handled_returns (body : SM unit)
      (handler : exn -> site -> result unit * site) (s : site) :
  (forall e s1, fst (handler e s1) = Returns tt) ->
  fst (match body s with
       | (Returns a, s') => (Returns a, s')
       | (Raises e, s') => handler e s'
       end) = Returns tt.
Proof.
  intro H. destruct (body s) as [[[] | e] s1]; [reflexivity | apply H].
Qed.

Lemma fetch_state (W : web) (url : string) (s : site) :
  snd (fetch W url s) = s.
Proof.
  unfold fetch, sbind, slift. destruct (http_get W url) as [resp|e]; [|reflexivity].
  now destruct ((400 <=? status_code resp) && (status_code resp <? 600)).
Qed.

(** On a console that cannot print the mark, the [try] of a [main] ends
    with an exception right after the connection test. *)
Lemma body_raises (W : web) (url : string) (e : exn) (k : unit -> SM unit)
      (s : site) :
  exists e0,
    sbind (say TestingConnection)
      (fun _ => sbind (fetch W url)
                  (fun _ => sbind (say_mark (Some e) ConnectionOK) k)) s
    = (Raises e0,
       {| console := TestingConnection :: console s; tables := tables s;
          texts := texts s; drawn := drawn s |}).
Proof.
  unfold sbind at 1, say at 1. unfold sbind at 1.
  match goal with |- context [fetch W url ?st] =>
    pose proof (fetch_state W url st) as Hs;
    destruct (fetch W url st) as [[resp|e0] s1]
  end; simpl in Hs; subst s1.
  - exists e. reflexivity.
  - exists e0. reflexivity.
Qed.

Lemma ot_save (filename : string) (write_error : string -> option exn)
      (jobs : list dict) :
  only_table filename (inner (save_to_excel write_error jobs filename)).
Proof.
  apply ot_inner. intros w other Hne. now apply save_other.
Qed.

Lemma ot_tech_save (W : web) (console_error : option exn) (jobs : list dict) :
  only_table "TechCompany_Jobs.xlsx" (TechSite.save W console_error jobs).
Proof.
  apply ot_inner. intros w other Hne. now apply tech_save_other.
Qed.

Lemma ot_github_show (filename : string) (jobs : list dict) :
  forall i, only_table filename (GithubSite.show_jobs i jobs).
Proof.
  induction jobs as [|job jobs IH]; intro i; simpl; ot.
  - unfold GithubSite.url_line. ot.
  - apply IH.
Qed.

Lemma ot_microsoft_show (filename : string) (jobs : list dict) :
  forall i, only_table filename (MicrosoftSite.show_jobs i jobs).
Proof.
  induction jobs as [|job jobs IH]; intro i; simpl; ot. apply IH.
Qed.

Lemma ot_tech_show (filename : string) (jobs : list dict) :
  forall i, only_table filename (TechSite.show_jobs i jobs).
Proof.
  induction jobs as [|job jobs IH]; intro i; simpl; ot.
  - unfold TechSite.skills_line. ot.
  - apply IH.
Qed.

Lemma ot_generate (filename : string) (W : web) :
  only_table filename (TechSite.generate_sample_jobs W).
Proof.
  unfold TechSite.generate_sample_jobs. generalize (@nil dict).
  induction (seq 0 25) as [|i l IH]; intro jobs; simpl; ot.
  - unfold TechSite.sample_job. ot.
  - apply IH.
Qed.

Lemma ot_collect (filename : string) (W : web) (body : element W -> SM dict)
      (cards : list (element W)) :
  (forall card, only_table filename (body card)) ->
  forall jobs, only_table filename (TechSite.collect_cards W body cards jobs).
Proof.
  intro Hbody. induction cards as [|card cards IH]; intro jobs; simpl; ot.
  - apply Hbody.
  - apply IH.
Qed.

Lemma ot_link_url (filename : string) (W : web) (url : string)
      (link : option (element W)) :
  only_table filename (TechSite.link_url W url link).
Proof. unfold TechSite.link_url. ot. Qed.

Lemma ot_remoteok (filename : string) (W : web) :
  only_table filename (TechSite.try_scrape_remoteok W).
Proof.
  unfold TechSite.try_scrape_remoteok. ot. apply ot_collect.
  intro row. unfold TechSite.remoteok_row. ot. apply ot_link_url.
Qed.

Lemma ot_stackoverflow (filename : string) (W : web) :
  only_table filename (TechSite.try_scrape_stackoverflow_jobs W).
Proof.
  unfold TechSite.try_scrape_stackoverflow_jobs. ot. apply ot_collect.
  intro card. unfold TechSite.stackoverflow_card. ot. apply ot_link_url.
Qed.

Lemma ot_github_main (W : web) (console_error : option exn) :
  only_table "GitHub_Jobs.xlsx" (GithubSite.main W console_error).
Proof.
  unfold GithubSite.main. ot. apply ot_handled.
  - ot.
    + apply ot_github_listings.
    + apply ot_save.
    + apply ot_github_show.
  - intro e. intros s other Hne.
    destruct (is_request_exception e), console_error; reflexivity.
Qed.

Lemma ot_microsoft_main (W : web) (console_error : option exn) :
  only_table "Microsoft_Jobs.xlsx" (MicrosoftSite.main W console_error).
Proof.
  unfold MicrosoftSite.main. ot. apply ot_handled.
  - ot.
    + apply ot_scrape_pages.
    + apply ot_save.
    + apply ot_microsoft_show.
  - intro e. intros s other Hne.
    destruct (is_request_exception e), console_error; reflexivity.
Qed.

Lemma ot_tech_main (W : web) (console_error : option exn) :
  only_table "TechCompany_Jobs.xlsx" (TechSite.main W console_error).
Proof.
  assert (Hfall : forall l1 l2,
             only_table "TechCompany_Jobs.xlsx"
               (say_mark console_error l1 ~;; say l2 ~;;
                sample_jobs <~ TechSite.generate_sample_jobs W ;;
                TechSite.save W console_error sample_jobs ~;; sret tt)).
  { intros l1 l2. ot; [apply ot_generate | apply ot_tech_save]. }
  unfold TechSite.main. ot. apply ot_handled.
  - unfold TechSite.main_body. ot;
      first [ apply ot_remoteok | apply ot_stackoverflow | apply ot_generate
            | apply ot_tech_save | apply ot_tech_show ].
  - intro e. intros s other Hne.
    destruct (is_request_exception e); now apply Hfall.
Qed.

End MainFacts.

(** X28: the three [main] functions and the console.  On a console that
    prints every line no exception leaves a [main]: each of the three
    returns, whatever the network, the pages and the file system do.  On a
    console that cannot encode the marks of the scripts' lines every
    [main] ends with the console's error right after "Testing
    connection...", whatever the network does, because the line after the
    connection test and the first line of both handlers carry a mark:
    nothing is scraped, drawn or written.  In either case a run touches no
    spreadsheet but its own; the name of the page the listing may save is
    set aside. *)
Theorem mains_console_and_tables (W : web) (s : site) :
  (fst (GithubSite.main W None s) = Returns tt
   /\ fst (MicrosoftSite.main W None s) = Returns tt
   /\ fst (TechSite.main W None s) = Returns tt)
  /\ (forall e,
         GithubSite.main W (Some e) s
         = (Raises e, after_banner "GitHub Careers Job Scraper" s)
         /\ MicrosoftSite.main W (Some e) s
            = (Raises e, after_banner "Microsoft Careers Job Scraper" s)
         /\ TechSite.main W (Some e) s
            = (Raises e, after_banner "Tech Company Job Scraper" s))
  /\ (forall console_error other,
         (other <> "GitHub_Jobs.xlsx" ->
          other <> "debug_github_page.html" ->
          read_file (tables (snd (GithubSite.main W console_error s))) other
          = read_file (tables s) other)
         /\ (other <> "Microsoft_Jobs.xlsx" ->
             other <> "debug_page.html" ->
             read_file (tables (snd (MicrosoftSite.main W console_error s))) other
             = read_file (tables s) other)
         /\ (other <> "TechCompany_Jobs.xlsx" ->
             read_file (tables (snd (TechSite.main W console_error s))) other
             = read_file (tables s) other)).
Proof.
  split; [|split].
  - split; [|split].
    + unfold GithubSite.main, sbind at 1 2 3, say at 1 2 3.
      apply MainFacts.handled_returns.
      intros e s1. destruct (is_request_exception e); reflexivity.
    + unfold MicrosoftSite.main, sbind at 1 2 3, say at 1 2 3.
      apply MainFacts.handled_returns.
      intros e s1. destruct (is_request_exception e); reflexivity.
    + unfold TechSite.main, sbind at 1 2 3, say at 1 2 3.
      apply (MainFacts.handled_returns (TechSite.main_body W None)).
      intros e s1. unfold say_mark.
      destruct (is_request_exception e); apply TechMainFacts.fallback_returns.
  - intro e. split; [|split].
    + unfold GithubSite.main, sbind at 1 2 3, say at 1 2 3.
      match goal with
      | |- context [sbind (say TestingConnection)
                      (fun _ => sbind (fetch W ?url)
                                  (fun _ => sbind (say_mark (Some e) ConnectionOK) ?k))
                      ?st] =>
          destruct (MainFacts.body_raises W url e k st) as [e0 E]
      end.
      rewrite E. destruct (is_request_exception e0); reflexivity.
    + unfold MicrosoftSite.main, sbind at 1 2 3, say at 1 2 3.
      match goal with
      | |- context [sbind (say TestingConnection)
                      (fun _ => sbind (fetch W ?url)
                                  (fun _ => sbind (say_mark (Some e) ConnectionOK) ?k))
                      ?st] =>
          destruct (MainFacts.body_raises W url e k st) as [e0 E]
      end.
      rewrite E. destruct (is_request_exception e0); reflexivity.
    + unfold TechSite.main, sbind at 1 2 3, say at 1 2 3.
      unfold TechSite.main_body.
      match goal with
      | |- context [sbind (say TestingConnection)
                      (fun _ => sbind (fetch W ?url)
                                  (fun _ => sbind (say_mark (Some e) ConnectionOK) ?k))
                      ?st] =>
          destruct (MainFacts.body_raises W url e k st) as [e0 E]
      end.
      rewrite E. destruct (is_request_exception e0); reflexivity.
  - intros console_error other. split; [|split].
    + intros Hne _. now apply MainFacts.ot_github_main.
    + intros Hne _. now apply MainFacts.ot_microsoft_main.
    + intro Hne. now apply MainFacts.ot_tech_main.
Qed.

Lemma mains_console_and_tables_witness :
  read_file
    (tables (snd (GithubSite.main (offline unit) None
                    {| console := []; tables := [("Old.xlsx", schema_table [])];
                       texts := []; drawn := 0 |})))
    "Old.xlsx"
  = Some (schema_table [])
  /\ read_file
       (tables (snd (MicrosoftSite.main (offline unit) None
                       {| console := [];
                          tables := [("Old.xlsx", schema_table [])];
                          texts := []; drawn := 0 |})))
       "Old.xlsx"
     = Some (schema_table [])
  /\ read_file
       (tables (snd (TechSite.main (offline unit) None
                       {| console := [];
                          tables := [("Old.xlsx", schema_table [])];
                          texts := []; drawn := 0 |})))
       "Old.xlsx"
     = Some (schema_table []).
Proof.
  pose proof (proj2 (proj2 (mains_console_and_tables (offline unit)
                              {| console := [];
                                 tables := [("Old.xlsx", schema_table [])];
                                 texts := []; drawn := 0 |}))
                None "Old.xlsx") as [Hg [Hm Ht]].
  split; [|split].
  - apply Hg; discriminate.
  - apply Hm; discriminate.
  - apply Ht; discriminate.
Defined.
